(** * docs-updater: branch / pull-request reconciliation actions

    A shallow embedding of the actions of the documentation updater
    ([getBranch], [managePR], [findDocumentation], [writeDocumentation] and
    its helper [findSimilarDocs]) together with the properties the
    specification states about them.

    - JavaScript strings are sequences of UTF-16 code units; [length],
      [startsWith] and [includes] all work on code units, so a string is a
      [list N] here.
    - Every call to the hosting platform or to the text generator is an
      explicit request of a small free monad [Prog]; a run against a gateway
      yields the trace of requests that were issued, the gateway's final
      state and either the thrown error or the returned value. *)

From Stdlib Require Import ZArith NArith List String Ascii Bool Lia DecimalString.
Import ListNotations.

Set Implicit Arguments.

(* ================================================================== *)
(** ** JavaScript strings and the few built-ins the actions use        *)
(* ================================================================== *)

Module Js.

(** A string value: its UTF-16 code units. *)
Definition jsstring : Type := list N.

(** An ASCII literal of the source text. *)
Definition lit (s : string) : jsstring :=
  map N_of_ascii (list_ascii_of_string s).

(** [a === b] on strings. *)
Fixpoint eqb (a b : jsstring) : bool :=
  match a, b with
  | [], [] => true
  | x :: a', y :: b' => N.eqb x y && eqb a' b'
  | _, _ => false
  end.

(** [s.startsWith(p)]. *)
Fixpoint startsWith (s p : jsstring) {struct p} : bool :=
  match p, s with
  | [], _ => true
  | _ :: _, [] => false
  | c :: p', d :: s' => N.eqb c d && startsWith s' p'
  end.

(** [s.includes(needle)]: [needle] occurs at some offset of [s]. *)
Fixpoint includes (s needle : jsstring) : bool :=
  startsWith s needle ||
  match s with
  | [] => false
  | _ :: s' => includes s' needle
  end.

(** Truthiness of a string: only the empty string is falsy. *)
Definition truthy (s : jsstring) : bool :=
  match s with [] => false | _ :: _ => true end.

(** Truthiness of a [string | null | undefined] value. *)
Definition otruthy (o : option jsstring) : bool :=
  match o with Some s => truthy s | None => false end.

(** Numbers are the integral ones (pull request numbers, the millisecond
    clock), so a [number] is a [Z].  Truthiness of a [number | undefined]:
    [0] and [undefined] are falsy. *)
Definition ntruthy (o : option Z) : bool :=
  match o with Some n => negb (Z.eqb n 0) | None => false end.

(** [String(n)] for an integral number: its decimal digits, with a
    leading minus sign below zero. *)
Definition number_toString (n : Z) : jsstring :=
  lit (NilEmpty.string_of_int (Z.to_int n)).

(** A [number | undefined] value inside a template literal. *)
Definition template_number (o : option Z) : jsstring :=
  match o with
  | Some n => number_toString n
  | None => lit "undefined"
  end.

(** A [string | undefined] value inside a template literal. *)
Definition template_string (o : option jsstring) : jsstring :=
  match o with
  | Some s => s
  | None => lit "undefined"
  end.

(** [array.includes(s)] on an array of strings. *)
Definition array_includes (l : list jsstring) (s : jsstring) : bool :=
  existsb (eqb s) l.

Definition slash : N := 47.
Definition space : N := 32.
Definition dot : N := 46.

(** [s.split("/")]: the segments between slashes; never empty. *)
Fixpoint split_slash (s : jsstring) : list jsstring :=
  match s with
  | [] => [[]]
  | c :: s' =>
      if N.eqb c slash then [] :: split_slash s'
      else match split_slash s' with
           | seg :: segs => (c :: seg) :: segs
           | [] => [[c]]
           end
  end.

(** [arr.slice(-2, -1)]: both indices are counted from the end and
    clamped at zero. *)
Definition slice_m2_m1 (A : Type) (arr : list A) : list A :=
  let len := List.length arr in
  let from := (len - 2)%nat in
  let upto := (len - 1)%nat in
  firstn (upto - from) (skipn from arr).

(** [s.lastIndexOf(".")], [-1] when there is no dot. *)
Fixpoint lastIndexOf_dot_from (i : Z) (s : jsstring) (last : Z) : Z :=
  match s with
  | [] => last
  | c :: s' =>
      lastIndexOf_dot_from (i + 1) s' (if N.eqb c dot then i else last)
  end.

Definition lastIndexOf_dot (s : jsstring) : Z :=
  lastIndexOf_dot_from 0 s (-1).

(** [s.substring(i)]: a negative start is treated as [0]. *)
Definition substring_from (s : jsstring) (i : Z) : jsstring :=
  skipn (Z.to_nat i) s.

End Js.

Import Js.

(* ================================================================== *)
(** ** Data model                                                      *)
(* ================================================================== *)

(** An open pull request as [pulls.list] returns it; only the fields the
    actions read.  [body] is [string | null]. *)
Record Pull : Type := {
  pr_number : Z;
  pr_title : jsstring;
  pr_body : option jsstring;
  pr_head_ref : jsstring
}.

(** [interface BranchInfo]. *)
Record BranchInfo : Type := {
  bi_name : jsstring;
  bi_sha : jsstring;
  bi_exists : bool
}.

Inductive DocType : Type := doc | navigation.

(** An entry of [state.docInfo.files]; [content] is [string | null]. *)
Record DocFile : Type := {
  df_path : jsstring;
  df_content : option jsstring;
  df_type : DocType;
  df_lastModified : option jsstring
}.

(** An entry of [state.docInfo.existingPR.files]. *)
Record PRFile : Type := {
  prf_path : jsstring;
  prf_content : jsstring
}.

Record ExistingPR : Type := {
  epr_number : Z;
  epr_branch : jsstring;
  epr_files : list PRFile
}.

Record DocInfo : Type := {
  di_files : list DocFile;
  di_existingPR : option ExistingPR
}.

Inductive ChangeType : Type := added | modified | deleted.

Record ChangedFile : Type := {
  cf_path : jsstring;
  cf_diff : jsstring;
  cf_type : ChangeType
}.

(** [interface CommitInfo]. *)
Record CommitInfo : Type := {
  ci_files : list ChangedFile;
  ci_title : jsstring;
  ci_description : jsstring;
  ci_base_branch : jsstring;
  ci_head_branch : jsstring
}.

Record GeneratedContent : Type := {
  gc_content : jsstring;
  gc_path : jsstring;
  gc_type : DocType;
  gc_update_type : option jsstring
}.

(** Modelled from the spec: the [ReviewState] and [DocConfig] declarations
    of [../types] are not part of the sources; the fields are the ones the
    actions read and write ([state.config.matchRules.docExtensions],
    [state.config.llmConfig.styleGuide]) and the ones the data model of the
    specification lists. *)
Record Config : Type := {
  cfg_docExtensions : list jsstring;
  cfg_styleGuide : option jsstring
}.

Record ReviewState : Type := {
  commitInfo : option CommitInfo;
  docInfo : option DocInfo;
  branchInfo : option BranchInfo;
  generatedContent : option GeneratedContent;
  config : Config
}.

(** [{ ...state, branchInfo }]. *)
Definition with_branchInfo (state : ReviewState) (b : BranchInfo) : ReviewState :=
  {| commitInfo := commitInfo state;
     docInfo := docInfo state;
     branchInfo := Some b;
     generatedContent := generatedContent state;
     config := config state |}.

(** [state.docInfo = d]. *)
Definition with_docInfo (state : ReviewState) (d : DocInfo) : ReviewState :=
  {| commitInfo := commitInfo state;
     docInfo := Some d;
     branchInfo := branchInfo state;
     generatedContent := generatedContent state;
     config := config state |}.

(** [{ ...state, generatedContent }]. *)
Definition with_generatedContent (state : ReviewState) (g : GeneratedContent)
  : ReviewState :=
  {| commitInfo := commitInfo state;
     docInfo := docInfo state;
     branchInfo := branchInfo state;
     generatedContent := Some g;
     config := config state |}.

(** The part of [process.env] and of the clock the actions read. *)
Record Env : Type := {
  GITHUB_TOKEN : option jsstring;
  OPENAI_API_KEY : option jsstring;
  Date_now : Z
}.

(* ================================================================== *)
(** ** Requests to the hosting platform and to the text generator      *)
(* ================================================================== *)

Inductive Request : Type :=
| pulls_list (owner repo : jsstring)
| pulls_listFiles (owner repo : jsstring) (pull_number : Z)
| pulls_create (owner repo title body head base : jsstring)
| pulls_update (owner repo : jsstring) (pull_number : Z) (title body : jsstring)
| git_getRef (owner repo ref : jsstring)
| git_createRef (owner repo ref sha : jsstring)
| repos_get (owner repo : jsstring)
| repos_getContent (owner repo path ref : jsstring)
| issues_setLabels (owner repo : jsstring) (issue_number : Z) (labels : list jsstring)
| issues_addLabels (owner repo : jsstring) (issue_number : Z) (labels : list jsstring)
| issues_createComment (owner repo : jsstring) (issue_number : Z) (body : jsstring)
| chat_completions_create (messages : list jsstring).

(** What [repos.getContent] resolves to: a file carries [content] (base64)
    and [sha]; anything else (a directory listing, say) has no [content]
    key. *)
Inductive ContentData : Type :=
| file_data (content sha : jsstring)
| no_content.

(** The part of each response the actions read. *)
Definition Response (rq : Request) : Type :=
  match rq with
  | pulls_list _ _ => list Pull
  | pulls_listFiles _ _ _ => list jsstring
  | pulls_create _ _ _ _ _ _ => Z
  | git_getRef _ _ _ => jsstring
  | repos_get _ _ => jsstring
  | repos_getContent _ _ _ _ => ContentData
  | chat_completions_create _ => option jsstring
  | _ => unit
  end.

(** A thrown value: its message. *)
Definition Error : Type := jsstring.

(** Programs over the requests.  The continuation of a request receives
    either the rejection or the response. *)
Inductive Prog (A : Type) : Type :=
| Ret (a : A)
| Throw (e : Error)
| Call (rq : Request) (k : Error + Response rq -> Prog A).

Arguments Ret {A} a.
Arguments Throw {A} e.
Arguments Call {A} rq k.

Fixpoint bind (A B : Type) (p : Prog A) (f : A -> Prog B) : Prog B :=
  match p with
  | Ret a => f a
  | Throw e => Throw e
  | Call rq k => Call rq (fun r => bind (k r) f)
  end.

(** [await request]: a rejected promise throws. *)
Definition await (rq : Request) : Prog (Response rq) :=
  Call rq (fun r => match r with inl e => Throw e | inr v => Ret v end).

(** [try { p } catch (error) { handler }]. *)
Fixpoint try_catch (A : Type) (p : Prog A) (handler : Error -> Prog A) : Prog A :=
  match p with
  | Ret a => Ret a
  | Throw e => handler e
  | Call rq k => Call rq (fun r => try_catch (k r) handler)
  end.

Declare Scope prog_scope.
Delimit Scope prog_scope with prog.
Notation "x <- p ;; q" := (bind p (fun x => q))
  (at level 61, p at next level, right associativity) : prog_scope.
Notation "p ;;; q" := (bind p (fun _ => q))
  (at level 61, right associativity) : prog_scope.
Open Scope prog_scope.

(** The async callbacks of [Promise.all(xs.map(async (x) => ...))] issue
    their single request in array order and none of them rejects, so the
    results are gathered in array order. *)
Fixpoint mapM (A B : Type) (f : A -> Prog B) (xs : list A) : Prog (list B) :=
  match xs with
  | [] => Ret []
  | x :: xs' => y <- f x ;; ys <- mapM f xs' ;; Ret (y :: ys)
  end.

(** *** Running a program against a gateway *)

Section Run.

Variable W : Type.

(** A gateway answers each request from its current state, which the
    request may change. *)
Variable gateway : forall rq : Request, W -> W * (Error + Response rq).

(** The requests issued (in order), the final gateway state and the
    outcome: [inl] a thrown error, [inr] the returned value. *)
Fixpoint run (A : Type) (p : Prog A) (w : W) : list Request * W * (Error + A) :=
  match p with
  | Ret a => ([], w, inr a)
  | Throw e => ([], w, inl e)
  | Call rq k =>
      let '(w1, r) := gateway rq w in
      let '(t, w2, out) := run (k r) w1 in
      (rq :: t, w2, out)
  end.

Definition trace (A : Type) (p : Prog A) (w : W) : list Request :=
  fst (fst (run p w)).

Definition outcome (A : Type) (p : Prog A) (w : W) : Error + A :=
  snd (run p w).

Definition final (A : Type) (p : Prog A) (w : W) : W :=
  snd (fst (run p w)).

(** The gateway resolves [rq] in state [w] with [v], moving to [w']. *)
Definition answers (rq : Request) (w : W) (v : Response rq) (w' : W) : Prop :=
  gateway rq w = (w', inr v).

End Run.

(** Classification of requests, to count calls in a trace. *)
Definition is_createRef (rq : Request) : bool :=
  match rq with git_createRef _ _ _ _ => true | _ => false end.

Definition is_pulls_list (rq : Request) : bool :=
  match rq with pulls_list _ _ => true | _ => false end.

Definition is_pulls_update (rq : Request) : bool :=
  match rq with pulls_update _ _ _ _ _ => true | _ => false end.

Definition is_pulls_create (rq : Request) : bool :=
  match rq with pulls_create _ _ _ _ _ _ => true | _ => false end.

Definition is_createComment (rq : Request) : bool :=
  match rq with issues_createComment _ _ _ _ => true | _ => false end.

Definition is_getContent (rq : Request) : bool :=
  match rq with repos_getContent _ _ _ _ => true | _ => false end.

(** Requests that only read the remote state. *)
Definition is_read (rq : Request) : bool :=
  match rq with
  | pulls_list _ _ | pulls_listFiles _ _ _ | git_getRef _ _ _
  | repos_get _ _ | repos_getContent _ _ _ _ => true
  | _ => false
  end.

Definition calls (f : Request -> bool) (t : list Request) : nat :=
  List.length (filter f t).

(* ================================================================== *)
(** ** getBranch                                                       *)
(* ================================================================== *)

(** The title literal of [getBranch]'s search, as the source file spells
    it: U+00F0 U+0178 U+201C U+0161, then [" Update documentation"]. *)
Definition getBranch_marker : jsstring :=
  [0xF0; 0x178; 0x201C; 0x161]%N ++ lit " Update documentation".

(** The title literal of [managePR]'s search: U+1F4DA (the surrogate pair
    D83D DCDA), then [" Update documentation"]. *)
Definition managePR_marker : jsstring :=
  [0xD83D; 0xDCDA]%N ++ lit " Update documentation".

(** [pr.body?.includes(x)]: a [null] body gives [undefined], which is falsy. *)
Definition body_includes (b : option jsstring) (x : jsstring) : bool :=
  match b with
  | Some s => includes s x
  | None => false
  end.

(** The callback of [pulls.find] in [getBranch]. *)
Definition getBranch_isDocsPR (original_pr_number : option Z) (pr : Pull) : bool :=
  startsWith (pr_title pr) getBranch_marker &&
  body_includes (pr_body pr) (lit "#" ++ template_number original_pr_number).

(** The parameters as the action receives them: a field is [Some] exactly
    when it has the [typeof] the action checks for. *)
Record GetBranchParams : Type := {
  gb_owner : option jsstring;
  gb_repo : option jsstring;
  gb_original_pr_number : option Z
}.

(** The name of a branch to create. *)
Definition getBranch_branchName (original_pr_number : option Z) (now : Z) : jsstring :=
  if ntruthy original_pr_number
  then lit "docs/update-pr-" ++ template_number original_pr_number
  else lit "docs/update-" ++ number_toString now.

(** The block guarded by [if (params.original_pr_number)]: [Some] is its
    early return. *)
Definition getBranch_existing (owner repo : jsstring) (original_pr_number : option Z)
  : Prog (option BranchInfo) :=
  if ntruthy original_pr_number then
    pulls <- await (pulls_list owner repo) ;;
    match find (getBranch_isDocsPR original_pr_number) pulls with
    | Some existingPR =>
        ref <- await (git_getRef owner repo (lit "heads/" ++ pr_head_ref existingPR)) ;;
        Ret (Some {| bi_name := pr_head_ref existingPR; bi_sha := ref; bi_exists := true |})
    | None => Ret None
    end
  else Ret None.

(** The rest of the action: create a branch off the default branch. *)
Definition getBranch_create (env : Env) (owner repo : jsstring)
  (original_pr_number : option Z) : Prog BranchInfo :=
  baseBranch <- await (repos_get owner repo) ;;
  let branchName := getBranch_branchName original_pr_number (Date_now env) in
  ref <- await (git_getRef owner repo (lit "heads/" ++ baseBranch)) ;;
  await (git_createRef owner repo (lit "refs/heads/" ++ branchName) ref) ;;;
  Ret {| bi_name := branchName; bi_sha := ref; bi_exists := true |}.

Definition getBranch (env : Env) (state : ReviewState)
  (parameters : option GetBranchParams) : Prog ReviewState :=
  if negb (otruthy (GITHUB_TOKEN env)) then
    Throw (lit "GITHUB_TOKEN environment variable is required")
  else
    match parameters with
    | None => Throw (lit "Missing or invalid required parameters")
    | Some p =>
        match gb_owner p, gb_repo p with
        | Some owner, Some repo =>
            existing <- getBranch_existing owner repo (gb_original_pr_number p) ;;
            match existing with
            | Some branchInfo => Ret (with_branchInfo state branchInfo)
            | None =>
                branchInfo <- getBranch_create env owner repo (gb_original_pr_number p) ;;
                Ret (with_branchInfo state branchInfo)
            end
        | _, _ => Throw (lit "Missing or invalid required parameters")
        end
    end.

(* ================================================================== *)
(** ** managePR                                                        *)
(* ================================================================== *)

(** [owner], [repo], [title] and [body] are checked with [typeof]; the
    other three are cast without a check. *)
Record ManagePRParams : Type := {
  mp_owner : option jsstring;
  mp_repo : option jsstring;
  mp_title : option jsstring;
  mp_body : option jsstring;
  mp_base_branch : option jsstring;
  mp_labels : option (list jsstring);
  mp_original_pr_number : option Z
}.

(** The callback of [pulls.find] in [managePR]. *)
Definition managePR_isDocsPR (original_pr_number : option Z) (pr : Pull) : bool :=
  startsWith (pr_title pr) managePR_marker &&
  body_includes (pr_body pr) (lit "#" ++ template_number original_pr_number).

(** [params.labels?.length] as a condition. *)
Definition labels_given (labels : option (list jsstring)) : bool :=
  match labels with
  | Some (_ :: _) => true
  | _ => false
  end.

Definition labels_of (labels : option (list jsstring)) : list jsstring :=
  match labels with Some l => l | None => [] end.

(** [!state.branchInfo?.exists] fails: the branch to open the pull request
    from. *)
Definition existing_branch (state : ReviewState) : option BranchInfo :=
  match branchInfo state with
  | Some b => if bi_exists b then Some b else None
  | None => None
  end.

(** The update path, taken when the search found [existingPR]. *)
Definition managePR_update (owner repo title body : jsstring)
  (labels : option (list jsstring)) (existingPR : Pull) : Prog unit :=
  await (pulls_update owner repo (pr_number existingPR) title body) ;;;
  if labels_given labels
  then await (issues_setLabels owner repo (pr_number existingPR) (labels_of labels))
  else Ret tt.

(** The [try { ... } catch (error) { throw error }] block of the create
    path: open the pull request, label it, comment on the originating
    change. *)
Definition managePR_open (owner repo title body head base : jsstring)
  (labels : option (list jsstring)) (original_pr_number : option Z) : Prog unit :=
  try_catch
    (pr <- await (pulls_create owner repo title body head base) ;;
     (if labels_given labels
      then await (issues_addLabels owner repo pr (labels_of labels))
      else Ret tt) ;;;
     match original_pr_number with
     | Some n =>
         if ntruthy original_pr_number
         then await (issues_createComment owner repo n
                       (lit "I've created a documentation update PR: #"
                          ++ number_toString pr))
         else Ret tt
     | None => Ret tt
     end)
    (fun error => Throw error).

(** The create path; [!params.base_branch] holds for [undefined] and for
    the empty string. *)
Definition managePR_create (owner repo title body head : jsstring)
  (base_branch : option jsstring) (labels : option (list jsstring))
  (original_pr_number : option Z) : Prog unit :=
  base <- match base_branch with
          | Some b => if truthy b then Ret b else await (repos_get owner repo)
          | None => await (repos_get owner repo)
          end ;;
  managePR_open owner repo title body head base labels original_pr_number.

Definition managePR (env : Env) (state : ReviewState)
  (parameters : option ManagePRParams) : Prog ReviewState :=
  if negb (otruthy (GITHUB_TOKEN env)) then
    Throw (lit "GITHUB_TOKEN environment variable is required")
  else
    match existing_branch state with
    | None => Throw (lit "Branch info not found. Make sure getBranch is called first.")
    | Some branch =>
        match parameters with
        | None => Throw (lit "Missing required parameters")
        | Some p =>
            match mp_owner p, mp_repo p, mp_title p, mp_body p with
            | Some owner, Some repo, Some title, Some body =>
                pulls <- await (pulls_list owner repo) ;;
                match find (managePR_isDocsPR (mp_original_pr_number p)) pulls with
                | Some existingPR =>
                    managePR_update owner repo title body (mp_labels p) existingPR ;;;
                    Ret state
                | None =>
                    managePR_create owner repo title body (bi_name branch)
                      (mp_base_branch p) (mp_labels p) (mp_original_pr_number p) ;;;
                    Ret state
                end
            | _, _, _, _ => Throw (lit "Missing required parameters")
            end
        end
    end.

(* ================================================================== *)
(** ** findDocumentation                                               *)
(* ================================================================== *)

(** The title literal of [findDocumentation]'s search, spelled as in
    [managePR]. *)
Definition findDocumentation_marker : jsstring :=
  [0xD83D; 0xDCDA]%N ++ lit " Update documentation".

(** The callback of [pulls.find] in [findDocumentation]. *)
Definition findDocumentation_isDocsPR (pull_number : Z) (pr : Pull) : bool :=
  startsWith (pr_title pr) findDocumentation_marker &&
  body_includes (pr_body pr) (lit "#" ++ number_toString pull_number).

(** [path.replace(/^src\//, "docs/")]: the pattern is anchored at the
    start of the input. *)
Definition replace_src_root (path : jsstring) : jsstring :=
  if startsWith path (lit "src/") then lit "docs/" ++ skipn 4 path else path.

(** Whether [\.[jt]sx?$] matches at the current position, that is, whether
    the rest of the input is [.js], [.ts], [.jsx] or [.tsx]. *)
Definition ext_matches_here (rest : jsstring) : bool :=
  match rest with
  | [d; c; s] =>
      N.eqb d 46 && (N.eqb c 106 || N.eqb c 116) && N.eqb s 115
  | [d; c; s; x] =>
      N.eqb d 46 && (N.eqb c 106 || N.eqb c 116) && N.eqb s 115 && N.eqb x 120
  | _ => false
  end.

(** [s.replace(/\.[jt]sx?$/, ".mdx")]: the leftmost match is replaced; it
    reaches the end of the input, so nothing follows the replacement. *)
Fixpoint replace_ext (s : jsstring) : jsstring :=
  if ext_matches_here s then lit ".mdx"
  else match s with
       | [] => []
       | c :: s' => c :: replace_ext s'
       end.

(** The derivation of [docPath] from a changed path. *)
Definition docPath (path : jsstring) : jsstring :=
  replace_ext (replace_src_root path).

Record FindDocumentationParams : Type := {
  fd_owner : jsstring;
  fd_repo : jsstring;
  fd_pull_number : Z;
  fd_paths : list jsstring
}.

Section Actions.

(** [Buffer.from(content, "base64").toString("utf-8")]. *)
Variable base64_decode : jsstring -> jsstring.

(** The callback mapped over the files of the existing documentation pull
    request. *)
Definition fetch_pr_file (owner repo ref filename : jsstring) : Prog PRFile :=
  found <- try_catch
             (data <- await (repos_getContent owner repo filename ref) ;;
              match data with
              | file_data content _ =>
                  Ret (Some {| prf_path := filename;
                               prf_content := base64_decode content |})
              | no_content => Ret None
              end)
             (fun error => Ret None) ;;
  match found with
  | Some file => Ret file
  | None => Ret {| prf_path := filename; prf_content := [] |}
  end.

(** The callback mapped over the changed paths. *)
Definition fetch_doc_file (owner repo path : jsstring) : Prog DocFile :=
  let docPath := docPath path in
  found <- try_catch
             (data <- await (repos_getContent owner repo docPath (lit "main")) ;;
              match data with
              | file_data content sha =>
                  Ret (Some {| df_path := docPath;
                               df_content := Some (base64_decode content);
                               df_type := doc;
                               df_lastModified := Some sha |})
              | no_content => Ret None
              end)
             (fun error => Ret None) ;;
  match found with
  | Some file => Ret file
  | None => Ret {| df_path := docPath; df_content := None;
                   df_type := doc; df_lastModified := None |}
  end.

(** The lookup of [mint.json]: what is pushed onto [docFiles]. *)
Definition fetch_navigation (owner repo : jsstring) : Prog (list DocFile) :=
  try_catch
    (data <- await (repos_getContent owner repo (lit "mint.json") (lit "main")) ;;
     match data with
     | file_data content sha =>
         Ret [{| df_path := lit "mint.json";
                 df_content := Some (base64_decode content);
                 df_type := navigation;
                 df_lastModified := Some sha |}]
     | no_content => Ret []
     end)
    (fun error =>
       Ret [{| df_path := lit "mint.json"; df_content := None;
               df_type := navigation; df_lastModified := None |}]).

(** The files of the existing documentation pull request, if there is one. *)
Definition fetch_existingPR (owner repo : jsstring) (docsPR : option Pull)
  : Prog (option ExistingPR) :=
  match docsPR with
  | Some docsPR =>
      files <- await (pulls_listFiles owner repo (pr_number docsPR)) ;;
      fetched <- mapM (fetch_pr_file owner repo (pr_head_ref docsPR)) files ;;
      Ret (Some {| epr_number := pr_number docsPR;
                   epr_branch := pr_head_ref docsPR;
                   epr_files := fetched |})
  | None => Ret None
  end.

Definition findDocumentation (env : Env) (state : ReviewState)
  (parameters : option FindDocumentationParams) : Prog ReviewState :=
  if negb (otruthy (GITHUB_TOKEN env)) then
    Throw (lit "GITHUB_TOKEN environment variable is required")
  else
    match parameters with
    | None => Throw (lit "TypeError: cannot destructure parameters")
    | Some p =>
        let owner := fd_owner p in
        let repo := fd_repo p in
        pulls <- await (pulls_list owner repo) ;;
        let docsPR := find (findDocumentation_isDocsPR (fd_pull_number p)) pulls in
        existingPR <- fetch_existingPR owner repo docsPR ;;
        docFiles <- mapM (fetch_doc_file owner repo) (fd_paths p) ;;
        nav <- fetch_navigation owner repo ;;
        Ret (with_docInfo state
               {| di_files := docFiles ++ nav; di_existingPR := existingPR |})
    end.

(* ================================================================== *)
(** ** writeDocumentation and findSimilarDocs                          *)
(* ================================================================== *)

(** [params.context]. *)
Record WriteContext : Type := {
  wc_related_files : option (list jsstring);
  wc_code_changes : option jsstring;
  wc_category : option jsstring;
  wc_template_paths : option (list jsstring);
  wc_update_type : option jsstring;
  wc_reason : option jsstring
}.

(** [path] and [type] are checked with [typeof]; [type] is still the raw
    string here. *)
Record WriteDocumentationParams : Type := {
  wd_path : option jsstring;
  wd_type : option jsstring;
  wd_context : option WriteContext
}.

(** [templatePaths?.length] as a condition. *)
Definition paths_given (templatePaths : option (list jsstring)) : bool :=
  match templatePaths with
  | Some (_ :: _) => true
  | _ => false
  end.

Definition is_doc (t : DocType) : bool :=
  match t with doc => true | navigation => false end.

(** [doc.content as string]. *)
Definition content_string (f : DocFile) : jsstring :=
  match df_content f with Some s => s | None => [] end.

(** [state.docInfo?.files.filter(p) || []]. *)
Definition known_files (state : ReviewState) (p : DocFile -> bool) : list DocFile :=
  match docInfo state with
  | Some d => filter p (di_files d)
  | None => []
  end.

(** The first filter of [findSimilarDocs]. *)
Definition template_filter (templatePaths : option (list jsstring)) (file : DocFile) : bool :=
  array_includes (match templatePaths with Some l => l | None => [] end) (df_path file)
  && otruthy (df_content file).

(** The second filter of [findSimilarDocs]. *)
Definition category_filter (path : jsstring) (category : option jsstring)
  (file : DocFile) : bool :=
  is_doc (df_type file)
  && otruthy (df_content file)
  && negb (Js.eqb (df_path file) path)
  && includes (df_path file) (lit "/" ++ template_string category ++ lit "/").

Definition findSimilarDocs (path : jsstring) (category : option jsstring)
  (templatePaths : option (list jsstring)) (state : ReviewState) : list jsstring :=
  let by_category :=
    map content_string (known_files state (category_filter path category)) in
  if paths_given templatePaths then
    let templates := known_files state (template_filter templatePaths) in
    match templates with
    | _ :: _ => map content_string templates
    | [] => by_category
    end
  else by_category.

(** [params.path.split("/").slice(-2, -1)[0]]. *)
Definition category_of (path : jsstring) : option jsstring :=
  hd_error (slice_m2_m1 (split_slash path)).

(** The templates [writeDocumentation] hands to the generator for [path]. *)
Definition similarDocs_for (path : jsstring) (templatePaths : option (list jsstring))
  (state : ReviewState) : list jsstring :=
  findSimilarDocs path (category_of path) templatePaths state.

(** The condition under which the generated text is thrown away. *)
Definition content_rejected (content : jsstring) : bool :=
  (List.length content <? 100)%nat
  || includes content (lit "TODO")
  || includes content (lit "placeholder")
  || negb (includes content (lit "```")).

(** [x || ""] on a [string | null]. *)
Definition or_empty (o : option jsstring) : jsstring :=
  match o with Some s => s | None => [] end.

(** [arr.join(", ")]. *)
Fixpoint join_comma (l : list jsstring) : jsstring :=
  match l with
  | [] => []
  | [s] => s
  | s :: l' => s ++ lit ", " ++ join_comma l'
  end.

(** [params.path.substring(params.path.lastIndexOf("."))]. *)
Definition fileExt_of (path : jsstring) : jsstring :=
  substring_from path (lastIndexOf_dot path).

(** [["doc", "navigation"].includes(type)], with the value it names. *)
Definition parse_type (t : jsstring) : option DocType :=
  if Js.eqb t (lit "doc") then Some doc
  else if Js.eqb t (lit "navigation") then Some navigation
  else None.

(** The [messages] of the two generator requests.  Their wording is not
    what the properties below are about; they are taken as given. *)
Variable navigation_messages :
  option DocFile -> list jsstring -> option WriteContext -> list jsstring.

Variable documentation_messages :
  Config -> list jsstring -> option DocFile -> option PRFile ->
  option jsstring -> option WriteContext -> list jsstring.

Definition context_template_paths (c : option WriteContext) : option (list jsstring) :=
  match c with Some c => wc_template_paths c | None => None end.

(** [params.context?.update_type || "update"]. *)
Definition context_update_type (c : option WriteContext) : jsstring :=
  match c with
  | Some c => if otruthy (wc_update_type c) then or_empty (wc_update_type c)
              else lit "update"
  | None => lit "update"
  end.

Definition existingFile_of (state : ReviewState) (path : jsstring) : option DocFile :=
  match docInfo state with
  | Some d => find (fun f => Js.eqb (df_path f) path) (di_files d)
  | None => None
  end.

Definition existingPRFile_of (state : ReviewState) (path : jsstring) : option PRFile :=
  match docInfo state with
  | Some d =>
      match di_existingPR d with
      | Some e => find (fun f => Js.eqb (prf_path f) path) (epr_files e)
      | None => None
      end
  | None => None
  end.

(** The action after its parameters have been checked. *)
Definition writeDocumentation_generate (state : ReviewState) (path : jsstring)
  (type : DocType) (context : option WriteContext) : Prog ReviewState :=
  let fileExt := fileExt_of path in
  if is_doc type && negb (array_includes (cfg_docExtensions (config state)) fileExt) then
    Throw (lit "Invalid file extension " ++ [34%N] ++ fileExt ++ [34%N]
             ++ lit ". Allowed extensions: "
             ++ join_comma (cfg_docExtensions (config state)))
  else
    let existingFile := existingFile_of state path in
    let existingPRFile := existingPRFile_of state path in
    let category := category_of path in
    let similarDocs :=
      findSimilarDocs path category (context_template_paths context) state in
    match type with
    | navigation =>
        response <- await (chat_completions_create
                             (navigation_messages existingFile
                                (map df_path (known_files state (fun f => is_doc (df_type f))))
                                context)) ;;
        Ret (with_generatedContent state
               {| gc_content := or_empty response; gc_path := path;
                  gc_type := type; gc_update_type := None |})
    | doc =>
        response <- await (chat_completions_create
                             (documentation_messages (config state) similarDocs
                                existingFile existingPRFile category context)) ;;
        let content := or_empty response in
        if content_rejected content then
          Throw (lit "Generated content appears to be incomplete or placeholder text. Please try again with more detail.")
        else
          Ret (with_generatedContent state
                 {| gc_content := content; gc_path := path; gc_type := type;
                    gc_update_type := Some (context_update_type context) |})
    end.

Definition writeDocumentation (env : Env) (state : ReviewState)
  (parameters : option WriteDocumentationParams) : Prog ReviewState :=
  if negb (otruthy (OPENAI_API_KEY env)) then
    Throw (lit "OPENAI_API_KEY environment variable is required")
  else
    match parameters with
    | None => Throw (lit "Missing or invalid required parameters")
    | Some p =>
        match wd_path p, wd_type p with
        | Some path, Some t =>
            match parse_type t with
            | Some type => writeDocumentation_generate state path type (wd_context p)
            | None => Throw (lit "Missing or invalid required parameters")
            end
        | _, _ => Throw (lit "Missing or invalid required parameters")
        end
    end.

End Actions.

(* ================================================================== *)
(** ** The specification's wording, for comparison                     *)
(* ================================================================== *)

(** The source extensions the path derivation rewrites. *)
Inductive SourceExt : Type := ext_ts | ext_tsx | ext_js | ext_jsx.

Definition ext_string (e : SourceExt) : jsstring :=
  match e with
  | ext_ts => lit ".ts"
  | ext_tsx => lit ".tsx"
  | ext_js => lit ".js"
  | ext_jsx => lit ".jsx"
  end.

(** Template selection as the specification words it: when template paths
    are supplied and one of them is a known file with content, the contents
    at those paths; otherwise the known files of kind doc with content,
    other than the target, whose second-to-last path segment is the
    target's. *)
Definition spec_category_filter (path : jsstring) (file : DocFile) : bool :=
  is_doc (df_type file)
  && otruthy (df_content file)
  && negb (Js.eqb (df_path file) path)
  && match category_of (df_path file), category_of path with
     | Some c, Some c' => Js.eqb c c'
     | _, _ => false
     end.

Definition spec_similarDocs (path : jsstring) (templatePaths : option (list jsstring))
  (state : ReviewState) : list jsstring :=
  let templates := known_files state (template_filter templatePaths) in
  if paths_given templatePaths && negb (Nat.eqb (List.length templates) 0)
  then map content_string templates
  else map content_string (known_files state (spec_category_filter path)).

(** What discovery records for a changed path when the lookup of its
    documentation file got the answer [r]. *)
Definition recorded_doc (decode : jsstring -> jsstring) (path : jsstring)
  (r : Error + ContentData) : DocFile :=
  match r with
  | inr (file_data content sha) =>
      {| df_path := docPath path; df_content := Some (decode content);
         df_type := doc; df_lastModified := Some sha |}
  | _ =>
      {| df_path := docPath path; df_content := None;
         df_type := doc; df_lastModified := None |}
  end.

(** What discovery records for a file of the existing documentation pull
    request when fetching it got the answer [r]. *)
Definition recorded_pr_file (decode : jsstring -> jsstring) (filename : jsstring)
  (r : Error + ContentData) : PRFile :=
  match r with
  | inr (file_data content _) =>
      {| prf_path := filename; prf_content := decode content |}
  | _ => {| prf_path := filename; prf_content := [] |}
  end.

(** What discovery records for the navigation file. *)
Definition recorded_navigation (decode : jsstring -> jsstring)
  (r : Error + ContentData) : list DocFile :=
  match r with
  | inr (file_data content sha) =>
      [{| df_path := lit "mint.json"; df_content := Some (decode content);
          df_type := navigation; df_lastModified := Some sha |}]
  | inr no_content => []
  | inl _ =>
      [{| df_path := lit "mint.json"; df_content := None;
          df_type := navigation; df_lastModified := None |}]
  end.

(** Reading never changes the remote. *)
Definition reads_pure (W : Type)
  (gateway : forall rq : Request, W -> W * (Error + Response rq)) : Prop :=
  forall rq w, is_read rq = true -> fst (gateway rq w) = w.

(** The lookup of the documentation file of a changed path, and of the
    navigation file. *)
Definition doc_request (owner repo path : jsstring) : Request :=
  repos_getContent owner repo (docPath path) (lit "main").

Definition navigation_request (owner repo : jsstring) : Request :=
  repos_getContent owner repo (lit "mint.json") (lit "main").

(** A string without a slash: a single path segment. *)
Definition slash_free (s : jsstring) : Prop :=
  forallb (fun c => negb (N.eqb c slash)) s = true.

(* ================================================================== *)
(** ** A sample remote, to run the actions on                          *)
(* ================================================================== *)

(** The branches of the sample repository: ref ([heads/<name>]) and tip. *)
Definition Heads : Type := list (jsstring * jsstring).

Fixpoint lookup_head (ref : jsstring) (heads : Heads) : option jsstring :=
  match heads with
  | [] => None
  | (r, tip) :: heads' => if Js.eqb r ref then Some tip else lookup_head ref heads'
  end.

(** A gateway with the given open pull requests whose generator always
    answers [generated].  Creating a ref that exists is rejected, as is
    reading a ref or a file that does not exist. *)
Definition sample_gateway (pulls : list Pull) (generated : option jsstring)
  (rq : Request) (heads : Heads) : Heads * (Error + Response rq) :=
  match rq as r return (Heads * (Error + Response r)) with
  | pulls_list _ _ => (heads, inr pulls)
  | pulls_listFiles _ _ _ =>
      (heads, inr [lit "docs/llm/openai.mdx"; lit "docs/llm/draft.mdx"])
  | pulls_create _ _ _ _ _ _ => (heads, inr 43%Z)
  | pulls_update _ _ _ _ _ => (heads, inr tt)
  | git_getRef _ _ ref =>
      (heads, match lookup_head ref heads with
              | Some tip => inr tip
              | None => inl (lit "Not Found")
              end)
  | git_createRef _ _ ref tip =>
      match lookup_head (skipn 5 ref) heads with
      | Some _ => (heads, inl (lit "Reference already exists"))
      | None => ((skipn 5 ref, tip) :: heads, inr tt)
      end
  | repos_get _ _ => (heads, inr (lit "main"))
  | repos_getContent _ _ path _ =>
      (heads, if Js.eqb path (lit "docs/llm/openai.mdx")
              then inr (file_data (lit "b3BlbmFp") (lit "f00d"))
              else inl (lit "Not Found"))
  | issues_setLabels _ _ _ _ => (heads, inr tt)
  | issues_addLabels _ _ _ _ => (heads, inr tt)
  | issues_createComment _ _ _ _ => (heads, inr tt)
  | chat_completions_create _ => (heads, inr generated)
  end.

Definition sample_heads : Heads :=
  [(lit "heads/main", lit "a1b2c3"); (lit "heads/docs-42", lit "d4e5f6")].

Definition sample_env : Env :=
  {| GITHUB_TOKEN := Some (lit "ghp_token");
     OPENAI_API_KEY := Some (lit "sk-key");
     Date_now := 1700000000000 |}.

Definition sample_state : ReviewState :=
  {| commitInfo := None; docInfo := None; branchInfo := None;
     generatedContent := None;
     config := {| cfg_docExtensions := [lit ".mdx"; lit ".md"];
                  cfg_styleGuide := None |} |}.

(** A documentation pull request for change 42 whose title carries the
    marker of [managePR]. *)
Definition docs_pull_42 : Pull :=
  {| pr_number := 7;
     pr_title := managePR_marker ++ lit " for PR #42";
     pr_body := Some (lit "Documentation update for #42");
     pr_head_ref := lit "docs-42" |}.

(** The same pull request with the title spelled with [getBranch]'s
    literal. *)
Definition garbled_pull_42 : Pull :=
  {| pr_number := 7;
     pr_title := getBranch_marker ++ lit " for PR #42";
     pr_body := Some (lit "Documentation update for #42");
     pr_head_ref := lit "docs-42" |}.

(** An unrelated open pull request. *)
Definition other_pull : Pull :=
  {| pr_number := 5;
     pr_title := lit "Fix retry logic";
     pr_body := None;
     pr_head_ref := lit "fix-retry" |}.

(** An open pull request that mentions no change at all but the word
    [#undefined]. *)
Definition undefined_pull : Pull :=
  {| pr_number := 9;
     pr_title := managePR_marker;
     pr_body := Some (lit "Tracks #undefined for now");
     pr_head_ref := lit "docs-misc" |}.

(** The sample state once [getBranch] has run. *)
Definition sample_state_with_branch : ReviewState :=
  with_branchInfo sample_state
    {| bi_name := lit "docs-42"; bi_sha := lit "d4e5f6"; bi_exists := true |}.

(** A nested file: its path contains [/llm/], its parent segment is
    [providers]. *)
Definition nested_doc : DocFile :=
  {| df_path := lit "docs/llm/providers/azure.mdx";
     df_content := Some (lit "# Azure");
     df_type := doc;
     df_lastModified := None |}.

Definition nested_state : ReviewState :=
  with_docInfo sample_state {| di_files := [nested_doc]; di_existingPR := None |}.

(** Generated texts: forty letters; a code fence followed by 497 letters. *)
Definition short_text : jsstring := repeat 97%N 40.

Definition fenced_text : jsstring := lit "```" ++ repeat 97%N 497.

(** Stand-ins for the construction of the generator's messages. *)
Definition sample_navigation_messages
  (existingFile : option DocFile) (paths : list jsstring)
  (context : option WriteContext) : list jsstring := paths.

Definition sample_documentation_messages
  (cfg : Config) (similarDocs : list jsstring) (existingFile : option DocFile)
  (existingPRFile : option PRFile) (category : option jsstring)
  (context : option WriteContext) : list jsstring := similarDocs.

(* ================================================================== *)
(** ** commitChange and getCommitInfo                                  *)
(* ================================================================== *)

(** More classifications of requests. *)
Definition is_setLabels (rq : Request) : bool :=
  match rq with issues_setLabels _ _ _ _ => true | _ => false end.

Definition is_addLabels (rq : Request) : bool :=
  match rq with issues_addLabels _ _ _ _ => true | _ => false end.

Definition is_chat (rq : Request) : bool :=
  match rq with chat_completions_create _ => true | _ => false end.

(** [state.commitInfo = c]. *)
Definition with_commitInfo (state : ReviewState) (c : CommitInfo) : ReviewState :=
  {| commitInfo := Some c;
     docInfo := docInfo state;
     branchInfo := branchInfo state;
     generatedContent := generatedContent state;
     config := config state |}.

(** The two actions that read a change and write a file use requests of
    their own: the details of a pull request, its changed files with
    patches, and the write of a file. *)
Module Commits.

(** What [pulls.get] resolves to; [body] is [string | null]. *)
Record PullDetails : Type := {
  pd_title : jsstring;
  pd_body : option jsstring;
  pd_base_ref : jsstring;
  pd_head_ref : jsstring
}.

(** An entry of what [pulls.listFiles] resolves to; [patch] may be
    missing. *)
Record PullFile : Type := {
  pf_filename : jsstring;
  pf_patch : option jsstring;
  pf_status : jsstring
}.

(** [getCommitInfo] casts its parameters without a check, so each of them
    may reach the request as [undefined]. *)
Inductive Request : Type :=
| repos_getContent (owner repo path ref : jsstring)
| repos_createOrUpdateFileContents
    (owner repo path message content branch : jsstring) (sha : option jsstring)
| pulls_get (owner repo : option jsstring) (pull_number : option Z)
| pulls_listFiles (owner repo : option jsstring) (pull_number : option Z).

(** The part of each response the actions read; of [repos.getContent]
    only the [sha] key, which a directory listing does not have. *)
Definition Response (rq : Request) : Type :=
  match rq with
  | repos_getContent _ _ _ _ => option jsstring
  | repos_createOrUpdateFileContents _ _ _ _ _ _ _ => unit
  | pulls_get _ _ _ => PullDetails
  | pulls_listFiles _ _ _ => list PullFile
  end.

Inductive Prog (A : Type) : Type :=
| Ret (a : A)
| Throw (e : Error)
| Call (rq : Request) (k : Error + Response rq -> Prog A).

Arguments Ret {A} a.
Arguments Throw {A} e.
Arguments Call {A} rq k.

Fixpoint bind (A B : Type) (p : Prog A) (f : A -> Prog B) : Prog B :=
  match p with
  | Ret a => f a
  | Throw e => Throw e
  | Call rq k => Call rq (fun r => bind (k r) f)
  end.

Definition await (rq : Request) : Prog (Response rq) :=
  Call rq (fun r => match r with inl e => Throw e | inr v => Ret v end).

Fixpoint try_catch (A : Type) (p : Prog A) (handler : Error -> Prog A) : Prog A :=
  match p with
  | Ret a => Ret a
  | Throw e => handler e
  | Call rq k => Call rq (fun r => try_catch (k r) handler)
  end.

Section Run.

Variable W : Type.
Variable gateway : forall rq : Request, W -> W * (Error + Response rq).

Fixpoint run (A : Type) (p : Prog A) (w : W) : list Request * W * (Error + A) :=
  match p with
  | Ret a => ([], w, inr a)
  | Throw e => ([], w, inl e)
  | Call rq k =>
      let '(w1, r) := gateway rq w in
      let '(t, w2, out) := run (k r) w1 in
      (rq :: t, w2, out)
  end.

Definition trace (A : Type) (p : Prog A) (w : W) : list Request :=
  fst (fst (run p w)).

Definition outcome (A : Type) (p : Prog A) (w : W) : Error + A :=
  snd (run p w).

Definition answers (rq : Request) (w : W) (v : Response rq) (w' : W) : Prop :=
  gateway rq w = (w', inr v).

Definition rejects (rq : Request) (w : W) (e : Error) (w' : W) : Prop :=
  gateway rq w = (w', inl e).

End Run.

Definition is_write (rq : Request) : bool :=
  match rq with
  | repos_createOrUpdateFileContents _ _ _ _ _ _ _ => true
  | _ => false
  end.

(** *** commitChange *)

Record CommitChangeParams : Type := {
  cc_owner : option jsstring;
  cc_repo : option jsstring;
  cc_path : option jsstring;
  cc_content : option jsstring;
  cc_message : option jsstring
}.

Section CommitChange.

(** [Buffer.from(content).toString("base64")]. *)
Variable base64_encode : jsstring -> jsstring.

(** The [try] block that looks the file up on the branch: its [sha], left
    [undefined] when the lookup is rejected or the data has no [sha]. *)
Definition current_sha (owner repo path branch : jsstring) : Prog (option jsstring) :=
  try_catch
    (bind (await (repos_getContent owner repo path branch))
       (fun file => Ret file))
    (fun error => Ret None).

(** [...(sha ? { sha } : {})]. *)
Definition sha_field (sha : option jsstring) : option jsstring :=
  if otruthy sha then sha else None.

Definition commitChange (env : Env) (state : ReviewState)
  (parameters : option CommitChangeParams) : Prog ReviewState :=
  if negb (otruthy (GITHUB_TOKEN env)) then
    Throw (lit "GITHUB_TOKEN environment variable is required")
  else
    match existing_branch state with
    | None => Throw (lit "Branch info not found. Make sure getBranch is called first.")
    | Some branch =>
        match parameters with
        | None => Throw (lit "Missing or invalid required parameters")
        | Some p =>
            match cc_owner p, cc_repo p, cc_path p, cc_content p, cc_message p with
            | Some owner, Some repo, Some path, Some content, Some message =>
                bind (current_sha owner repo path (bi_name branch))
                  (fun sha =>
                     bind (await (repos_createOrUpdateFileContents owner repo path
                                    message (base64_encode content) (bi_name branch)
                                    (sha_field sha)))
                       (fun _ => Ret state))
            | _, _, _, _, _ => Throw (lit "Missing or invalid required parameters")
            end
        end
    end.

End CommitChange.

(** *** getCommitInfo *)

Record GetCommitInfoParams : Type := {
  gci_owner : option jsstring;
  gci_repo : option jsstring;
  gci_pull_number : option Z
}.

(** [file.status === "added" ? "added" : file.status === "removed" ?
    "deleted" : "modified"]. *)
Definition change_type_of (status : jsstring) : ChangeType :=
  if Js.eqb status (lit "added") then added
  else if Js.eqb status (lit "removed") then deleted
  else modified.

(** The callback mapped over the changed files; [file.patch || ""]. *)
Definition changed_file_of (file : PullFile) : ChangedFile :=
  {| cf_path := pf_filename file;
     cf_diff := match pf_patch file with Some p => p | None => [] end;
     cf_type := change_type_of (pf_status file) |}.

Definition commitInfo_of (pr : PullDetails) (files : list PullFile) : CommitInfo :=
  {| ci_files := map changed_file_of files;
     ci_title := pd_title pr;
     ci_description := match pd_body pr with Some b => b | None => [] end;
     ci_base_branch := pd_base_ref pr;
     ci_head_branch := pd_head_ref pr |}.

Definition getCommitInfo (env : Env) (state : ReviewState)
  (parameters : option GetCommitInfoParams) : Prog ReviewState :=
  if negb (otruthy (GITHUB_TOKEN env)) then
    Throw (lit "GITHUB_TOKEN environment variable is required")
  else
    let owner := match parameters with Some p => gci_owner p | None => None end in
    let repo := match parameters with Some p => gci_repo p | None => None end in
    let pull_number :=
      match parameters with Some p => gci_pull_number p | None => None end in
    bind (await (pulls_get owner repo pull_number))
      (fun pr =>
         bind (await (pulls_listFiles owner repo pull_number))
           (fun files => Ret (with_commitInfo state (commitInfo_of pr files)))).

(** A sample remote for the two actions: pull request 42 changes three
    files; one file exists on the documentation branch. *)
Definition sample_details : PullDetails :=
  {| pd_title := lit "Add OpenAI provider"; pd_body := None;
     pd_base_ref := lit "main"; pd_head_ref := lit "feature/openai" |}.

Definition sample_files : list PullFile :=
  [ {| pf_filename := lit "src/llm/openai.ts";
       pf_patch := Some (lit "@@ -0,0 +1 @@"); pf_status := lit "added" |};
    {| pf_filename := lit "assets/logo.png";
       pf_patch := None; pf_status := lit "renamed" |};
    {| pf_filename := lit "src/llm/legacy.ts";
       pf_patch := Some (lit "@@ -1 +0,0 @@"); pf_status := lit "removed" |} ].

Definition sample_gateway (rq : Request) (w : nat)
  : nat * (Error + Response rq) :=
  match rq as r return (nat * (Error + Response r)) with
  | repos_getContent _ _ path _ =>
      (w, if Js.eqb path (lit "docs/llm/openai.mdx")
          then inr (Some (lit "f00d"))
          else inl (lit "Not Found"))
  | repos_createOrUpdateFileContents _ _ _ _ _ _ _ => (S w, inr tt)
  | pulls_get _ _ _ => (w, inr sample_details)
  | pulls_listFiles _ _ _ => (w, inr sample_files)
  end.

End Commits.

(** A remote that rejects every request. *)
Definition offline_gateway (rq : Request) (w : unit) : unit * (Error + Response rq) :=
  (w, inl (lit "Service Unavailable")).

(** The sample branches once [docs/update-pr-42] exists. *)
Definition taken_heads : Heads :=
  (lit "heads/docs/update-pr-42", lit "a1b2c3") :: sample_heads.

(** Sample parameters. *)
Definition getBranch_42 : option GetBranchParams :=
  Some {| gb_owner := Some (lit "acme"); gb_repo := Some (lit "sdk");
          gb_original_pr_number := Some 42%Z |}.

Definition managePR_42 (labels : option (list jsstring)) : option ManagePRParams :=
  Some {| mp_owner := Some (lit "acme"); mp_repo := Some (lit "sdk");
          mp_title := Some (managePR_marker ++ lit " for PR #42");
          mp_body := Some (lit "Documentation update for #42");
          mp_base_branch := None; mp_labels := labels;
          mp_original_pr_number := Some 42%Z |}.

Definition sample_branch : BranchInfo :=
  {| bi_name := lit "docs-42"; bi_sha := lit "d4e5f6"; bi_exists := true |}.

Definition commit_openai : option Commits.CommitChangeParams :=
  Some {| Commits.cc_owner := Some (lit "acme"); Commits.cc_repo := Some (lit "sdk");
          Commits.cc_path := Some (lit "docs/llm/openai.mdx");
          Commits.cc_content := Some (lit "# OpenAI");
          Commits.cc_message := Some (lit "docs: update openai") |}.

(** The number of file writes in a trace of these requests. *)
Definition calls_of_writes (t : list Commits.Request) : nat :=
  List.length (filter Commits.is_write t).

(** A string without a space. *)
Definition space_free (s : jsstring) : Prop :=
  forallb (fun c => negb (N.eqb c space)) s = true.

(** The code units [String(n)] is made of: the minus sign and the digits. *)
Definition is_number_char (c : N) : bool :=
  N.eqb c 45 || (N.leb 48 c && N.leb c 57).

(** A string without a dot. *)
Definition dot_free (s : jsstring) : Prop :=
  forallb (fun c => negb (N.eqb c dot)) s = true.

(** A path that ends in none of the source extensions. *)
Definition no_source_ext (path : jsstring) : Prop :=
  forall pre e, path <> pre ++ ext_string e.

(* ================================================================== *)
(** ** Properties                                                      *)
(* ================================================================== *)

(** Literals stay folded while programs are unfolded. *)
Arguments lit : simpl never.

(** Case analysis on the next answer of the gateway [g]. *)
Ltac next_answer g :=
  match goal with
  | |- context [g ?rq ?w] =>
      let w' := fresh "w" in
      let e := fresh "e" in
      let v := fresh "v" in
      destruct (g rq w) as [w' [e|v]]; cbn
  end.

(** Case analysis on the next answer of the gateway [g] in hypothesis [H]. *)
Ltac next_answer_in g H :=
  match type of H with
  | context [g ?rq ?w] =>
      let w' := fresh "w" in
      let e := fresh "e" in
      let v := fresh "v" in
      destruct (g rq w) as [w' [e|v]]; cbn in H
  end.

(** *** Strings *)

Lemma eqb_refl (a : jsstring) : Js.eqb a a = true.
Proof.
  induction a as [|x a IH]; simpl; [reflexivity|].
  now rewrite N.eqb_refl, IH.
Qed.

Lemma eqb_eq (a b : jsstring) : Js.eqb a b = true <-> a = b.
Proof.
  split.
  - revert b; induction a as [|x a IH]; intros [|y b] H; simpl in H;
      try discriminate; [reflexivity|].
    apply andb_true_iff in H as [Hx Hab].
    apply N.eqb_eq in Hx. apply IH in Hab. now subst.
  - intros ->. apply eqb_refl.
Qed.

Lemma eqb_neq (a b : jsstring) : Js.eqb a b = false <-> a <> b.
Proof.
  split.
  - intros H E. apply eqb_eq in E. congruence.
  - intros H. destruct (Js.eqb a b) eqn:E; [|reflexivity].
    apply eqb_eq in E. contradiction.
Qed.

Lemma startsWith_prefix (s p : jsstring) :
  startsWith s p = true <-> exists rest, s = p ++ rest.
Proof.
  split.
  - revert s; induction p as [|c p IH]; intros s H.
    + now exists s.
    + destruct s as [|d s]; simpl in H; [discriminate|].
      apply andb_true_iff in H as [Hc Hp].
      apply N.eqb_eq in Hc. destruct (IH _ Hp) as [rest ->].
      exists rest. now subst.
  - intros [rest ->]. induction p as [|c p IH]; simpl; [reflexivity|].
    now rewrite N.eqb_refl, IH.
Qed.

Lemma includes_startsWith (s needle : jsstring) :
  startsWith s needle = true -> includes s needle = true.
Proof.
  intros H. destruct s; simpl; rewrite H; reflexivity.
Qed.

Lemma includes_infix (s needle : jsstring) :
  includes s needle = true <-> exists pre post, s = pre ++ needle ++ post.
Proof.
  split.
  - induction s as [|c s IH]; simpl; intros H.
    + rewrite orb_false_r in H. apply startsWith_prefix in H as [rest E].
      exists [], rest. exact E.
    + apply orb_true_iff in H as [H|H].
      * apply startsWith_prefix in H as [rest E]. exists [], rest. exact E.
      * destruct (IH H) as (pre & post & ->). now exists (c :: pre), post.
  - intros (pre & post & ->). induction pre as [|c pre IH].
    + apply includes_startsWith. apply startsWith_prefix. now exists post.
    + simpl. rewrite IH. apply orb_true_r.
Qed.

Lemma array_includes_In (l : list jsstring) (s : jsstring) :
  array_includes l s = true <-> In s l.
Proof.
  unfold array_includes. rewrite existsb_exists. split.
  - intros (x & Hin & E). apply eqb_eq in E. now subst.
  - intros H. exists s. split; [exact H|apply eqb_refl].
Qed.

(** *** The search for the existing documentation pull request *)

(** [managePR] and [findDocumentation] search with the same callback. *)
Lemma managePR_findDocumentation_same_search (n : Z) (pulls : list Pull) :
  find (managePR_isDocsPR (Some n)) pulls = find (findDocumentation_isDocsPR n) pulls.
Proof. reflexivity. Qed.

(** No title starts with both spellings of the marker, so a pull request
    that one search accepts is rejected by the other. *)
Lemma markers_exclusive (title : jsstring) :
  startsWith title getBranch_marker = true ->
  startsWith title managePR_marker = false.
Proof.
  destruct title as [|c title]; [discriminate|].
  change getBranch_marker with (0xF0%N :: tl getBranch_marker).
  change managePR_marker with (0xD83D%N :: tl managePR_marker).
  cbn [startsWith]. intros H.
  apply andb_true_iff in H as [Hc _]. apply N.eqb_eq in Hc. now subst c.
Qed.

Lemma getBranch_managePR_never_agree (n : option Z) (pr : Pull) :
  getBranch_isDocsPR n pr = true -> managePR_isDocsPR n pr = false.
Proof.
  unfold getBranch_isDocsPR, managePR_isDocsPR. intros H.
  apply andb_true_iff in H as [Ht _].
  now rewrite (markers_exclusive _ Ht).
Qed.

(** C1 (fails on the code): the three searches do not select the same pull
    request.  Among the open pull requests [other_pull; docs_pull_42] and
    for the originating number 42, [managePR] and [findDocumentation] both
    select [docs_pull_42], whose title starts with the book marker and
    whose body contains [#42], while [getBranch], whose title literal is
    spelled differently, selects none. *)
Theorem search_predicates_diverge :
  find (managePR_isDocsPR (Some 42%Z)) [other_pull; docs_pull_42] = Some docs_pull_42
  /\ find (findDocumentation_isDocsPR 42) [other_pull; docs_pull_42] = Some docs_pull_42
  /\ find (getBranch_isDocsPR (Some 42%Z)) [other_pull; docs_pull_42] = None.
Proof. repeat split; vm_compute; reflexivity. Qed.

(** *** Documentation path derivation *)

Lemma ext_no_earlier_match (c : N) (pre : jsstring) (e : SourceExt) :
  ext_matches_here (c :: pre ++ ext_string e) = false.
Proof.
  destruct e;
    [ change (ext_string ext_ts) with [46; 116; 115]%N
    | change (ext_string ext_tsx) with [46; 116; 115; 120]%N
    | change (ext_string ext_js) with [46; 106; 115]%N
    | change (ext_string ext_jsx) with [46; 106; 115; 120]%N ];
    destruct pre as [|a [|b [|d [|f pre]]]]; simpl; try reflexivity;
    destruct (N.eqb c 46); reflexivity.
Qed.

Lemma replace_ext_suffix (pre : jsstring) (e : SourceExt) :
  replace_ext (pre ++ ext_string e) = pre ++ lit ".mdx".
Proof.
  induction pre as [|c pre IH].
  - destruct e; reflexivity.
  - change ((c :: pre) ++ ext_string e) with (c :: pre ++ ext_string e).
    cbn [replace_ext]. rewrite ext_no_earlier_match. now rewrite IH.
Qed.

Lemma replace_src_root_prefix (rest : jsstring) :
  replace_src_root (lit "src/" ++ rest) = lit "docs/" ++ rest.
Proof.
  unfold replace_src_root.
  replace (startsWith (lit "src/" ++ rest) (lit "src/")) with true.
  - reflexivity.
  - symmetry. apply startsWith_prefix. now exists rest.
Qed.

(** A path outside [src/] keeps its root. *)
Lemma replace_src_root_other (path : jsstring) :
  startsWith path (lit "src/") = false -> replace_src_root path = path.
Proof. unfold replace_src_root. now intros ->. Qed.

(** C6: the derivation of the documentation path is a total function of
    the source path alone: for every stem and every extension among [.ts],
    [.tsx], [.js] and [.jsx], [src/<stem><ext>] is mapped to
    [docs/<stem>.mdx]; [src/foo/bar.ts] is mapped to [docs/foo/bar.mdx];
    equal inputs give equal outputs. *)
Theorem docPath_src_to_docs :
  (forall (stem : jsstring) (e : SourceExt),
      docPath (lit "src/" ++ stem ++ ext_string e) = lit "docs/" ++ stem ++ lit ".mdx")
  /\ docPath (lit "src/foo/bar.ts") = lit "docs/foo/bar.mdx"
  /\ (forall p q : jsstring, p = q -> docPath p = docPath q).
Proof.
  split; [|split].
  - intros stem e. unfold docPath.
    rewrite replace_src_root_prefix, app_assoc, replace_ext_suffix.
    now rewrite <- app_assoc.
  - reflexivity.
  - now intros p q ->.
Qed.

Lemma docPath_src_to_docs_witness :
  docPath (lit "src/llm/openai.ts") = docPath (lit "src/llm/openai.ts").
Proof.
  apply (proj2 (proj2 docPath_src_to_docs)). reflexivity.
Defined.

(** *** The content-quality gate *)

Lemma rejected_below_100 (content : jsstring) :
  (List.length content < 100)%nat -> content_rejected content = true.
Proof.
  intros H. unfold content_rejected.
  apply Nat.ltb_lt in H. now rewrite H.
Qed.

Lemma rejected_iff (content : jsstring) :
  content_rejected content = false <->
  (100 <= List.length content)%nat
  /\ includes content (lit "TODO") = false
  /\ includes content (lit "placeholder") = false
  /\ includes content (lit "```") = true.
Proof.
  unfold content_rejected.
  rewrite !orb_false_iff, negb_false_iff, Nat.ltb_ge. tauto.
Qed.

(** *** Running programs *)

Lemma find_some_of_exists (A : Type) (f : A -> bool) (l : list A) :
  (exists x, In x l /\ f x = true) ->
  exists y, find f l = Some y /\ In y l /\ f y = true.
Proof.
  intros (x & Hin & Hx). induction l as [|a l IH]; [contradiction|].
  simpl. destruct (f a) eqn:Ha.
  - exists a. repeat split; [now left|exact Ha].
  - destruct Hin as [->|Hin]; [congruence|].
    destruct (IH Hin) as (y & Hy & Hiny & Hfy).
    exists y. repeat split; [exact Hy|now right|exact Hfy].
Qed.

Lemma calls_app (f : Request -> bool) (t1 t2 : list Request) :
  calls f (t1 ++ t2) = (calls f t1 + calls f t2)%nat.
Proof. unfold calls. now rewrite filter_app, length_app. Qed.

Lemma ntruthy_Some (n : Z) : n <> 0%Z -> ntruthy (Some n) = true.
Proof.
  intros H. unfold ntruthy. apply negb_true_iff. now apply Z.eqb_neq.
Qed.

Section Reconcilers.

Variable W : Type.
Variable gateway : forall rq : Request, W -> W * (Error + Response rq).

Lemma run_bind (A B : Type) (p : Prog A) (f : A -> Prog B) (w : W) :
  run gateway (bind p f) w =
  let '(t1, w1, r) := run gateway p w in
  match r with
  | inl e => (t1, w1, inl e)
  | inr a => let '(t2, w2, out) := run gateway (f a) w1 in (t1 ++ t2, w2, out)
  end.
Proof.
  revert w. induction p as [a|e|rq k IH]; intros w; cbn.
  - now destruct (run gateway (f a) w) as [[t2 w2] out].
  - reflexivity.
  - destruct (gateway rq w) as [w1 r]. rewrite IH.
    destruct (run gateway (k r) w1) as [[t1 w2] [e|a]]; [reflexivity|].
    now destruct (run gateway (f a) w2) as [[t2 w3] out].
Qed.

Lemma run_await (rq : Request) (w w' : W) (v : Response rq) :
  answers gateway rq w v w' -> run gateway (await rq) w = ([rq], w', inr v).
Proof. unfold answers. intros H. cbn. now rewrite H. Qed.

(** *** getBranch: the branch of an existing documentation pull request *)

(** Whatever the remote answers, the guarded block of [getBranch] only
    reads. *)
Lemma getBranch_existing_reads (owner repo : jsstring) (n : option Z) (w : W) :
  forallb is_read (trace gateway (getBranch_existing owner repo n) w) = true.
Proof.
  unfold trace, getBranch_existing. destruct (ntruthy n); [|reflexivity].
  cbn. next_answer gateway; [reflexivity|].
  destruct (find (getBranch_isDocsPR n) v) as [pr|]; cbn; [|reflexivity].
  next_answer gateway; reflexivity.
Qed.

(** The reuse path as written.  When the search of [getBranch], with its
    own spelling of the marker, finds an open pull request for a (non-zero)
    originating number, and the tip of its head ref can be read, the
    action returns the state with [branchInfo] set to that head ref, that
    tip and [exists = true]; the only requests are the listing and the ref
    lookup, so no ref is created; and, the remote being left as found by
    these reads, a repeated run returns the identical result. *)
Theorem getBranch_reuses_existing_branch
  (env : Env) (state : ReviewState) (owner repo : jsstring) (n : Z)
  (pulls : list Pull) (existingPR : Pull) (tip : jsstring) (w w1 w2 : W) :
  otruthy (GITHUB_TOKEN env) = true ->
  n <> 0%Z ->
  answers gateway (pulls_list owner repo) w pulls w1 ->
  find (getBranch_isDocsPR (Some n)) pulls = Some existingPR ->
  answers gateway (git_getRef owner repo (lit "heads/" ++ pr_head_ref existingPR)) w1 tip w2 ->
  let action :=
    getBranch env state
      (Some {| gb_owner := Some owner; gb_repo := Some repo;
               gb_original_pr_number := Some n |}) in
  run gateway action w =
    ([pulls_list owner repo;
      git_getRef owner repo (lit "heads/" ++ pr_head_ref existingPR)],
     w2,
     inr (with_branchInfo state
            {| bi_name := pr_head_ref existingPR; bi_sha := tip; bi_exists := true |}))
  /\ calls is_createRef (trace gateway action w) = 0%nat
  /\ (reads_pure gateway ->
      final gateway action w = w
      /\ outcome gateway action (final gateway action w) = outcome gateway action w).
Proof.
  intros Htok Hn Hlist Hfind Href action.
  assert (Hrun : run gateway action w =
    ([pulls_list owner repo;
      git_getRef owner repo (lit "heads/" ++ pr_head_ref existingPR)],
     w2,
     inr (with_branchInfo state
            {| bi_name := pr_head_ref existingPR; bi_sha := tip; bi_exists := true |}))).
  { unfold action, getBranch. rewrite Htok.
    cbn [negb gb_owner gb_repo gb_original_pr_number].
    unfold getBranch_existing. rewrite (ntruthy_Some Hn). cbn.
    unfold answers in Hlist, Href. rewrite Hlist. cbn.
    rewrite Hfind. cbn. rewrite Href. reflexivity. }
  split; [exact Hrun|]. split.
  - unfold trace. rewrite Hrun. reflexivity.
  - intros Hpure.
    assert (Hw : final gateway action w = w).
    { unfold final. rewrite Hrun. cbn.
      pose proof (Hpure (pulls_list owner repo) w eq_refl) as H1.
      pose proof (Hpure (git_getRef owner repo (lit "heads/" ++ pr_head_ref existingPR))
                    w1 eq_refl) as H2.
      unfold answers in Hlist, Href. rewrite Hlist in H1. rewrite Href in H2.
      cbn in H1, H2. congruence. }
    split; [exact Hw|]. now rewrite Hw.
Qed.

(** Even when the tip of the head ref cannot be read, a found pull request
    rules out the creation of a ref: the run stops at the failed lookup. *)
Lemma getBranch_found_never_creates
  (env : Env) (state : ReviewState) (owner repo : jsstring) (n : Z)
  (pulls : list Pull) (existingPR : Pull) (w w1 : W) :
  otruthy (GITHUB_TOKEN env) = true ->
  n <> 0%Z ->
  answers gateway (pulls_list owner repo) w pulls w1 ->
  find (getBranch_isDocsPR (Some n)) pulls = Some existingPR ->
  calls is_createRef
    (trace gateway
       (getBranch env state
          (Some {| gb_owner := Some owner; gb_repo := Some repo;
                   gb_original_pr_number := Some n |})) w) = 0%nat.
Proof.
  intros Htok Hn Hlist Hfind. unfold trace, getBranch. rewrite Htok.
  cbn [negb gb_owner gb_repo gb_original_pr_number].
  unfold getBranch_existing. rewrite (ntruthy_Some Hn). cbn.
  unfold answers in Hlist. rewrite Hlist. cbn. rewrite Hfind. cbn.
  next_answer gateway; reflexivity.
Qed.

(** *** getBranch: creating the branch *)

Lemma branchName_with_number (n now : Z) :
  n <> 0%Z ->
  getBranch_branchName (Some n) now = lit "docs/update-pr-" ++ number_toString n.
Proof. intros H. unfold getBranch_branchName. now rewrite (ntruthy_Some H). Qed.

Lemma branchName_without_number (n : option Z) (now : Z) :
  ntruthy n = false ->
  getBranch_branchName n now = lit "docs/update-" ++ number_toString now.
Proof. intros H. unfold getBranch_branchName. now rewrite H. Qed.

(** C3: when no open pull request matches (the search, made only for a
    non-zero originating number, finds nothing) and the remote answers the
    three calls of the create path, exactly one ref is created; it is
    [refs/heads/<name>] at the tip of the default branch, where [<name>] is
    [docs/update-pr-<id>] for a supplied (non-zero) id and
    [docs/update-<milliseconds>] otherwise; the action returns a state
    whose [branchInfo] field is that name, that tip and [exists = true],
    every other field being the one of the given state. *)
Theorem getBranch_creates_one_branch
  (env : Env) (state : ReviewState) (owner repo : jsstring) (n : option Z)
  (base tip : jsstring) (w w1 w2 w3 w4 : W) :
  otruthy (GITHUB_TOKEN env) = true ->
  (if ntruthy n
   then exists pulls, answers gateway (pulls_list owner repo) w pulls w1
                      /\ find (getBranch_isDocsPR n) pulls = None
   else w1 = w) ->
  answers gateway (repos_get owner repo) w1 base w2 ->
  answers gateway (git_getRef owner repo (lit "heads/" ++ base)) w2 tip w3 ->
  answers gateway
    (git_createRef owner repo
       (lit "refs/heads/" ++ getBranch_branchName n (Date_now env)) tip) w3 tt w4 ->
  let action :=
    getBranch env state
      (Some {| gb_owner := Some owner; gb_repo := Some repo;
               gb_original_pr_number := n |}) in
  let branchName := getBranch_branchName n (Date_now env) in
  (exists st,
      outcome gateway action w = inr st
      /\ st = with_branchInfo state
                {| bi_name := branchName; bi_sha := tip; bi_exists := true |}
      /\ branchInfo st =
           Some {| bi_name := branchName; bi_sha := tip; bi_exists := true |}
      /\ commitInfo st = commitInfo state
      /\ docInfo st = docInfo state
      /\ generatedContent st = generatedContent state
      /\ config st = config state)
  /\ calls is_createRef (trace gateway action w) = 1%nat
  /\ In (git_createRef owner repo (lit "refs/heads/" ++ branchName) tip)
        (trace gateway action w)
  /\ (forall id, n = Some id -> id <> 0%Z ->
      branchName = lit "docs/update-pr-" ++ number_toString id)
  /\ (ntruthy n = false ->
      branchName = lit "docs/update-" ++ number_toString (Date_now env)).
Proof.
  intros Htok Hsearch Hrepo Href Hcreate action branchName.
  assert (Hrun : exists t0,
    calls is_createRef t0 = 0%nat /\
    run gateway action w =
      (t0 ++ [repos_get owner repo;
              git_getRef owner repo (lit "heads/" ++ base);
              git_createRef owner repo (lit "refs/heads/" ++ branchName) tip],
       w4,
       inr (with_branchInfo state
              {| bi_name := branchName; bi_sha := tip; bi_exists := true |}))).
  { unfold action, getBranch. rewrite Htok.
    cbn [negb gb_owner gb_repo gb_original_pr_number].
    unfold getBranch_existing, getBranch_create. unfold answers in *.
    destruct (ntruthy n) eqn:Hn.
    - destruct Hsearch as (pulls & Hlist & Hfind).
      exists [pulls_list owner repo]. split; [reflexivity|].
      cbn. rewrite Hlist. cbn. rewrite Hfind. cbn.
      rewrite Hrepo. cbn. rewrite Href. cbn.
      fold branchName. fold branchName in Hcreate. rewrite Hcreate. reflexivity.
    - subst w1. exists []. split; [reflexivity|].
      cbn. rewrite Hrepo. cbn. rewrite Href. cbn.
      fold branchName. fold branchName in Hcreate. rewrite Hcreate. reflexivity. }
  destruct Hrun as (t0 & Ht0 & Hrun).
  unfold outcome, trace. rewrite Hrun. cbn [fst snd].
  split; [eexists; split; [reflexivity|]; repeat split|].
  split; [|split; [|split]].
  - rewrite calls_app, Ht0. reflexivity.
  - apply in_or_app. right. cbn. auto.
  - intros id -> Hid. apply branchName_with_number, Hid.
  - intros Hn. apply branchName_without_number, Hn.
Qed.

End Reconcilers.

(** *** getBranch and the documentation pull request of its siblings *)

(** C2 (fails on the code): an open documentation pull request exists for
    change 42 ([docs_pull_42], which the searches of [managePR] and
    [findDocumentation] both accept), yet [getBranch] does not return its
    head ref [docs-42]: its search, spelled with the other marker, finds
    nothing, so it creates [refs/heads/docs/update-pr-42] and returns that
    name in [branchInfo]; run again on the remote it left, it throws,
    because the ref now exists. *)
Theorem getBranch_duplicates_documentation_branch :
  managePR_isDocsPR (Some 42%Z) docs_pull_42 = true
  /\ findDocumentation_isDocsPR 42 docs_pull_42 = true
  /\ getBranch_isDocsPR (Some 42%Z) docs_pull_42 = false
  /\ (exists st,
        run (sample_gateway [other_pull; docs_pull_42] None)
          (getBranch sample_env sample_state getBranch_42) sample_heads
        = ([pulls_list (lit "acme") (lit "sdk");
            repos_get (lit "acme") (lit "sdk");
            git_getRef (lit "acme") (lit "sdk") (lit "heads/main");
            git_createRef (lit "acme") (lit "sdk")
              (lit "refs/heads/docs/update-pr-42") (lit "a1b2c3")],
           taken_heads, inr st)
        /\ branchInfo st =
             Some {| bi_name := lit "docs/update-pr-42"; bi_sha := lit "a1b2c3";
                     bi_exists := true |})
  /\ pr_head_ref docs_pull_42 = lit "docs-42"
  /\ lit "docs/update-pr-42" <> pr_head_ref docs_pull_42
  /\ outcome (sample_gateway [other_pull; docs_pull_42] None)
       (getBranch sample_env sample_state getBranch_42) taken_heads
     = inl (lit "Reference already exists").
Proof.
  split; [vm_compute; reflexivity|]. split; [vm_compute; reflexivity|].
  split; [vm_compute; reflexivity|]. split.
  - eexists. split; vm_compute; reflexivity.
  - split; [reflexivity|]. split; [vm_compute; discriminate|].
    vm_compute. reflexivity.
Qed.

(** *** The name of the created branch *)

Lemma branchName_contains_slash (n : option Z) (now : Z) :
  includes (getBranch_branchName n now) (lit "/") = true.
Proof.
  apply includes_infix. unfold getBranch_branchName.
  destruct (ntruthy n).
  - exists (lit "docs"), (lit "update-pr-" ++ template_number n). reflexivity.
  - exists (lit "docs"), (lit "update-" ++ number_toString now). reflexivity.
Qed.

(** C5 as worded fails: the name handed to the ref creation is not a
    single ref segment.  Run for the originating number 42 against the
    sample remote without open pull requests, [getBranch] creates
    [refs/heads/docs/update-pr-42]: the branch name [docs/update-pr-42]
    has kept its slash; no substitution is applied to it. *)
Theorem getBranch_branch_name_keeps_slash :
  trace (sample_gateway [] None)
    (getBranch sample_env sample_state
       (Some {| gb_owner := Some (lit "acme"); gb_repo := Some (lit "sdk");
                gb_original_pr_number := Some 42%Z |}))
    sample_heads
  = [pulls_list (lit "acme") (lit "sdk");
     repos_get (lit "acme") (lit "sdk");
     git_getRef (lit "acme") (lit "sdk") (lit "heads/main");
     git_createRef (lit "acme") (lit "sdk")
       (lit "refs/heads/docs/update-pr-42") (lit "a1b2c3")]
  /\ getBranch_branchName (Some 42%Z) (Date_now sample_env) = lit "docs/update-pr-42"
  /\ includes (lit "docs/update-pr-42") (lit "/") = true.
Proof. repeat split; vm_compute; reflexivity. Qed.

Lemma uint_chars (d : Decimal.uint) :
  forallb is_number_char (Js.lit (NilEmpty.string_of_uint d)) = true.
Proof.
  unfold Js.lit. induction d; cbn; try exact IHd; reflexivity.
Qed.

Lemma number_toString_chars (n : Z) :
  forallb is_number_char (number_toString n) = true.
Proof.
  unfold number_toString. destruct (Z.to_int n) as [d|d].
  - apply uint_chars.
  - change (Js.lit (NilEmpty.string_of_int (Decimal.Neg d)))
      with (45%N :: Js.lit (NilEmpty.string_of_uint d)).
    cbn [forallb]. now rewrite uint_chars.
Qed.

Lemma forallb_weaken (f g : N -> bool) (l : jsstring) :
  (forall c, f c = true -> g c = true) ->
  forallb f l = true -> forallb g l = true.
Proof.
  intros Hfg H. apply forallb_forall. intros c Hin.
  apply Hfg. now apply (proj1 (forallb_forall f l) H).
Qed.

Lemma number_char_no_slash (c : N) :
  is_number_char c = true -> negb (N.eqb c slash) = true.
Proof.
  intros H. apply negb_true_iff, N.eqb_neq. intros ->. discriminate H.
Qed.

Lemma number_char_no_space (c : N) :
  is_number_char c = true -> negb (N.eqb c space) = true.
Proof.
  intros H. apply negb_true_iff, N.eqb_neq. intros ->. discriminate H.
Qed.

(** The shape of every name [getBranch] builds. *)
Lemma branchName_shape (n : option Z) (now : Z) :
  exists rest,
    getBranch_branchName n now = lit "docs/" ++ rest
    /\ ((exists id, n = Some id /\ id <> 0%Z
                    /\ rest = lit "update-pr-" ++ number_toString id)
        \/ (ntruthy n = false /\ rest = lit "update-" ++ number_toString now))
    /\ slash_free rest
    /\ space_free (lit "docs/" ++ rest).
Proof.
  assert (Hfree : forall pre k,
    forallb (fun c => negb (N.eqb c slash)) pre = true ->
    forallb (fun c => negb (N.eqb c space)) (lit "docs/" ++ pre) = true ->
    slash_free (pre ++ number_toString k)
    /\ space_free (lit "docs/" ++ pre ++ number_toString k)).
  { intros pre k H1 H2. unfold slash_free, space_free. split.
    - rewrite forallb_app, H1.
      apply (forallb_weaken _ _ _ number_char_no_slash), number_toString_chars.
    - rewrite app_assoc, forallb_app, H2.
      apply (forallb_weaken _ _ _ number_char_no_space), number_toString_chars. }
  unfold getBranch_branchName. destruct n as [id|]; cbn [ntruthy].
  - destruct (Z.eqb_spec id 0) as [->|Hid]; cbn [negb].
    + exists (lit "update-" ++ number_toString now).
      split; [reflexivity|]. split; [now right|].
      apply Hfree; reflexivity.
    + exists (lit "update-pr-" ++ number_toString id).
      split; [reflexivity|]. split; [left; now exists id|].
      apply Hfree; reflexivity.
  - exists (lit "update-" ++ number_toString now).
    split; [reflexivity|]. split; [now right|].
    apply Hfree; reflexivity.
Qed.

Section CreatedRef.

Variable W : Type.
Variable gateway : forall rq : Request, W -> W * (Error + Response rq).

Lemma created_ref_inv
  (env : Env) (state : ReviewState) (parameters : option GetBranchParams)
  (w : W) (rq : Request) :
  In rq (trace gateway (getBranch env state parameters) w) ->
  is_createRef rq = true ->
  exists p owner repo tip,
    parameters = Some p /\ gb_owner p = Some owner /\ gb_repo p = Some repo
    /\ rq = git_createRef owner repo
              (lit "refs/heads/"
                 ++ getBranch_branchName (gb_original_pr_number p) (Date_now env))
              tip.
Proof.
  unfold trace, getBranch. intros Hin Hcr.
  destruct (otruthy (GITHUB_TOKEN env)); [|contradiction Hin].
  destruct parameters as [p|]; [|contradiction Hin].
  destruct (gb_owner p) as [owner|] eqn:Ho; [|contradiction Hin].
  destruct (gb_repo p) as [repo|] eqn:Hr; [|contradiction Hin].
  unfold getBranch_existing, getBranch_create in Hin.
  destruct (ntruthy (gb_original_pr_number p)); cbn in Hin.
  - next_answer_in gateway Hin.
    + destruct Hin as [<-|[]]. discriminate Hcr.
    + destruct (find (getBranch_isDocsPR (gb_original_pr_number p)) v) as [pr|];
        cbn in Hin.
      * next_answer_in gateway Hin;
          repeat (destruct Hin as [<-|Hin]; [discriminate Hcr|]);
          contradiction Hin.
      * next_answer_in gateway Hin;
          [repeat (destruct Hin as [<-|Hin]; [discriminate Hcr|]);
           contradiction Hin|].
        next_answer_in gateway Hin;
          [repeat (destruct Hin as [<-|Hin]; [discriminate Hcr|]);
           contradiction Hin|].
        next_answer_in gateway Hin;
          (destruct Hin as [<-|Hin]; [discriminate Hcr|]);
          (destruct Hin as [<-|Hin]; [discriminate Hcr|]);
          (destruct Hin as [<-|Hin]; [discriminate Hcr|]);
          (destruct Hin as [<-|[]]; exists p, owner, repo, v1; auto).
  - next_answer_in gateway Hin;
      [repeat (destruct Hin as [<-|Hin]; [discriminate Hcr|]);
       contradiction Hin|].
    next_answer_in gateway Hin;
      [repeat (destruct Hin as [<-|Hin]; [discriminate Hcr|]);
       contradiction Hin|].
    next_answer_in gateway Hin;
      (destruct Hin as [<-|Hin]; [discriminate Hcr|]);
      (destruct Hin as [<-|Hin]; [discriminate Hcr|]);
      (destruct Hin as [<-|[]]; exists p, owner, repo, v0; auto).
Qed.

(** C5 (as amended): every ref creation [getBranch] issues, whatever the
    input and the answers of the remote, is for [refs/heads/<name>] with
    the name taken untransformed from the template: [docs/update-pr-<id>]
    for a non-zero id, [docs/update-<milliseconds>] otherwise.  The name
    contains no space; it does contain a slash, the one after [docs], and
    no other. *)
Theorem getBranch_created_ref_name
  (env : Env) (state : ReviewState) (parameters : option GetBranchParams)
  (w : W) (rq : Request) :
  In rq (trace gateway (getBranch env state parameters) w) ->
  is_createRef rq = true ->
  exists p owner repo tip rest,
    parameters = Some p /\ gb_owner p = Some owner /\ gb_repo p = Some repo
    /\ rq = git_createRef owner repo (lit "refs/heads/" ++ lit "docs/" ++ rest) tip
    /\ getBranch_branchName (gb_original_pr_number p) (Date_now env)
       = lit "docs/" ++ rest
    /\ ((exists id, gb_original_pr_number p = Some id /\ id <> 0%Z
                    /\ rest = lit "update-pr-" ++ number_toString id)
        \/ (ntruthy (gb_original_pr_number p) = false
            /\ rest = lit "update-" ++ number_toString (Date_now env)))
    /\ slash_free rest
    /\ space_free (lit "docs/" ++ rest)
    /\ includes (lit "docs/" ++ rest) (lit "/") = true.
Proof.
  intros Hin Hcr.
  destruct (created_ref_inv _ _ _ _ _ Hin Hcr)
    as (p & owner & repo & tip & Hp & Ho & Hr & Hrq).
  destruct (branchName_shape (gb_original_pr_number p) (Date_now env))
    as (rest & Hname & Hrest & Hslash & Hspace).
  exists p, owner, repo, tip, rest. rewrite Hname in Hrq.
  repeat split; auto.
Qed.

End CreatedRef.

(** The ref created for change 42 on the sample remote. *)
Lemma getBranch_created_ref_name_witness :
  exists owner repo tip rest,
    git_createRef (lit "acme") (lit "sdk") (lit "refs/heads/docs/update-pr-42")
      (lit "a1b2c3")
    = git_createRef owner repo (lit "refs/heads/" ++ lit "docs/" ++ rest) tip
    /\ slash_free rest
    /\ space_free (lit "docs/" ++ rest)
    /\ includes (lit "docs/" ++ rest) (lit "/") = true.
Proof.
  destruct (@getBranch_created_ref_name Heads (sample_gateway [] None)
              sample_env sample_state getBranch_42 sample_heads
              (git_createRef (lit "acme") (lit "sdk")
                 (lit "refs/heads/docs/update-pr-42") (lit "a1b2c3")))
    as (p & owner & repo & tip & rest & _ & _ & _ & Hrq & _ & _ & Hs & Hsp & Hinc).
  - right. right. right. left. reflexivity.
  - reflexivity.
  - exists owner, repo, tip, rest. repeat split; assumption.
Defined.

Section PullRequests.

Variable W : Type.
Variable gateway : forall rq : Request, W -> W * (Error + Response rq).

(** *** managePR: update or create *)

Ltac leaf :=
  repeat split; try reflexivity; try lia; try discriminate; intros;
  repeat match goal with
         | H : _ \/ _ |- _ => destruct H
         | H : False |- _ => contradiction
         | H : In _ [] |- _ => contradiction
         end;
  try discriminate;
  try match goal with
      | H : issues_createComment _ _ _ _ = issues_createComment _ _ _ _ |- _ =>
          inversion H; subst; auto
      end.

(** The calls of the block that opens the pull request. *)
Lemma managePR_open_calls (owner repo title body head base : jsstring)
  (labels : option (list jsstring)) (n : option Z) (w : W) :
  let '(t, _, out) :=
    run gateway (managePR_open owner repo title body head base labels n) w in
  calls is_pulls_update t = 0%nat
  /\ calls is_pulls_create t = 1%nat
  /\ (forall o r i b, In (issues_createComment o r i b) t ->
                      n = Some i /\ i <> 0%Z /\ o = owner /\ r = repo)
  /\ (forall v, out = inr v ->
      calls is_createComment t = (if ntruthy n then 1%nat else 0%nat)).
Proof.
  unfold managePR_open. cbn.
  next_answer gateway; [leaf|].
  destruct (labels_given labels); cbn.
  - next_answer gateway; [leaf|].
    destruct n as [i|]; cbn; [|leaf].
    destruct (Z.eqb_spec i 0); cbn; [leaf|].
    next_answer gateway; leaf.
  - destruct n as [i|]; cbn; [|leaf].
    destruct (Z.eqb_spec i 0); cbn; [leaf|].
    next_answer gateway; leaf.
Qed.

(** The calls of the create path. *)
Lemma managePR_create_calls (owner repo title body head : jsstring)
  (base_branch : option jsstring) (labels : option (list jsstring))
  (n : option Z) (w : W) :
  let '(t, _, out) :=
    run gateway (managePR_create owner repo title body head base_branch labels n) w in
  calls is_pulls_update t = 0%nat
  /\ (calls is_pulls_create t <= 1)%nat
  /\ (forall o r i b, In (issues_createComment o r i b) t ->
                      n = Some i /\ i <> 0%Z /\ o = owner /\ r = repo)
  /\ (forall v, out = inr v ->
      calls is_pulls_create t = 1%nat
      /\ calls is_createComment t = (if ntruthy n then 1%nat else 0%nat)).
Proof.
  unfold managePR_create.
  assert (Hopen : forall base w0,
    let '(t, _, out) :=
      run gateway (managePR_open owner repo title body head base labels n) w0 in
    calls is_pulls_update t = 0%nat
    /\ (calls is_pulls_create t <= 1)%nat
    /\ (forall o r i b, In (issues_createComment o r i b) t ->
                        n = Some i /\ i <> 0%Z /\ o = owner /\ r = repo)
    /\ (forall v, out = inr v ->
        calls is_pulls_create t = 1%nat
        /\ calls is_createComment t = (if ntruthy n then 1%nat else 0%nat))).
  { intros base w0.
    pose proof (managePR_open_calls owner repo title body head base labels n w0) as H.
    destruct (run gateway _ w0) as [[t w'] out].
    destruct H as (Hu & Hc & Hcm & Hok).
    split; [exact Hu|]. split; [lia|]. split; [exact Hcm|].
    intros v Hv. split; [exact Hc|exact (Hok v Hv)]. }
  assert (Hget : forall w0,
    let '(t, _, out) :=
      run gateway (base <- await (repos_get owner repo) ;;
                   managePR_open owner repo title body head base labels n) w0 in
    calls is_pulls_update t = 0%nat
    /\ (calls is_pulls_create t <= 1)%nat
    /\ (forall o r i b, In (issues_createComment o r i b) t ->
                        n = Some i /\ i <> 0%Z /\ o = owner /\ r = repo)
    /\ (forall v, out = inr v ->
        calls is_pulls_create t = 1%nat
        /\ calls is_createComment t = (if ntruthy n then 1%nat else 0%nat))).
  { intros w0. cbn [bind await run].
    destruct (gateway (repos_get owner repo) w0) as [w' [e|base]]; [cbn; leaf|].
    specialize (Hopen base w').
    destruct (run gateway _ w') as [[t w''] out].
    destruct Hopen as (Hu & Hc & Hcm & Hok).
    split; [exact Hu|]. split; [exact Hc|]. split; [|exact Hok].
    intros o r i b [E|Hin]; [discriminate|]. exact (Hcm _ _ _ _ Hin). }
  destruct base_branch as [b|]; [destruct (truthy b)|].
  - cbn [bind]. exact (Hopen b w).
  - exact (Hget w).
  - exact (Hget w).
Qed.

(** C4: once [managePR] has listed the open pull requests, (1) if its
    search selects one, [pulls.update] is called exactly once, on that
    pull request, and neither [pulls.create] nor a comment is ever issued;
    (2) if it selects none, [pulls.update] is never called and
    [pulls.create] at most once, and on every run that completes
    [pulls.create] is called exactly once and the number of comments is one
    if an originating number was supplied (non-zero) and zero otherwise,
    any comment being posted on the originating change. *)
Theorem managePR_updates_or_creates
  (env : Env) (state : ReviewState) (branch : BranchInfo)
  (owner repo title body : jsstring) (base_branch : option jsstring)
  (labels : option (list jsstring)) (n : option Z)
  (pulls : list Pull) (w w1 : W) :
  otruthy (GITHUB_TOKEN env) = true ->
  existing_branch state = Some branch ->
  answers gateway (pulls_list owner repo) w pulls w1 ->
  let action :=
    managePR env state
      (Some {| mp_owner := Some owner; mp_repo := Some repo;
               mp_title := Some title; mp_body := Some body;
               mp_base_branch := base_branch; mp_labels := labels;
               mp_original_pr_number := n |}) in
  let t := trace gateway action w in
  (forall existingPR,
      find (managePR_isDocsPR n) pulls = Some existingPR ->
      calls is_pulls_update t = 1%nat
      /\ In (pulls_update owner repo (pr_number existingPR) title body) t
      /\ calls is_pulls_create t = 0%nat
      /\ calls is_createComment t = 0%nat)
  /\ (find (managePR_isDocsPR n) pulls = None ->
      calls is_pulls_update t = 0%nat
      /\ (calls is_pulls_create t <= 1)%nat
      /\ (forall o r i b, In (issues_createComment o r i b) t ->
                          n = Some i /\ i <> 0%Z /\ o = owner /\ r = repo)
      /\ (forall st, outcome gateway action w = inr st ->
          calls is_pulls_create t = 1%nat
          /\ calls is_createComment t = (if ntruthy n then 1%nat else 0%nat))).
Proof.
  intros Htok Hbranch Hlist action t. unfold answers in Hlist.
  subst t action. unfold trace, outcome, managePR.
  rewrite Htok, Hbranch.
  cbn [negb mp_owner mp_repo mp_title mp_body mp_base_branch mp_labels
       mp_original_pr_number].
  cbn [bind await run]. rewrite Hlist. cbn [bind await run]. split.
  - intros existingPR Hfind. rewrite Hfind.
    unfold managePR_update. cbn.
    next_answer gateway; [repeat split; auto|].
    destruct (labels_given labels); cbn; [next_answer gateway|];
      repeat split; auto.
  - intros Hfind. rewrite Hfind. rewrite run_bind.
    pose proof (managePR_create_calls owner repo title body (bi_name branch)
                  base_branch labels n w1) as Hc.
    destruct (run gateway (managePR_create owner repo title body (bi_name branch)
                             base_branch labels n) w1) as [[t0 w2] [e|[]]];
      destruct Hc as (Hu & Hle & Hcm & Hok); cbn.
    + split; [exact Hu|]. split; [exact Hle|]. split; [|discriminate].
      intros o r i b [E|Hin]; [discriminate|]. exact (Hcm _ _ _ _ Hin).
    + rewrite app_nil_r.
      split; [exact Hu|]. split; [exact Hle|]. split; [|intros st _; exact (Hok tt eq_refl)].
      intros o r i b [E|Hin]; [discriminate|]. exact (Hcm _ _ _ _ Hin).
Qed.

(** C10: without an [original_pr_number], [managePR] still lists the open
    pull requests and searches them, and its body test is the substring
    test for [#undefined]: if some open pull request has a title starting
    with the marker and a body containing [#undefined], the first such one
    is taken for the existing documentation pull request and updated, and
    no pull request is created.  [getBranch], given no number, does not
    list the pull requests at all. *)
Theorem managePR_unsupplied_number_matches_undefined
  (env : Env) (state : ReviewState) (branch : BranchInfo)
  (owner repo title body : jsstring) (base_branch : option jsstring)
  (labels : option (list jsstring)) (pulls : list Pull) (w w1 : W) :
  otruthy (GITHUB_TOKEN env) = true ->
  existing_branch state = Some branch ->
  answers gateway (pulls_list owner repo) w pulls w1 ->
  let action :=
    managePR env state
      (Some {| mp_owner := Some owner; mp_repo := Some repo;
               mp_title := Some title; mp_body := Some body;
               mp_base_branch := base_branch; mp_labels := labels;
               mp_original_pr_number := None |}) in
  let t := trace gateway action w in
  hd_error t = Some (pulls_list owner repo)
  /\ (forall pr, managePR_isDocsPR None pr =
                 startsWith (pr_title pr) managePR_marker
                 && body_includes (pr_body pr) (lit "#undefined"))
  /\ (forall pr,
        In pr pulls ->
        startsWith (pr_title pr) managePR_marker = true ->
        body_includes (pr_body pr) (lit "#undefined") = true ->
        exists existingPR,
          find (managePR_isDocsPR None) pulls = Some existingPR
          /\ startsWith (pr_title existingPR) managePR_marker = true
          /\ body_includes (pr_body existingPR) (lit "#undefined") = true
          /\ nth_error t 1 = Some (pulls_update owner repo (pr_number existingPR) title body)
          /\ calls is_pulls_create t = 0%nat)
  /\ calls is_pulls_list
       (trace gateway
          (getBranch env state
             (Some {| gb_owner := Some owner; gb_repo := Some repo;
                      gb_original_pr_number := None |})) w) = 0%nat.
Proof.
  intros Htok Hbranch Hlist action t. unfold answers in Hlist.
  assert (Hpred : forall pr, managePR_isDocsPR None pr =
                 startsWith (pr_title pr) managePR_marker
                 && body_includes (pr_body pr) (lit "#undefined")).
  { intros pr. reflexivity. }
  subst t action. unfold trace, managePR, getBranch.
  rewrite Htok, Hbranch.
  cbn [negb mp_owner mp_repo mp_title mp_body mp_base_branch mp_labels
       mp_original_pr_number gb_owner gb_repo gb_original_pr_number].
  split; [|split; [exact Hpred|split]].
  - cbn. rewrite Hlist. cbn.
    now destruct (run gateway _ w1) as [[t0 w2] out].
  - intros pr Hin Htitle Hbody.
    destruct (@find_some_of_exists _ (managePR_isDocsPR None) pulls)
      as (existingPR & Hfind & _ & Hmatch).
    { exists pr. split; [exact Hin|]. rewrite Hpred, Htitle, Hbody. reflexivity. }
    exists existingPR. rewrite Hpred in Hmatch.
    apply andb_true_iff in Hmatch as [Ht Hb].
    split; [exact Hfind|]. split; [exact Ht|]. split; [exact Hb|].
    cbn. rewrite Hlist. cbn. rewrite Hfind. unfold managePR_update. cbn.
    next_answer gateway; [split; reflexivity|].
    destruct (labels_given labels); cbn; [next_answer gateway|];
      split; reflexivity.
  - unfold getBranch_existing, getBranch_create. cbn.
    next_answer gateway; [reflexivity|].
    next_answer gateway; [reflexivity|].
    next_answer gateway; reflexivity.
Qed.

End PullRequests.

(** *** findDocumentation: a failed fetch costs one file's content only *)

Arguments docPath : simpl never.

Lemma recorded_doc_path (decode : jsstring -> jsstring) (path : jsstring)
  (r : Error + ContentData) :
  df_path (recorded_doc decode path r) = docPath path.
Proof. destruct r as [e|[content sha|]]; reflexivity. Qed.

Lemma recorded_pr_file_path (decode : jsstring -> jsstring) (filename : jsstring)
  (r : Error + ContentData) :
  prf_path (recorded_pr_file decode filename r) = filename.
Proof. destruct r as [e|[content sha|]]; reflexivity. Qed.

(** A rejected lookup is recorded as absent content. *)
Lemma recorded_doc_rejected (decode : jsstring -> jsstring) (path : jsstring) (e : Error) :
  df_content (recorded_doc decode path (inl e)) = None.
Proof. reflexivity. Qed.

Lemma recorded_pr_file_rejected (decode : jsstring -> jsstring) (filename : jsstring)
  (e : Error) :
  truthy (prf_content (recorded_pr_file decode filename (inl e))) = false.
Proof. reflexivity. Qed.

Section Discovery.

Variable W : Type.
Variable gateway : forall rq : Request, W -> W * (Error + Response rq).
Variable decode : jsstring -> jsstring.
Variables owner repo : jsstring.

(** The lookup of one documentation file never throws. *)
Lemma run_fetch_doc_file (path : jsstring) (w : W) :
  run gateway (fetch_doc_file decode owner repo path) w =
  ([doc_request owner repo path],
   fst (gateway (doc_request owner repo path) w),
   inr (recorded_doc decode path (snd (gateway (doc_request owner repo path) w)))).
Proof.
  unfold fetch_doc_file, doc_request. cbn [run bind try_catch await].
  destruct (gateway (repos_getContent owner repo (docPath path) (lit "main")) w)
    as [w' [e|[content sha|]]]; reflexivity.
Qed.

(** Neither does the fetch of one file of the documentation pull request. *)
Lemma run_fetch_pr_file (ref filename : jsstring) (w : W) :
  run gateway (fetch_pr_file decode owner repo ref filename) w =
  ([repos_getContent owner repo filename ref],
   fst (gateway (repos_getContent owner repo filename ref) w),
   inr (recorded_pr_file decode filename
          (snd (gateway (repos_getContent owner repo filename ref) w)))).
Proof.
  unfold fetch_pr_file. cbn [run bind try_catch await].
  destruct (gateway (repos_getContent owner repo filename ref) w)
    as [w' [e|[content sha|]]]; reflexivity.
Qed.

Lemma run_fetch_navigation (w : W) :
  run gateway (fetch_navigation decode owner repo) w =
  ([navigation_request owner repo],
   fst (gateway (navigation_request owner repo) w),
   inr (recorded_navigation decode (snd (gateway (navigation_request owner repo) w)))).
Proof.
  unfold fetch_navigation, navigation_request. cbn [run bind try_catch await].
  destruct (gateway (repos_getContent owner repo (lit "mint.json") (lit "main")) w)
    as [w' [e|[content sha|]]]; reflexivity.
Qed.

(** Every changed path is looked up and recorded, whatever the answers. *)
Lemma run_mapM_doc (paths : list jsstring) (w : W) :
  exists w' files,
    run gateway (mapM (fetch_doc_file decode owner repo) paths) w =
      (map (doc_request owner repo) paths, w', inr files)
    /\ map df_path files = map docPath paths
    /\ (reads_pure gateway ->
        w' = w
        /\ files = map (fun p => recorded_doc decode p
                                   (snd (gateway (doc_request owner repo p) w))) paths).
Proof.
  revert w. induction paths as [|p paths IH]; intros w.
  - exists w, []. repeat split.
  - destruct (IH (fst (gateway (doc_request owner repo p) w))) as (w' & files & Hrun & Hpaths & Hpure).
    exists w', (recorded_doc decode p (snd (gateway (doc_request owner repo p) w)) :: files).
    split; [|split].
    + cbn [mapM]. rewrite run_bind, run_fetch_doc_file. cbv beta iota zeta.
      rewrite run_bind, Hrun. cbn [run app]. now rewrite app_nil_r.
    + cbn [map]. now rewrite recorded_doc_path, Hpaths.
    + intros Hp. destruct (Hpure Hp) as [Hw Hfiles].
      assert (Hstep : fst (gateway (doc_request owner repo p) w) = w) by (apply Hp; reflexivity).
      rewrite Hstep in Hw, Hfiles. split; [exact Hw|].
      cbn [map]. now rewrite Hfiles.
Qed.

Lemma run_mapM_pr (ref : jsstring) (filenames : list jsstring) (w : W) :
  exists w' files,
    run gateway (mapM (fetch_pr_file decode owner repo ref) filenames) w =
      (map (fun f => repos_getContent owner repo f ref) filenames, w', inr files)
    /\ map prf_path files = filenames
    /\ (reads_pure gateway ->
        w' = w
        /\ files = map (fun f => recorded_pr_file decode f
                                   (snd (gateway (repos_getContent owner repo f ref) w)))
                     filenames).
Proof.
  revert w. induction filenames as [|f filenames IH]; intros w.
  - exists w, []. repeat split.
  - destruct (IH (fst (gateway (repos_getContent owner repo f ref) w)))
      as (w' & files & Hrun & Hpaths & Hpure).
    exists w', (recorded_pr_file decode f
                  (snd (gateway (repos_getContent owner repo f ref) w)) :: files).
    split; [|split].
    + cbn [mapM]. rewrite run_bind, run_fetch_pr_file. cbv beta iota zeta.
      rewrite run_bind, Hrun. cbn [run app map]. now rewrite app_nil_r.
    + cbn [map]. now rewrite recorded_pr_file_path, Hpaths.
    + intros Hp. destruct (Hpure Hp) as [Hw Hfiles].
      assert (Hstep : fst (gateway (repos_getContent owner repo f ref) w) = w)
        by (apply Hp; reflexivity).
      rewrite Hstep in Hw, Hfiles. split; [exact Hw|].
      cbn [map]. now rewrite Hfiles.
Qed.

Lemma run_fetch_existingPR_none (w : W) :
  run gateway (fetch_existingPR decode owner repo None) w = ([], w, inr None).
Proof. reflexivity. Qed.

Lemma run_fetch_existingPR_some (docsPR : Pull) (filenames : list jsstring) (w w1 : W) :
  answers gateway (pulls_listFiles owner repo (pr_number docsPR)) w filenames w1 ->
  exists w' files,
    run gateway (fetch_existingPR decode owner repo (Some docsPR)) w =
      (pulls_listFiles owner repo (pr_number docsPR)
         :: map (fun f => repos_getContent owner repo f (pr_head_ref docsPR)) filenames,
       w',
       inr (Some {| epr_number := pr_number docsPR;
                    epr_branch := pr_head_ref docsPR;
                    epr_files := files |}))
    /\ map prf_path files = filenames
    /\ (reads_pure gateway ->
        w' = w1
        /\ files = map (fun f => recorded_pr_file decode f
                          (snd (gateway
                                  (repos_getContent owner repo f (pr_head_ref docsPR)) w1)))
                     filenames).
Proof.
  intros Hfiles.
  destruct (run_mapM_pr (pr_head_ref docsPR) filenames w1)
    as (w' & files & Hrun & Hpaths & Hpure).
  exists w', files. split; [|split; [exact Hpaths|exact Hpure]].
  unfold fetch_existingPR. rewrite run_bind, (run_await Hfiles).
  cbv beta iota zeta. rewrite run_bind, Hrun. cbn [run app].
  now rewrite app_nil_r.
Qed.

(** The lookups that follow the search never throw. *)
Lemma run_discover_files (state : ReviewState) (existingPR : option ExistingPR)
  (paths : list jsstring) (w : W) :
  exists w' docs nav,
    run gateway
      (docFiles <- mapM (fetch_doc_file decode owner repo) paths ;;
       nav <- fetch_navigation decode owner repo ;;
       Ret (with_docInfo state
              {| di_files := docFiles ++ nav; di_existingPR := existingPR |})) w =
      (map (doc_request owner repo) paths ++ [navigation_request owner repo], w',
       inr (with_docInfo state
              {| di_files := docs ++ nav; di_existingPR := existingPR |}))
    /\ map df_path docs = map docPath paths
    /\ (reads_pure gateway ->
        docs = map (fun p => recorded_doc decode p (snd (gateway (doc_request owner repo p) w))) paths
        /\ nav = recorded_navigation decode (snd (gateway (navigation_request owner repo) w))).
Proof.
  destruct (run_mapM_doc paths w) as (w1 & docs & Hrun & Hpaths & Hpure).
  exists (fst (gateway (navigation_request owner repo) w1)), docs,
    (recorded_navigation decode (snd (gateway (navigation_request owner repo) w1))).
  split; [|split; [exact Hpaths|]].
  - rewrite run_bind, Hrun. cbv beta iota zeta.
    rewrite run_bind, run_fetch_navigation. reflexivity.
  - intros Hp. destruct (Hpure Hp) as [-> ->]. split; reflexivity.
Qed.

(** C8: provided the listing of the open pull requests (and, when the
    search finds a documentation pull request, the listing of its files)
    is answered, discovery completes whatever the content lookups answer:
    the state it returns holds, in its [docInfo] field, one entry per
    changed path, in order and under its derived path, and one entry per
    file of the documentation pull request, the other fields being those
    of the given state; every one of these files is looked up; and, reads
    leaving the remote unchanged, the entry of a file depends on the
    answer to its own lookup alone: absent content if that lookup was
    rejected or carried no content, the decoded content otherwise. *)
Theorem findDocumentation_tolerates_fetch_failures
  (env : Env) (state : ReviewState) (pull_number : Z) (paths : list jsstring)
  (pulls : list Pull) (w w1 : W) :
  otruthy (GITHUB_TOKEN env) = true ->
  answers gateway (pulls_list owner repo) w pulls w1 ->
  (forall docsPR,
      find (findDocumentation_isDocsPR pull_number) pulls = Some docsPR ->
      exists filenames w2,
        answers gateway (pulls_listFiles owner repo (pr_number docsPR)) w1 filenames w2) ->
  let action :=
    findDocumentation decode env state
      (Some {| fd_owner := owner; fd_repo := repo;
               fd_pull_number := pull_number; fd_paths := paths |}) in
  exists docs nav existingPR st,
    outcome gateway action w = inr st
    /\ st = with_docInfo state
              {| di_files := docs ++ nav; di_existingPR := existingPR |}
    /\ docInfo st = Some {| di_files := docs ++ nav; di_existingPR := existingPR |}
    /\ commitInfo st = commitInfo state
    /\ branchInfo st = branchInfo state
    /\ generatedContent st = generatedContent state
    /\ config st = config state
    /\ map df_path docs = map docPath paths
    /\ (forall p, In p paths -> In (doc_request owner repo p) (trace gateway action w))
    /\ (forall docsPR filenames w2,
          find (findDocumentation_isDocsPR pull_number) pulls = Some docsPR ->
          answers gateway (pulls_listFiles owner repo (pr_number docsPR)) w1 filenames w2 ->
          exists e,
            existingPR = Some e
            /\ epr_number e = pr_number docsPR
            /\ epr_branch e = pr_head_ref docsPR
            /\ map prf_path (epr_files e) = filenames
            /\ (forall f, In f filenames ->
                  In (repos_getContent owner repo f (pr_head_ref docsPR))
                     (trace gateway action w))
            /\ (reads_pure gateway ->
                epr_files e =
                  map (fun f => recorded_pr_file decode f
                         (snd (gateway
                                 (repos_getContent owner repo f (pr_head_ref docsPR)) w)))
                    filenames))
    /\ (reads_pure gateway ->
        docs = map (fun p => recorded_doc decode p (snd (gateway (doc_request owner repo p) w))) paths
        /\ nav = recorded_navigation decode (snd (gateway (navigation_request owner repo) w))).
Proof.
  intros Htok Hlist Hfiles action.
  assert (Hw1 : reads_pure gateway -> w1 = w).
  { intros Hp. specialize (Hp (pulls_list owner repo) w eq_refl).
    unfold answers in Hlist. now rewrite Hlist in Hp. }
  unfold action, findDocumentation, outcome, trace. rewrite Htok.
  cbn [negb fd_owner fd_repo fd_pull_number fd_paths].
  rewrite run_bind, (run_await Hlist). cbv beta iota zeta. rewrite run_bind.
  destruct (find (findDocumentation_isDocsPR pull_number) pulls) as [docsPR|] eqn:Hfind.
  - destruct (Hfiles docsPR eq_refl) as (filenames & w2 & Hans).
    destruct (run_fetch_existingPR_some docsPR Hans)
      as (w3 & files & Hrun & Hpaths & Hpure).
    rewrite Hrun.
    destruct (run_discover_files state
                (Some {| epr_number := pr_number docsPR;
                         epr_branch := pr_head_ref docsPR;
                         epr_files := files |}) paths w3)
      as (w4 & docs & nav & Hrun2 & Hdocs & Hpure2).
    rewrite Hrun2. cbn [fst snd].
    exists docs, nav,
      (Some {| epr_number := pr_number docsPR; epr_branch := pr_head_ref docsPR;
               epr_files := files |}).
    eexists. split; [reflexivity|]. do 6 (split; [reflexivity|]).
    split; [exact Hdocs|]. split; [|split].
    + intros p Hin. apply in_or_app. right. apply in_or_app. right.
      apply in_or_app. left. now apply in_map.
    + intros docsPR' filenames' w2' E Hans'. inversion E; subst docsPR'.
      unfold answers in Hans, Hans'. rewrite Hans in Hans'.
      inversion Hans'; subst filenames' w2'.
      eexists. split; [reflexivity|]. cbn [epr_number epr_branch epr_files].
      split; [reflexivity|]. split; [reflexivity|]. split; [exact Hpaths|]. split.
      * intros f Hin. apply in_or_app. right. apply in_or_app. left.
        right. now apply (in_map (fun f => repos_getContent owner repo f (pr_head_ref docsPR))).
      * intros Hp. destruct (Hpure Hp) as [_ ->].
        assert (Hw2 : w2 = w1).
        { specialize (Hp (pulls_listFiles owner repo (pr_number docsPR)) w1 eq_refl).
          now rewrite Hans in Hp. }
        now rewrite Hw2, (Hw1 Hp).
    + intros Hp. destruct (Hpure Hp) as [Hw3 _].
      assert (Hw2 : w2 = w1).
      { specialize (Hp (pulls_listFiles owner repo (pr_number docsPR)) w1 eq_refl).
        unfold answers in Hans. now rewrite Hans in Hp. }
      destruct (Hpure2 Hp) as [-> ->]. now rewrite Hw3, Hw2, (Hw1 Hp).
  - rewrite run_fetch_existingPR_none.
    destruct (run_discover_files state None paths w1)
      as (w4 & docs & nav & Hrun2 & Hdocs & Hpure2).
    rewrite Hrun2. cbn [fst snd].
    exists docs, nav, None.
    eexists. split; [reflexivity|]. do 6 (split; [reflexivity|]).
    split; [exact Hdocs|]. split; [|split].
    + intros p Hin. apply in_or_app. right. apply in_or_app. right.
      apply in_or_app. left. now apply in_map.
    + discriminate.
    + intros Hp. destruct (Hpure2 Hp) as [-> ->]. now rewrite (Hw1 Hp).
Qed.

End Discovery.

(** *** writeDocumentation: the quality gate *)

Section Generation.

Variable W : Type.
Variable gateway : forall rq : Request, W -> W * (Error + Response rq).
Variable navigation_messages :
  option DocFile -> list jsstring -> option WriteContext -> list jsstring.
Variable documentation_messages :
  Config -> list jsstring -> option DocFile -> option PRFile ->
  option jsstring -> option WriteContext -> list jsstring.

(** C7: in a run of [writeDocumentation] for a file of type ["doc"] (with
    the credential set and an allowed extension) whose generator answers
    [content]: if [content] has length 40 and no code fence, the action
    throws the incomplete-content error; if it has length 500, contains a
    code fence, and contains neither [TODO] nor [placeholder], the action
    returns the state with that content as [generatedContent]. *)
Theorem writeDocumentation_quality_gate
  (env : Env) (state : ReviewState) (path : jsstring)
  (context : option WriteContext) (content : jsstring) (w w' : W) :
  otruthy (OPENAI_API_KEY env) = true ->
  array_includes (cfg_docExtensions (config state)) (fileExt_of path) = true ->
  answers gateway
    (chat_completions_create
       (documentation_messages (config state)
          (findSimilarDocs path (category_of path) (context_template_paths context) state)
          (existingFile_of state path) (existingPRFile_of state path)
          (category_of path) context))
    w (Some content) w' ->
  let action :=
    writeDocumentation navigation_messages documentation_messages env state
      (Some {| wd_path := Some path; wd_type := Some (lit "doc");
               wd_context := context |}) in
  (List.length content = 40%nat ->
   includes content (lit "```") = false ->
   outcome gateway action w =
     inl (lit "Generated content appears to be incomplete or placeholder text. Please try again with more detail."))
  /\ (List.length content = 500%nat ->
      includes content (lit "```") = true ->
      includes content (lit "TODO") = false ->
      includes content (lit "placeholder") = false ->
      outcome gateway action w =
        inr (with_generatedContent state
               {| gc_content := content; gc_path := path; gc_type := doc;
                  gc_update_type := Some (context_update_type context) |})).
Proof.
  intros Hkey Hext Hans action.
  assert (Hrun : outcome gateway action w =
    if content_rejected content
    then inl (lit "Generated content appears to be incomplete or placeholder text. Please try again with more detail.")
    else inr (with_generatedContent state
               {| gc_content := content; gc_path := path; gc_type := doc;
                  gc_update_type := Some (context_update_type context) |})).
  { unfold action, outcome, writeDocumentation. rewrite Hkey.
    cbn [negb wd_path wd_type wd_context].
    change (parse_type (lit "doc")) with (Some doc).
    unfold writeDocumentation_generate. rewrite Hext.
    cbn [negb andb is_doc].
    rewrite run_bind, (run_await Hans). cbv beta iota zeta.
    cbn [or_empty]. now destruct (content_rejected content). }
  rewrite Hrun. split.
  - intros Hlen _. rewrite rejected_below_100; [reflexivity|lia].
  - intros Hlen Hfence Htodo Hph.
    replace (content_rejected content) with false; [reflexivity|].
    symmetry. apply rejected_iff. repeat split; auto. lia.
Qed.

End Generation.

(** *** Template selection *)

Lemma split_slash_nonempty (s : jsstring) : split_slash s <> [].
Proof.
  induction s as [|c s IH]; simpl; [discriminate|].
  destruct (N.eqb c slash); [discriminate|].
  destruct (split_slash s); [contradiction|discriminate].
Qed.

Lemma split_slash_app (a b : jsstring) :
  split_slash (a ++ slash :: b) = split_slash a ++ split_slash b.
Proof.
  induction a as [|c a IH]; simpl.
  - reflexivity.
  - destruct (N.eqb c slash).
    + now rewrite IH.
    + rewrite IH. pose proof (split_slash_nonempty a) as Hne.
      destruct (split_slash a); [contradiction|reflexivity].
Qed.

Lemma split_slash_free (s : jsstring) : slash_free s -> split_slash s = [s].
Proof.
  unfold slash_free. induction s as [|c s IH]; simpl; [reflexivity|].
  intros H. apply andb_true_iff in H as [Hc Hs].
  apply negb_true_iff in Hc. rewrite Hc, (IH Hs). reflexivity.
Qed.

Lemma slice_m2_m1_last_two (A : Type) (l : list A) (x y : A) :
  slice_m2_m1 (l ++ [x; y]) = [x].
Proof.
  unfold slice_m2_m1. rewrite length_app. cbn [List.length].
  replace (List.length l + 2 - 2)%nat with (List.length l + 0)%nat by lia.
  replace (List.length l + 2 - 1 - (List.length l + 0))%nat with 1%nat by lia.
  now rewrite skipn_app, Nat.add_0_r, skipn_all, Nat.sub_diag.
Qed.

(** The category is the second-to-last segment of the path. *)
Lemma category_of_parent (dir cat file : jsstring) :
  slash_free cat -> slash_free file ->
  category_of (dir ++ slash :: cat ++ slash :: file) = Some cat.
Proof.
  intros Hcat Hfile. unfold category_of.
  rewrite split_slash_app, split_slash_app.
  rewrite (split_slash_free Hcat), (split_slash_free Hfile).
  change ([cat] ++ [file]) with [cat; file].
  now rewrite slice_m2_m1_last_two.
Qed.

(** A path of one segment has no category. *)
Lemma category_of_single (file : jsstring) :
  slash_free file -> category_of file = None.
Proof.
  intros H. unfold category_of. now rewrite (split_slash_free H).
Qed.

Lemma otruthy_content (f : DocFile) :
  otruthy (df_content f) = true <->
  exists c, df_content f = Some c /\ c <> [] /\ content_string f = c.
Proof.
  unfold content_string. destruct (df_content f) as [[|x c]|]; simpl; split;
    try discriminate.
  - intros (c & E & Hne & _). inversion E. congruence.
  - intros _. exists (x :: c). repeat split. discriminate.
  - reflexivity.
  - intros (c & E & _). discriminate.
Qed.

(** C9 as worded fails: for the target [docs/llm/openai.mdx] and no template
    paths, the code selects the nested file [docs/llm/providers/azure.mdx],
    whose parent segment is [providers], not [llm]. *)
Lemma similarDocs_not_by_parent_segment :
  similarDocs_for (lit "docs/llm/openai.mdx") None nested_state = [lit "# Azure"]
  /\ spec_similarDocs (lit "docs/llm/openai.mdx") None nested_state = []
  /\ similarDocs_for (lit "docs/llm/openai.mdx") None nested_state
     <> spec_similarDocs (lit "docs/llm/openai.mdx") None nested_state.
Proof. repeat split; vm_compute; try reflexivity; discriminate. Qed.

Lemma template_filter_iff (templatePaths : option (list jsstring)) (f : DocFile) :
  template_filter templatePaths f = true <->
  (exists l, templatePaths = Some l /\ In (df_path f) l)
  /\ (exists c, df_content f = Some c /\ c <> [] /\ content_string f = c).
Proof.
  unfold template_filter. rewrite andb_true_iff, array_includes_In, otruthy_content.
  split; intros [H1 H2]; (split; [|exact H2]).
  - destruct templatePaths as [l|]; [|contradiction]. now exists l.
  - destruct H1 as (l & -> & Hin). exact Hin.
Qed.

Lemma category_filter_iff (path : jsstring) (category : option jsstring) (f : DocFile) :
  category_filter path category f = true <->
  df_type f = doc
  /\ (exists c, df_content f = Some c /\ c <> [] /\ content_string f = c)
  /\ df_path f <> path
  /\ (exists pre post,
        df_path f = pre ++ (lit "/" ++ template_string category ++ lit "/") ++ post).
Proof.
  unfold category_filter.
  rewrite !andb_true_iff, negb_true_iff, eqb_neq, otruthy_content, includes_infix.
  assert (Hdoc : is_doc (df_type f) = true <-> df_type f = doc).
  { destruct (df_type f); simpl; split; congruence. }
  rewrite Hdoc. tauto.
Qed.

(** C9 (as amended): template selection is a function of the target path,
    the template paths and [docInfo] alone.  If template paths are
    supplied and some known file at one of them has non-empty content, the
    contents of exactly the known files at those paths with non-empty
    content are selected, in order, and nothing else; otherwise the
    contents of exactly the known files of kind doc with non-empty
    content, other than the target, whose path contains [/<category>/] as
    a substring, where [<category>] is the second-to-last segment of the
    target path ([undefined] if it has a single segment). *)
Theorem similarDocs_selection
  (path : jsstring) (templatePaths : option (list jsstring)) (state : ReviewState) :
  let category := category_of path in
  let templates := known_files state (template_filter templatePaths) in
  (paths_given templatePaths = true -> templates <> [] ->
   similarDocs_for path templatePaths state = map content_string templates)
  /\ (paths_given templatePaths = false \/ templates = [] ->
      similarDocs_for path templatePaths state =
        map content_string (known_files state (category_filter path category)))
  /\ (forall f, template_filter templatePaths f = true <->
        (exists l, templatePaths = Some l /\ In (df_path f) l)
        /\ (exists c, df_content f = Some c /\ c <> [] /\ content_string f = c))
  /\ (forall f, category_filter path category f = true <->
        df_type f = doc
        /\ (exists c, df_content f = Some c /\ c <> [] /\ content_string f = c)
        /\ df_path f <> path
        /\ (exists pre post,
              df_path f = pre ++ (lit "/" ++ template_string category ++ lit "/") ++ post))
  /\ (forall state', docInfo state' = docInfo state ->
        similarDocs_for path templatePaths state'
        = similarDocs_for path templatePaths state).
Proof.
  intros category templates.
  split; [|split; [|split; [|split]]].
  - intros Hgiven Hne. unfold similarDocs_for, findSimilarDocs.
    rewrite Hgiven. subst templates.
    destruct (known_files state (template_filter templatePaths));
      [contradiction|reflexivity].
  - intros H. unfold similarDocs_for, findSimilarDocs. subst templates category.
    destruct H as [H|H]; rewrite H; [reflexivity|].
    now destruct (paths_given templatePaths).
  - intros f. apply template_filter_iff.
  - intros f. apply category_filter_iff.
  - intros state' E. unfold similarDocs_for, findSimilarDocs, known_files.
    now rewrite E.
Qed.

(* ================================================================== *)
(** ** The properties at work on the sample remote                     *)
(* ================================================================== *)

(** [getBranch] reuses the branch of the pull request its search accepts. *)
Lemma getBranch_reuses_existing_branch_witness :
  run (sample_gateway [other_pull; garbled_pull_42] None)
    (getBranch sample_env sample_state
       (Some {| gb_owner := Some (lit "acme"); gb_repo := Some (lit "sdk");
                gb_original_pr_number := Some 42%Z |}))
    sample_heads
  = ([pulls_list (lit "acme") (lit "sdk");
      git_getRef (lit "acme") (lit "sdk") (lit "heads/" ++ lit "docs-42")],
     sample_heads,
     inr (with_branchInfo sample_state
            {| bi_name := lit "docs-42"; bi_sha := lit "d4e5f6"; bi_exists := true |})).
Proof.
  apply (@getBranch_reuses_existing_branch Heads
           (sample_gateway [other_pull; garbled_pull_42] None)
           sample_env sample_state (lit "acme") (lit "sdk") 42%Z
           [other_pull; garbled_pull_42] garbled_pull_42 (lit "d4e5f6")
           sample_heads sample_heads sample_heads).
  - reflexivity.
  - lia.
  - reflexivity.
  - reflexivity.
  - reflexivity.
Defined.

(** Without a matching pull request, [getBranch] creates
    [docs/update-pr-42] at the tip of [main] and returns it in
    [branchInfo]. *)
Lemma getBranch_creates_one_branch_witness :
  (exists st,
      outcome (sample_gateway [other_pull] None)
        (getBranch sample_env sample_state
           (Some {| gb_owner := Some (lit "acme"); gb_repo := Some (lit "sdk");
                    gb_original_pr_number := Some 42%Z |}))
        sample_heads = inr st
      /\ branchInfo st =
           Some {| bi_name := lit "docs/update-pr-42"; bi_sha := lit "a1b2c3";
                   bi_exists := true |})
  /\ calls is_createRef
       (trace (sample_gateway [other_pull] None)
          (getBranch sample_env sample_state
             (Some {| gb_owner := Some (lit "acme"); gb_repo := Some (lit "sdk");
                      gb_original_pr_number := Some 42%Z |}))
          sample_heads) = 1%nat.
Proof.
  destruct (@getBranch_creates_one_branch Heads (sample_gateway [other_pull] None)
              sample_env sample_state (lit "acme") (lit "sdk") (Some 42%Z)
              (lit "main") (lit "a1b2c3")
              sample_heads sample_heads sample_heads sample_heads
              ((lit "heads/docs/update-pr-42", lit "a1b2c3") :: sample_heads))
    as [(st & Hout & _ & Hbranch & _) [Hone _]].
  - reflexivity.
  - exists [other_pull]. split; reflexivity.
  - reflexivity.
  - reflexivity.
  - reflexivity.
  - split; [exists st; split; [exact Hout|exact Hbranch]|exact Hone].
Defined.

(** [managePR] updates the pull request it finds, and otherwise opens one
    and comments on the originating change. *)
Lemma managePR_updates_or_creates_witness :
  calls is_pulls_update
    (trace (sample_gateway [other_pull; docs_pull_42] None)
       (managePR sample_env sample_state_with_branch
          (Some {| mp_owner := Some (lit "acme"); mp_repo := Some (lit "sdk");
                   mp_title := Some (managePR_marker ++ lit " for PR #42");
                   mp_body := Some (lit "Documentation update for #42");
                   mp_base_branch := None; mp_labels := Some [lit "documentation"];
                   mp_original_pr_number := Some 42%Z |}))
       sample_heads) = 1%nat
  /\ calls is_createComment
       (trace (sample_gateway [other_pull] None)
          (managePR sample_env sample_state_with_branch
             (Some {| mp_owner := Some (lit "acme"); mp_repo := Some (lit "sdk");
                      mp_title := Some (managePR_marker ++ lit " for PR #42");
                      mp_body := Some (lit "Documentation update for #42");
                      mp_base_branch := None; mp_labels := Some [lit "documentation"];
                      mp_original_pr_number := Some 42%Z |}))
          sample_heads) = 1%nat.
Proof.
  split.
  - apply (proj1 (@managePR_updates_or_creates Heads
             (sample_gateway [other_pull; docs_pull_42] None)
             sample_env sample_state_with_branch
             {| bi_name := lit "docs-42"; bi_sha := lit "d4e5f6"; bi_exists := true |}
             (lit "acme") (lit "sdk") (managePR_marker ++ lit " for PR #42")
             (lit "Documentation update for #42") None (Some [lit "documentation"])
             (Some 42%Z) [other_pull; docs_pull_42] sample_heads sample_heads
             eq_refl eq_refl eq_refl) docs_pull_42 eq_refl).
  - apply (proj2 (proj2 (proj2 (proj2 (@managePR_updates_or_creates Heads
             (sample_gateway [other_pull] None)
             sample_env sample_state_with_branch
             {| bi_name := lit "docs-42"; bi_sha := lit "d4e5f6"; bi_exists := true |}
             (lit "acme") (lit "sdk") (managePR_marker ++ lit " for PR #42")
             (lit "Documentation update for #42") None (Some [lit "documentation"])
             (Some 42%Z) [other_pull] sample_heads sample_heads
             eq_refl eq_refl eq_refl) eq_refl))) sample_state_with_branch).
    reflexivity.
Defined.

(** Without a number, [managePR] takes [undefined_pull] for the
    documentation pull request. *)
Lemma managePR_unsupplied_number_matches_undefined_witness :
  exists existingPR,
    find (managePR_isDocsPR None) [other_pull; undefined_pull] = Some existingPR
    /\ nth_error
         (trace (sample_gateway [other_pull; undefined_pull] None)
            (managePR sample_env sample_state_with_branch
               (Some {| mp_owner := Some (lit "acme"); mp_repo := Some (lit "sdk");
                        mp_title := Some (lit "Docs"); mp_body := Some (lit "Body");
                        mp_base_branch := None; mp_labels := None;
                        mp_original_pr_number := None |}))
            sample_heads) 1
       = Some (pulls_update (lit "acme") (lit "sdk") (pr_number existingPR)
                 (lit "Docs") (lit "Body")).
Proof.
  destruct (proj1 (proj2 (proj2 (@managePR_unsupplied_number_matches_undefined Heads
             (sample_gateway [other_pull; undefined_pull] None)
             sample_env sample_state_with_branch
             {| bi_name := lit "docs-42"; bi_sha := lit "d4e5f6"; bi_exists := true |}
             (lit "acme") (lit "sdk") (lit "Docs") (lit "Body") None None
             [other_pull; undefined_pull] sample_heads sample_heads
             eq_refl eq_refl eq_refl))) undefined_pull)
    as (existingPR & Hfind & _ & _ & Hupdate & _).
  - right. left. reflexivity.
  - reflexivity.
  - reflexivity.
  - exists existingPR. split; [exact Hfind|exact Hupdate].
Defined.

(** The gate on the two generated texts. *)
Lemma writeDocumentation_quality_gate_witness :
  outcome (sample_gateway [] (Some short_text))
    (writeDocumentation sample_navigation_messages sample_documentation_messages
       sample_env sample_state
       (Some {| wd_path := Some (lit "docs/llm/openai.mdx");
                wd_type := Some (lit "doc"); wd_context := None |}))
    sample_heads
  = inl (lit "Generated content appears to be incomplete or placeholder text. Please try again with more detail.")
  /\ outcome (sample_gateway [] (Some fenced_text))
       (writeDocumentation sample_navigation_messages sample_documentation_messages
          sample_env sample_state
          (Some {| wd_path := Some (lit "docs/llm/openai.mdx");
                   wd_type := Some (lit "doc"); wd_context := None |}))
       sample_heads
     = inr (with_generatedContent sample_state
              {| gc_content := fenced_text; gc_path := lit "docs/llm/openai.mdx";
                 gc_type := doc; gc_update_type := Some (context_update_type None) |}).
Proof.
  split.
  - apply (proj1 (@writeDocumentation_quality_gate Heads
             (sample_gateway [] (Some short_text))
             sample_navigation_messages sample_documentation_messages
             sample_env sample_state (lit "docs/llm/openai.mdx") None short_text
             sample_heads sample_heads eq_refl eq_refl eq_refl)).
    + reflexivity.
    + reflexivity.
  - apply (proj2 (@writeDocumentation_quality_gate Heads
             (sample_gateway [] (Some fenced_text))
             sample_navigation_messages sample_documentation_messages
             sample_env sample_state (lit "docs/llm/openai.mdx") None fenced_text
             sample_heads sample_heads eq_refl eq_refl eq_refl)).
    + reflexivity.
    + reflexivity.
    + reflexivity.
    + reflexivity.
Defined.

(** Discovery on the sample remote, where every file but one is
    unreadable: the unreadable ones are recorded without content, the
    readable one with its content. *)
Lemma findDocumentation_tolerates_fetch_failures_witness :
  exists st d e,
    outcome (sample_gateway [other_pull; docs_pull_42] None)
      (findDocumentation (fun s => s) sample_env sample_state
         (Some {| fd_owner := lit "acme"; fd_repo := lit "sdk";
                  fd_pull_number := 42;
                  fd_paths := [lit "src/llm/anthropic.ts"; lit "src/llm/openai.ts"] |}))
      sample_heads = inr st
    /\ docInfo st = Some d
    /\ map df_path (di_files d)
       = [lit "docs/llm/anthropic.mdx"; lit "docs/llm/openai.mdx"; lit "mint.json"]
    /\ map df_content (di_files d) = [None; Some (lit "b3BlbmFp"); None]
    /\ di_existingPR d = Some e
    /\ epr_files e
       = [ {| prf_path := lit "docs/llm/openai.mdx"; prf_content := lit "b3BlbmFp" |};
           {| prf_path := lit "docs/llm/draft.mdx"; prf_content := [] |} ].
Proof.
  assert (Hp : reads_pure (sample_gateway [other_pull; docs_pull_42] None)).
  { intros rq w0 H. destruct rq; try discriminate H; reflexivity. }
  destruct (@findDocumentation_tolerates_fetch_failures Heads
              (sample_gateway [other_pull; docs_pull_42] None) (fun s => s)
              (lit "acme") (lit "sdk") sample_env sample_state 42%Z
              [lit "src/llm/anthropic.ts"; lit "src/llm/openai.ts"]
              [other_pull; docs_pull_42] sample_heads sample_heads)
    as (docs & nav & existingPR & st & Hout & _ & Hdoc & _ & _ & _ & _ & _ & _
        & Hpr & Hpure).
  - reflexivity.
  - reflexivity.
  - intros docsPR _.
    exists [lit "docs/llm/openai.mdx"; lit "docs/llm/draft.mdx"], sample_heads.
    reflexivity.
  - destruct (Hpure Hp) as [Hdocs Hnav].
    destruct (Hpr docs_pull_42
                [lit "docs/llm/openai.mdx"; lit "docs/llm/draft.mdx"] sample_heads
                eq_refl eq_refl)
      as (e & He & _ & _ & _ & _ & Hfiles).
    exists st, {| di_files := docs ++ nav; di_existingPR := existingPR |}, e.
    split; [exact Hout|]. split; [exact Hdoc|].
    rewrite Hdocs, Hnav, He, (Hfiles Hp). repeat split.
Defined.

(** Selection only looks at [docInfo]. *)
Lemma similarDocs_selection_witness :
  similarDocs_for (lit "docs/llm/openai.mdx") None
    (with_branchInfo nested_state
       {| bi_name := lit "docs-42"; bi_sha := lit "d4e5f6"; bi_exists := true |})
  = similarDocs_for (lit "docs/llm/openai.mdx") None nested_state.
Proof.
  apply (proj2 (proj2 (proj2 (proj2
           (similarDocs_selection (lit "docs/llm/openai.mdx") None nested_state))))).
  reflexivity.
Defined.

(** *** What the divergence of the markers does to a second run *)

(** The pull request [managePR] recognises is not found by [getBranch],
    which asks for a second branch. *)
Example getBranch_misses_the_documentation_pull :
  trace (sample_gateway [docs_pull_42] None)
    (getBranch sample_env sample_state
       (Some {| gb_owner := Some (lit "acme"); gb_repo := Some (lit "sdk");
                gb_original_pr_number := Some 42%Z |}))
    sample_heads
  = [pulls_list (lit "acme") (lit "sdk");
     repos_get (lit "acme") (lit "sdk");
     git_getRef (lit "acme") (lit "sdk") (lit "heads/main");
     git_createRef (lit "acme") (lit "sdk")
       (lit "refs/heads/docs/update-pr-42") (lit "a1b2c3")].
Proof. vm_compute. reflexivity. Qed.

(** Zero is a number the guards of the actions treat as not supplied. *)
Example getBranch_zero_is_not_supplied :
  getBranch_branchName (Some 0%Z) 1700000000000 = lit "docs/update-1700000000000"
  /\ calls is_pulls_list
       (trace (sample_gateway [] None)
          (getBranch sample_env sample_state
             (Some {| gb_owner := Some (lit "acme"); gb_repo := Some (lit "sdk");
                      gb_original_pr_number := Some 0%Z |}))
          sample_heads) = 0%nat.
Proof. split; vm_compute; reflexivity. Qed.

(** Discovery records the unreadable file as absent and the readable one
    with its content. *)
Example findDocumentation_sample_run :
  outcome (sample_gateway [] None)
    (findDocumentation (fun s => s) sample_env sample_state
       (Some {| fd_owner := lit "acme"; fd_repo := lit "sdk"; fd_pull_number := 42;
                fd_paths := [lit "src/llm/anthropic.ts"; lit "src/llm/openai.ts"] |}))
    sample_heads
  = inr (with_docInfo sample_state
           {| di_files :=
                [ {| df_path := lit "docs/llm/anthropic.mdx"; df_content := None;
                     df_type := doc; df_lastModified := None |};
                  {| df_path := lit "docs/llm/openai.mdx";
                     df_content := Some (lit "b3BlbmFp");
                     df_type := doc; df_lastModified := Some (lit "f00d") |};
                  {| df_path := lit "mint.json"; df_content := None;
                     df_type := navigation; df_lastModified := None |} ];
              di_existingPR := None |}).
Proof. vm_compute. reflexivity. Qed.

Example docPath_examples :
  docPath (lit "src/llm/openai.ts") = lit "docs/llm/openai.mdx"
  /\ docPath (lit "src/ui/Button.tsx") = lit "docs/ui/Button.mdx"
  /\ docPath (lit "README.md") = lit "README.md"
  /\ docPath (lit "lib/src/a.js") = lit "lib/src/a.mdx".
Proof. repeat split; vm_compute; reflexivity. Qed.

Example category_examples :
  category_of (lit "docs/llm/openai.mdx") = Some (lit "llm")
  /\ category_of (lit "openai.mdx") = None
  /\ number_toString 42 = lit "42"
  /\ number_toString (-7) = lit "-7"
  /\ template_number None = lit "undefined".
Proof. repeat split; vm_compute; reflexivity. Qed.

(* ================================================================== *)
(** ** Further properties of the actions                               *)
(* ================================================================== *)

Section BranchReconciler.

Variable W : Type.
Variable gateway : forall rq : Request, W -> W * (Error + Response rq).

Lemma getBranch_success_inv
  (env : Env) (state : ReviewState) (parameters : option GetBranchParams)
  (w : W) (st : ReviewState) :
  outcome gateway (getBranch env state parameters) w = inr st ->
  otruthy (GITHUB_TOKEN env) = true
  /\ exists b, st = with_branchInfo state b /\ bi_exists b = true.
Proof.
  unfold outcome, getBranch. intros H.
  destruct (otruthy (GITHUB_TOKEN env)); cbn in H; [|discriminate].
  split; [reflexivity|].
  destruct parameters as [p|]; [|discriminate].
  destruct (gb_owner p) as [owner|]; [|discriminate].
  destruct (gb_repo p) as [repo|]; [|discriminate].
  unfold getBranch_existing, getBranch_create in H.
  destruct (ntruthy (gb_original_pr_number p)); cbn in H.
  - next_answer_in gateway H; [discriminate|].
    destruct (find (getBranch_isDocsPR (gb_original_pr_number p)) v) as [pr|];
      cbn in H.
    + next_answer_in gateway H; [discriminate|].
      inversion H. eexists. repeat split.
    + next_answer_in gateway H; [discriminate|].
      next_answer_in gateway H; [discriminate|].
      next_answer_in gateway H; [discriminate|].
      inversion H. eexists. repeat split.
  - next_answer_in gateway H; [discriminate|].
    next_answer_in gateway H; [discriminate|].
    next_answer_in gateway H; [discriminate|].
    inversion H. eexists. repeat split.
Qed.

(** Whenever [getBranch] returns, the state it returns is the given state
    with [branchInfo] replaced by a branch whose [exists] flag is set, so
    the guard [!state.branchInfo?.exists] of [managePR] and [commitChange]
    passes on it. *)
Theorem getBranch_success_sets_branch
  (env : Env) (state : ReviewState) (parameters : option GetBranchParams)
  (w : W) (st : ReviewState) :
  outcome gateway (getBranch env state parameters) w = inr st ->
  exists b,
    st = with_branchInfo state b
    /\ bi_exists b = true
    /\ existing_branch st = Some b.
Proof.
  intros H. destruct (getBranch_success_inv _ _ _ _ H) as (_ & b & -> & Hb).
  exists b. split; [reflexivity|]. split; [exact Hb|].
  unfold existing_branch. cbn. now rewrite Hb.
Qed.

(** Whatever the remote answers and whatever the input, [getBranch] only
    reads, apart from at most one ref creation, which is then its last
    request. *)
Theorem getBranch_writes_at_most_one_ref
  (env : Env) (state : ReviewState) (parameters : option GetBranchParams) (w : W) :
  let t := trace gateway (getBranch env state parameters) w in
  forallb (fun rq => is_read rq || is_createRef rq) t = true
  /\ (calls is_createRef t <= 1)%nat
  /\ calls is_createRef (removelast t) = 0%nat.
Proof.
  unfold trace, getBranch.
  destruct (otruthy (GITHUB_TOKEN env)); cbn; [|repeat split; lia].
  destruct parameters as [p|]; cbn; [|repeat split; lia].
  destruct (gb_owner p) as [owner|]; cbn; [|repeat split; lia].
  destruct (gb_repo p) as [repo|]; cbn; [|repeat split; lia].
  unfold getBranch_existing, getBranch_create.
  destruct (ntruthy (gb_original_pr_number p)); cbn.
  - next_answer gateway; [repeat split; lia|].
    destruct (find (getBranch_isDocsPR (gb_original_pr_number p)) v) as [pr|]; cbn.
    + next_answer gateway; repeat split; lia.
    + next_answer gateway; [repeat split; lia|].
      next_answer gateway; [repeat split; lia|].
      next_answer gateway; repeat split; lia.
  - next_answer gateway; [repeat split; lia|].
    next_answer gateway; [repeat split; lia|].
    next_answer gateway; repeat split; lia.
Qed.

(** A rejected ref creation is fatal: when no pull request is found and the
    remote refuses to create the ref (the branch exists already, say),
    [getBranch] throws that rejection; it does not fall back to the
    existing branch. *)
Theorem getBranch_rejected_creation_is_fatal
  (env : Env) (state : ReviewState) (owner repo : jsstring) (n : option Z)
  (base tip : jsstring) (e : Error) (w w1 w2 w3 w4 : W) :
  otruthy (GITHUB_TOKEN env) = true ->
  (if ntruthy n
   then exists pulls, answers gateway (pulls_list owner repo) w pulls w1
                      /\ find (getBranch_isDocsPR n) pulls = None
   else w1 = w) ->
  answers gateway (repos_get owner repo) w1 base w2 ->
  answers gateway (git_getRef owner repo (lit "heads/" ++ base)) w2 tip w3 ->
  gateway (git_createRef owner repo
             (lit "refs/heads/" ++ getBranch_branchName n (Date_now env)) tip) w3
    = (w4, inl e) ->
  outcome gateway
    (getBranch env state
       (Some {| gb_owner := Some owner; gb_repo := Some repo;
                gb_original_pr_number := n |})) w = inl e.
Proof.
  intros Htok Hsearch Hrepo Href Hcreate.
  unfold outcome, getBranch. rewrite Htok.
  cbn [negb gb_owner gb_repo gb_original_pr_number].
  unfold getBranch_existing, getBranch_create. unfold answers in *.
  destruct (ntruthy n) eqn:Hn.
  - destruct Hsearch as (pulls & Hlist & Hfind).
    cbn. rewrite Hlist. cbn. rewrite Hfind. cbn.
    rewrite Hrepo. cbn. rewrite Href. cbn. rewrite Hcreate. reflexivity.
  - subst w1. cbn. rewrite Hrepo. cbn. rewrite Href. cbn.
    rewrite Hcreate. reflexivity.
Qed.

End BranchReconciler.

(** Case analysis on everything a run in hypothesis [H] branches on. *)
Ltac run_cases g H :=
  repeat first
    [ discriminate H
    | next_answer_in g H
    | match type of H with
      | context [match ?x with _ => _ end] =>
          lazymatch x with
          | context [run _ _ _] => fail
          | _ => destruct x; cbn in H
          end
      end ].

(** The same on the goal. *)
Ltac goal_cases g :=
  repeat first
    [ next_answer g
    | match goal with
      | |- context [match ?x with _ => _ end] =>
          lazymatch x with
          | context [run _ _ _] => fail
          | _ => destruct x; cbn
          end
      end ].

(** Facts about a fully evaluated trace. *)
Ltac trace_facts :=
  repeat split; try reflexivity; try lia; try discriminate; intros;
  repeat match goal with
         | H : _ \/ _ |- _ => destruct H
         | H : False |- _ => contradiction
         end;
  try discriminate;
  repeat match goal with
         | H : @eq Request _ _ |- _ => inversion H; subst; clear H
         | H : Some _ = Some _ |- _ => inversion H; subst; clear H
         end;
  auto.

Section PullRequestReconciler.

Variable W : Type.
Variable gateway : forall rq : Request, W -> W * (Error + Response rq).

(** [managePR] never changes the state: whenever it returns, it returns
    the state it was given. *)
Theorem managePR_returns_state_unchanged
  (env : Env) (state : ReviewState) (parameters : option ManagePRParams)
  (w : W) (st : ReviewState) :
  outcome gateway (managePR env state parameters) w = inr st -> st = state.
Proof.
  unfold outcome, managePR, managePR_update, managePR_create, managePR_open.
  intros H. cbn in H. run_cases gateway H; now inversion H.
Qed.

(** [managePR] issues no request at all unless the token is set, the state
    holds an existing branch and the four required parameters are
    strings. *)
Theorem managePR_requests_only_when_ready
  (env : Env) (state : ReviewState) (parameters : option ManagePRParams) (w : W) :
  trace gateway (managePR env state parameters) w <> [] ->
  otruthy (GITHUB_TOKEN env) = true
  /\ (exists b, branchInfo state = Some b /\ bi_exists b = true)
  /\ (exists p owner repo title body,
        parameters = Some p
        /\ mp_owner p = Some owner /\ mp_repo p = Some repo
        /\ mp_title p = Some title /\ mp_body p = Some body).
Proof.
  unfold trace, managePR, existing_branch. intros H.
  destruct (otruthy (GITHUB_TOKEN env)); [|now contradiction H].
  destruct (branchInfo state) as [b|]; [|now contradiction H].
  destruct (bi_exists b) eqn:Hb; [|now contradiction H].
  destruct parameters as [p|]; [|now contradiction H].
  destruct (mp_owner p) as [owner|] eqn:Ho; [|now contradiction H].
  destruct (mp_repo p) as [repo|] eqn:Hr; [|now contradiction H].
  destruct (mp_title p) as [title|] eqn:Ht; [|now contradiction H].
  destruct (mp_body p) as [body|] eqn:Hbody; [|now contradiction H].
  split; [reflexivity|]. split; [now exists b|].
  now exists p, owner, repo, title, body.
Qed.

(** The create path in full.  With no documentation pull request open for
    the (non-zero) originating number and every call answered, [managePR]
    lists the pull requests, reads the default branch only if no base
    branch was given, opens one pull request from the reconciled branch
    into that base, adds the labels if there are any, and posts one
    comment on the originating change that names the number of the new
    pull request. *)
Theorem managePR_create_path
  (env : Env) (state : ReviewState) (branch : BranchInfo)
  (owner repo title body : jsstring) (base_branch : option jsstring)
  (labels : option (list jsstring)) (i : Z) (pulls : list Pull)
  (base : jsstring) (pr : Z) (w w1 w2 w3 w4 w5 : W) :
  otruthy (GITHUB_TOKEN env) = true ->
  existing_branch state = Some branch ->
  answers gateway (pulls_list owner repo) w pulls w1 ->
  find (managePR_isDocsPR (Some i)) pulls = None ->
  i <> 0%Z ->
  (if otruthy base_branch
   then base_branch = Some base /\ w2 = w1
   else answers gateway (repos_get owner repo) w1 base w2) ->
  answers gateway (pulls_create owner repo title body (bi_name branch) base) w2 pr w3 ->
  (if labels_given labels
   then answers gateway (issues_addLabels owner repo pr (labels_of labels)) w3 tt w4
   else w4 = w3) ->
  answers gateway
    (issues_createComment owner repo i
       (lit "I've created a documentation update PR: #" ++ number_toString pr))
    w4 tt w5 ->
  run gateway
    (managePR env state
       (Some {| mp_owner := Some owner; mp_repo := Some repo;
                mp_title := Some title; mp_body := Some body;
                mp_base_branch := base_branch; mp_labels := labels;
                mp_original_pr_number := Some i |})) w
  = (pulls_list owner repo
       :: (if otruthy base_branch then [] else [repos_get owner repo])
       ++ pulls_create owner repo title body (bi_name branch) base
       :: (if labels_given labels
           then [issues_addLabels owner repo pr (labels_of labels)] else [])
       ++ [issues_createComment owner repo i
             (lit "I've created a documentation update PR: #" ++ number_toString pr)],
     w5, inr state).
Proof.
  intros Htok Hbranch Hlist Hfind Hi Hbase Hcreate Hlabels Hcomment.
  unfold answers in *. unfold managePR. rewrite Htok, Hbranch.
  cbn [negb mp_owner mp_repo mp_title mp_body mp_base_branch mp_labels
       mp_original_pr_number].
  cbn [bind await run]. rewrite Hlist. cbn [bind await run]. rewrite Hfind.
  unfold managePR_create, managePR_open.
  assert (Hnz : (i =? 0)%Z = false) by now apply Z.eqb_neq.
  destruct base_branch as [b|]; cbn [otruthy] in *;
    [destruct (truthy b); [destruct Hbase as [Hb ->]; inversion Hb; subst b|]|];
    cbn; try rewrite Hbase; cbn; rewrite Hcreate; cbn;
    destruct (labels_given labels); cbn; try rewrite Hlabels; try subst w4; cbn;
    rewrite Hnz; cbn; rewrite Hcomment; reflexivity.
Qed.

(** Labels.  Once the pull requests are listed: without labels (absent or
    an empty array) no label request is issued; on the update path labels
    are only ever set, on the found pull request; on the create path they
    are only ever added; and each label request carries the given labels. *)
Theorem managePR_labels
  (env : Env) (state : ReviewState) (branch : BranchInfo)
  (owner repo title body : jsstring) (base_branch : option jsstring)
  (labels : option (list jsstring)) (n : option Z)
  (pulls : list Pull) (w w1 : W) :
  otruthy (GITHUB_TOKEN env) = true ->
  existing_branch state = Some branch ->
  answers gateway (pulls_list owner repo) w pulls w1 ->
  let t :=
    trace gateway
      (managePR env state
         (Some {| mp_owner := Some owner; mp_repo := Some repo;
                  mp_title := Some title; mp_body := Some body;
                  mp_base_branch := base_branch; mp_labels := labels;
                  mp_original_pr_number := n |})) w in
  (labels_given labels = false ->
   calls is_setLabels t = 0%nat /\ calls is_addLabels t = 0%nat)
  /\ (forall existingPR,
        find (managePR_isDocsPR n) pulls = Some existingPR ->
        calls is_addLabels t = 0%nat
        /\ (calls is_setLabels t <= 1)%nat
        /\ (forall o r i l, In (issues_setLabels o r i l) t ->
                            i = pr_number existingPR /\ l = labels_of labels))
  /\ (find (managePR_isDocsPR n) pulls = None ->
      calls is_setLabels t = 0%nat
      /\ (calls is_addLabels t <= 1)%nat
      /\ (forall o r i l, In (issues_addLabels o r i l) t -> l = labels_of labels)).
Proof.
  intros Htok Hbranch Hlist t. unfold answers in Hlist.
  subst t. unfold trace, managePR. rewrite Htok, Hbranch.
  cbn [negb mp_owner mp_repo mp_title mp_body mp_base_branch mp_labels
       mp_original_pr_number].
  cbn [bind await run]. rewrite Hlist. cbn [bind await run].
  unfold managePR_update, managePR_create, managePR_open.
  destruct (find (managePR_isDocsPR n) pulls) as [existingPR|]; cbn.
  - destruct (labels_given labels) eqn:Hl; cbn.
    + next_answer gateway; [|next_answer gateway]; trace_facts.
    + next_answer gateway; trace_facts.
  - destruct (labels_given labels) eqn:Hl; cbn;
      goal_cases gateway; trace_facts.
Qed.

End PullRequestReconciler.

Lemma forallb_read_contents (owner repo ref : jsstring) (files : list jsstring) :
  forallb is_read (map (fun f => repos_getContent owner repo f ref) files) = true.
Proof. induction files as [|f files IH]; [reflexivity|exact IH]. Qed.

Lemma forallb_read_docs (owner repo : jsstring) (paths : list jsstring) :
  forallb is_read (map (doc_request owner repo) paths) = true.
Proof. induction paths as [|p paths IH]; [reflexivity|exact IH]. Qed.

Section DiscoveryFailures.

Variable W : Type.
Variable gateway : forall rq : Request, W -> W * (Error + Response rq).
Variable decode : jsstring -> jsstring.

(** Discovery never writes: whatever the input and the answers, every
    request of [findDocumentation] is a read. *)
Theorem findDocumentation_only_reads
  (env : Env) (state : ReviewState) (parameters : option FindDocumentationParams)
  (w : W) :
  forallb is_read (trace gateway (findDocumentation decode env state parameters) w)
  = true.
Proof.
  unfold trace, findDocumentation.
  destruct (otruthy (GITHUB_TOKEN env)); [|reflexivity].
  destruct parameters as [p|]; [|reflexivity].
  cbn [negb]. cbv beta iota zeta. rewrite (@run_bind W gateway). cbn [await run].
  destruct (gateway (pulls_list (fd_owner p) (fd_repo p)) w) as [w1 [e|pulls]];
    [reflexivity|].
  cbn [run]. cbv beta iota zeta. rewrite (@run_bind W gateway).
  destruct (find (findDocumentation_isDocsPR (fd_pull_number p)) pulls) as [docsPR|].
  - unfold fetch_existingPR. rewrite (@run_bind W gateway). cbn [await run].
    destruct (gateway (pulls_listFiles (fd_owner p) (fd_repo p) (pr_number docsPR)) w1)
      as [w2 [e|files]]; [reflexivity|].
    cbn [run]. cbv beta iota zeta. rewrite (@run_bind W gateway).
    destruct (run_mapM_pr gateway decode (fd_owner p) (fd_repo p)
                (pr_head_ref docsPR) files w2) as (w3 & fetched & Hrun & _).
    rewrite Hrun. cbn [run]. cbv beta iota zeta.
    destruct (run_discover_files gateway decode (fd_owner p) (fd_repo p) state
                (Some {| epr_number := pr_number docsPR;
                         epr_branch := pr_head_ref docsPR;
                         epr_files := fetched |}) (fd_paths p) w3)
      as (w4 & docs & nav & Hrun2 & _).
    rewrite Hrun2. cbn [fst snd app forallb is_read andb].
    rewrite !forallb_app, forallb_read_contents, forallb_read_docs. reflexivity.
  - rewrite (@run_fetch_existingPR_none W gateway).
    destruct (run_discover_files gateway decode (fd_owner p) (fd_repo p) state
                None (fd_paths p) w1) as (w4 & docs & nav & Hrun2 & _).
    rewrite Hrun2. cbn [fst snd app forallb is_read andb].
    rewrite !forallb_app, forallb_read_docs. reflexivity.
Qed.

(** Unlike a failed content lookup, a failed listing is fatal: if the
    listing of the open pull requests is rejected, discovery throws that
    rejection without looking up any file; likewise if the listing of the
    files of the found documentation pull request is rejected. *)
Theorem findDocumentation_listing_failure_is_fatal
  (env : Env) (state : ReviewState) (owner repo : jsstring) (pull_number : Z)
  (paths : list jsstring) (w : W) :
  otruthy (GITHUB_TOKEN env) = true ->
  let action :=
    findDocumentation decode env state
      (Some {| fd_owner := owner; fd_repo := repo;
               fd_pull_number := pull_number; fd_paths := paths |}) in
  (forall e w1,
      gateway (pulls_list owner repo) w = (w1, inl e) ->
      run gateway action w = ([pulls_list owner repo], w1, inl e))
  /\ (forall pulls docsPR e w1 w2,
        answers gateway (pulls_list owner repo) w pulls w1 ->
        find (findDocumentation_isDocsPR pull_number) pulls = Some docsPR ->
        gateway (pulls_listFiles owner repo (pr_number docsPR)) w1 = (w2, inl e) ->
        run gateway action w =
          ([pulls_list owner repo; pulls_listFiles owner repo (pr_number docsPR)],
           w2, inl e)).
Proof.
  intros Htok action. subst action. unfold findDocumentation. rewrite Htok.
  cbn [negb fd_owner fd_repo fd_pull_number fd_paths]. split.
  - intros e w1 Hrej. rewrite (@run_bind W gateway). cbn [await run]. rewrite Hrej. reflexivity.
  - intros pulls docsPR e w1 w2 Hlist Hfind Hrej.
    rewrite (@run_bind W gateway), (run_await Hlist). cbv beta iota zeta.
    rewrite Hfind, (@run_bind W gateway). unfold fetch_existingPR.
    rewrite (@run_bind W gateway). cbn [await run]. rewrite Hrej. reflexivity.
Qed.

End DiscoveryFailures.

(** *** The extension check and the generator *)

Lemma lastIndexOf_dot_free (s : jsstring) (i last : Z) :
  dot_free s -> lastIndexOf_dot_from i s last = last.
Proof.
  unfold dot_free. revert i last. induction s as [|c s IH]; intros i last H.
  - reflexivity.
  - cbn in H. apply andb_true_iff in H as [Hc Hs].
    apply negb_true_iff in Hc. cbn. rewrite Hc. now apply IH.
Qed.

Lemma lastIndexOf_dot_last (stem e : jsstring) (i last : Z) :
  dot_free e ->
  lastIndexOf_dot_from i (stem ++ dot :: e) last = (i + Z.of_nat (List.length stem))%Z.
Proof.
  intros He. revert i last. induction stem as [|c stem IH]; intros i last.
  - cbn. rewrite (lastIndexOf_dot_free _ _ He). lia.
  - cbn [app lastIndexOf_dot_from List.length]. rewrite IH. lia.
Qed.

(** The extension that is checked is the text from the last dot on; a path
    without a dot is checked whole. *)
Theorem fileExt_of_last_dot :
  (forall stem e, dot_free e -> fileExt_of (stem ++ dot :: e) = dot :: e)
  /\ (forall path, dot_free path -> fileExt_of path = path).
Proof.
  split.
  - intros stem e He. unfold fileExt_of, lastIndexOf_dot, substring_from.
    rewrite (lastIndexOf_dot_last stem 0 (-1) He). cbn [Z.add].
    rewrite Nat2Z.id, skipn_app, skipn_all, Nat.sub_diag. reflexivity.
  - intros path Hp. unfold fileExt_of, lastIndexOf_dot, substring_from.
    now rewrite (lastIndexOf_dot_free _ _ Hp).
Qed.

Lemma parse_type_doc (t : jsstring) : parse_type t = Some doc <-> t = lit "doc".
Proof.
  unfold parse_type. destruct (Js.eqb t (lit "doc")) eqn:E.
  - apply eqb_eq in E. tauto.
  - apply eqb_neq in E.
    destruct (Js.eqb t (lit "navigation")); split; congruence.
Qed.

Lemma parse_type_navigation (t : jsstring) :
  parse_type t = Some navigation <-> t = lit "navigation".
Proof.
  unfold parse_type. destruct (Js.eqb t (lit "doc")) eqn:E.
  - apply eqb_eq in E. subst t. split; discriminate.
  - destruct (Js.eqb t (lit "navigation")) eqn:E'.
    + apply eqb_eq in E'. tauto.
    + apply eqb_neq in E'. split; congruence.
Qed.

Section GeneratorCalls.

Variable W : Type.
Variable gateway : forall rq : Request, W -> W * (Error + Response rq).
Variable navigation_messages :
  option DocFile -> list jsstring -> option WriteContext -> list jsstring.
Variable documentation_messages :
  Config -> list jsstring -> option DocFile -> option PRFile ->
  option jsstring -> option WriteContext -> list jsstring.

(** [writeDocumentation] talks to the generator only, at most once, and
    not at all unless the key is set, [path] is a string and [type] is
    ["navigation"], or ["doc"] with an allowed extension. *)
Theorem writeDocumentation_generator_only_if_valid
  (env : Env) (state : ReviewState) (parameters : option WriteDocumentationParams)
  (w : W) :
  let t :=
    trace gateway
      (writeDocumentation navigation_messages documentation_messages
         env state parameters) w in
  forallb is_chat t = true
  /\ (List.length t <= 1)%nat
  /\ (t <> [] ->
      otruthy (OPENAI_API_KEY env) = true
      /\ exists p path,
           parameters = Some p /\ wd_path p = Some path
           /\ (wd_type p = Some (lit "navigation")
               \/ (wd_type p = Some (lit "doc")
                   /\ array_includes (cfg_docExtensions (config state))
                        (fileExt_of path) = true))).
Proof.
  unfold trace, writeDocumentation.
  destruct (otruthy (OPENAI_API_KEY env)); cbn [negb];
    [|cbn; repeat split; try lia; congruence].
  destruct parameters as [p|]; [|cbn; repeat split; try lia; congruence].
  destruct (wd_path p) as [path|] eqn:Hpath;
    [|cbn; repeat split; try lia; congruence].
  destruct (wd_type p) as [ty|] eqn:Hty;
    [|cbn; repeat split; try lia; congruence].
  destruct (parse_type ty) as [[|]|] eqn:Hparse;
    [| |cbn; repeat split; try lia; congruence].
  - apply parse_type_doc in Hparse. subst ty.
    unfold writeDocumentation_generate. cbn [is_doc andb].
    destruct (array_includes (cfg_docExtensions (config state)) (fileExt_of path))
      eqn:Hext; cbn [negb].
    + cbn. next_answer gateway;
        try destruct (content_rejected (or_empty v)); cbn;
        (split; [reflexivity|]; split; [lia|]; intros _;
         split; [reflexivity|]; exists p, path; auto).
    + cbn. repeat split; try lia; congruence.
  - apply parse_type_navigation in Hparse. subst ty.
    unfold writeDocumentation_generate. cbn [is_doc andb].
    cbn. next_answer gateway;
      (split; [reflexivity|]; split; [lia|]; intros _;
       split; [reflexivity|]; exists p, path; auto).
Qed.

(** For a file of type ["doc"] with an allowed extension, whatever the
    generator answers is accepted exactly when it has at least 100 code
    units, contains a code fence and contains neither [TODO] nor
    [placeholder]: the returned state then holds it in its
    [generatedContent] field, with the path, the type and the update type
    of the context (["update"] when the context gives none), the other
    fields being those of the given state; anything else, a [null] answer
    included, makes the action throw. *)
Theorem writeDocumentation_doc_accepts_iff
  (env : Env) (state : ReviewState) (path : jsstring)
  (context : option WriteContext) (answer : option jsstring) (w w' : W) :
  otruthy (OPENAI_API_KEY env) = true ->
  array_includes (cfg_docExtensions (config state)) (fileExt_of path) = true ->
  answers gateway
    (chat_completions_create
       (documentation_messages (config state)
          (findSimilarDocs path (category_of path) (context_template_paths context) state)
          (existingFile_of state path) (existingPRFile_of state path)
          (category_of path) context))
    w answer w' ->
  let action :=
    writeDocumentation navigation_messages documentation_messages env state
      (Some {| wd_path := Some path; wd_type := Some (lit "doc");
               wd_context := context |}) in
  let content := or_empty answer in
  let acceptable :=
    (100 <= List.length content)%nat
    /\ includes content (lit "TODO") = false
    /\ includes content (lit "placeholder") = false
    /\ includes content (lit "```") = true in
  (acceptable ->
   exists st g,
     outcome gateway action w = inr st
     /\ generatedContent st = Some g
     /\ gc_content g = match answer with Some c => c | None => [] end
     /\ gc_path g = path
     /\ gc_type g = doc
     /\ gc_update_type g =
          Some match context with
               | Some c =>
                   match wc_update_type c with
                   | Some (x :: u) => x :: u
                   | _ => lit "update"
                   end
               | None => lit "update"
               end
     /\ commitInfo st = commitInfo state
     /\ docInfo st = docInfo state
     /\ branchInfo st = branchInfo state
     /\ config st = config state)
  /\ (~ acceptable ->
      outcome gateway action w =
        inl (lit "Generated content appears to be incomplete or placeholder text. Please try again with more detail."))
  /\ (answer = None -> ~ acceptable).
Proof.
  intros Hkey Hext Hans action content acceptable.
  assert (Hrun : outcome gateway action w =
    if content_rejected content
    then inl (lit "Generated content appears to be incomplete or placeholder text. Please try again with more detail.")
    else inr (with_generatedContent state
               {| gc_content := content; gc_path := path; gc_type := doc;
                  gc_update_type := Some (context_update_type context) |})).
  { unfold action, outcome, writeDocumentation. rewrite Hkey.
    cbn [negb wd_path wd_type wd_context].
    change (parse_type (lit "doc")) with (Some doc).
    unfold writeDocumentation_generate. rewrite Hext.
    cbn [negb andb is_doc].
    rewrite (@run_bind W gateway), (run_await Hans). cbv beta iota zeta.
    fold content. now destruct (content_rejected content). }
  rewrite Hrun. split; [|split].
  - intros Hok. apply rejected_iff in Hok. rewrite Hok.
    eexists. eexists. split; [reflexivity|].
    cbn [generatedContent with_generatedContent gc_content gc_path gc_type
         gc_update_type commitInfo docInfo branchInfo config].
    split; [reflexivity|]. split; [reflexivity|]. split; [reflexivity|].
    split; [reflexivity|]. split; [|repeat split].
    unfold context_update_type. destruct context as [c|]; [|reflexivity].
    now destruct (wc_update_type c) as [[|x u]|].
  - intros Hbad. destruct (content_rejected content) eqn:E; [reflexivity|].
    apply rejected_iff in E. contradiction.
  - intros -> (Hlen & _). cbn in Hlen. lia.
Qed.

(** For the navigation file neither the extension nor the generated text
    is checked: whatever the path and whatever the generator answers (the
    empty text for [null]), the returned state holds the answer in its
    [generatedContent] field, with type navigation and without an update
    type, the other fields being those of the given state. *)
Theorem writeDocumentation_navigation_unchecked
  (env : Env) (state : ReviewState) (path : jsstring)
  (context : option WriteContext) (answer : option jsstring) (w w' : W) :
  otruthy (OPENAI_API_KEY env) = true ->
  answers gateway
    (chat_completions_create
       (navigation_messages (existingFile_of state path)
          (map df_path (known_files state (fun f => is_doc (df_type f))))
          context))
    w answer w' ->
  exists st g,
    outcome gateway
      (writeDocumentation navigation_messages documentation_messages env state
         (Some {| wd_path := Some path; wd_type := Some (lit "navigation");
                  wd_context := context |})) w = inr st
    /\ generatedContent st = Some g
    /\ gc_content g = match answer with Some c => c | None => [] end
    /\ gc_path g = path
    /\ gc_type g = navigation
    /\ gc_update_type g = None
    /\ commitInfo st = commitInfo state
    /\ docInfo st = docInfo state
    /\ branchInfo st = branchInfo state
    /\ config st = config state.
Proof.
  intros Hkey Hans. unfold outcome, writeDocumentation. rewrite Hkey.
  cbn [negb wd_path wd_type wd_context].
  change (parse_type (lit "navigation")) with (Some navigation).
  unfold writeDocumentation_generate. cbn [is_doc andb].
  rewrite (@run_bind W gateway), (run_await Hans).
  eexists. eexists. split; [reflexivity|]. repeat split.
Qed.

End GeneratorCalls.

(** *** More on the derivation of documentation paths *)

Lemma replace_ext_step (c : N) (s : jsstring) :
  replace_ext (c :: s) =
  if ext_matches_here (c :: s) then lit ".mdx" else c :: replace_ext s.
Proof. reflexivity. Qed.

Lemma ext_matches_here_inv (s : jsstring) :
  ext_matches_here s = true -> exists e, s = ext_string e.
Proof.
  destruct s as [|d [|c [|x [|y [|z s]]]]]; simpl; try discriminate; intros H.
  - apply andb_true_iff in H as [H Hx]. apply andb_true_iff in H as [Hd Hc].
    apply N.eqb_eq in Hd, Hx. apply orb_true_iff in Hc as [Hc|Hc];
      apply N.eqb_eq in Hc; subst.
    + now exists ext_js.
    + now exists ext_ts.
  - apply andb_true_iff in H as [H Hy]. apply andb_true_iff in H as [H Hx].
    apply andb_true_iff in H as [Hd Hc].
    apply N.eqb_eq in Hd, Hx, Hy. apply orb_true_iff in Hc as [Hc|Hc];
      apply N.eqb_eq in Hc; subst.
    + now exists ext_jsx.
    + now exists ext_tsx.
Qed.

Lemma replace_ext_no_match (s : jsstring) :
  no_source_ext s -> replace_ext s = s.
Proof.
  unfold no_source_ext. induction s as [|c s IH]; intros H; [reflexivity|].
  rewrite replace_ext_step. destruct (ext_matches_here (c :: s)) eqn:E.
  - destruct (ext_matches_here_inv _ E) as [e He].
    exfalso. apply (H [] e). exact He.
  - rewrite IH; [reflexivity|]. intros pre e Hs. apply (H (c :: pre) e).
    now rewrite Hs.
Qed.

Lemma replace_ext_shape (s : jsstring) :
  replace_ext s = s \/ exists pre e, s = pre ++ ext_string e.
Proof.
  induction s as [|c s IH]; [now left|].
  rewrite replace_ext_step. destruct (ext_matches_here (c :: s)) eqn:E.
  - right. destruct (ext_matches_here_inv _ E) as [e He]. now exists [], e.
  - destruct IH as [IH|(pre & e & ->)].
    + left. now rewrite IH.
    + right. now exists (c :: pre), e.
Qed.

Lemma mdx_no_earlier_match (c : N) (pre : jsstring) :
  ext_matches_here (c :: pre ++ lit ".mdx") = false.
Proof.
  change (lit ".mdx") with [46; 109; 100; 120]%N.
  destruct pre as [|a [|b [|d [|f pre]]]]; reflexivity.
Qed.

Lemma replace_ext_mdx (pre : jsstring) :
  replace_ext (pre ++ lit ".mdx") = pre ++ lit ".mdx".
Proof.
  induction pre as [|c pre IH]; [reflexivity|].
  change ((c :: pre) ++ lit ".mdx") with (c :: pre ++ lit ".mdx").
  rewrite replace_ext_step, mdx_no_earlier_match. now rewrite IH.
Qed.

Lemma replace_ext_idempotent (s : jsstring) :
  replace_ext (replace_ext s) = replace_ext s.
Proof.
  destruct (replace_ext_shape s) as [E|(pre & e & ->)].
  - now rewrite !E.
  - now rewrite replace_ext_suffix, replace_ext_mdx.
Qed.

Lemma replace_ext_keeps_root (s : jsstring) :
  startsWith s (lit "src/") = false ->
  startsWith (replace_ext s) (lit "src/") = false.
Proof.
  intros H. destruct (replace_ext_shape s) as [E|(pre & e & ->)].
  - now rewrite E.
  - rewrite replace_ext_suffix. revert H.
    change (lit "src/") with [115; 114; 99; 47]%N.
    change (lit ".mdx") with [46; 109; 100; 120]%N.
    destruct pre as [|a [|b [|c [|d pre]]]]; cbn [startsWith app]; intros H;
      try exact H;
      repeat match goal with
             | |- context [N.eqb ?x ?y] => is_var y; destruct (N.eqb x y)
             end; reflexivity.
Qed.

Lemma replace_ext_docs_root (rest : jsstring) :
  startsWith (replace_ext (lit "docs/" ++ rest)) (lit "src/") = false.
Proof.
  change (lit "docs/" ++ rest) with (100%N :: (lit "ocs/" ++ rest)).
  rewrite replace_ext_step.
  replace (ext_matches_here (100%N :: lit "ocs/" ++ rest)) with false.
  - reflexivity.
  - change (lit "ocs/" ++ rest) with (111%N :: 99%N :: 115%N :: 47%N :: rest).
    reflexivity.
Qed.

(** The derivation is idempotent: a derived documentation path is mapped
    to itself, so a changed documentation file is looked up under its own
    path. *)
Theorem docPath_idempotent (path : jsstring) :
  docPath (docPath path) = docPath path.
Proof.
  unfold docPath.
  assert (Hroot : startsWith (replace_ext (replace_src_root path)) (lit "src/") = false).
  { unfold replace_src_root. destruct (startsWith path (lit "src/")) eqn:E.
    - apply replace_ext_docs_root.
    - now apply replace_ext_keeps_root. }
  rewrite (replace_src_root_other _ Hroot). apply replace_ext_idempotent.
Qed.

(** A path that neither starts with [src/] nor ends in a source extension
    is its own documentation path. *)
Theorem docPath_unrelated_path_unchanged (path : jsstring) :
  startsWith path (lit "src/") = false ->
  no_source_ext path ->
  docPath path = path.
Proof.
  intros Hroot Hext. unfold docPath.
  rewrite (replace_src_root_other _ Hroot). now apply replace_ext_no_match.
Qed.

Lemma no_source_ext_docs (rest : jsstring) :
  no_source_ext rest -> no_source_ext (lit "docs/" ++ rest).
Proof.
  unfold no_source_ext. intros H pre e.
  change (lit "docs/" ++ rest) with (100%N :: 111%N :: 99%N :: 115%N :: 47%N :: rest).
  destruct pre as [|a [|b [|c [|d [|f pre]]]]];
    try (destruct e; discriminate).
  intros E. injection E as _ _ _ _ _ E. exact (H pre e E).
Qed.

(** The two rewrites are independent: outside [src/] only the extension
    changes, and inside [src/] a path without a source extension only
    changes its root. *)
Theorem docPath_partial_rewrites :
  (forall pre e,
      startsWith (pre ++ ext_string e) (lit "src/") = false ->
      docPath (pre ++ ext_string e) = pre ++ lit ".mdx")
  /\ (forall rest,
        no_source_ext rest ->
        docPath (lit "src/" ++ rest) = lit "docs/" ++ rest).
Proof.
  split.
  - intros pre e H. unfold docPath.
    rewrite (replace_src_root_other _ H). apply replace_ext_suffix.
  - intros rest H. unfold docPath.
    rewrite replace_src_root_prefix.
    now apply replace_ext_no_match, no_source_ext_docs.
Qed.

(** *** More on template selection *)

Lemma known_files_In (state : ReviewState) (F : DocFile -> bool) (f : DocFile) :
  In f (known_files state F) ->
  exists d, docInfo state = Some d /\ In f (di_files d) /\ F f = true.
Proof.
  unfold known_files. destruct (docInfo state) as [d|]; [|contradiction].
  intros H. apply filter_In in H as [Hin HF]. now exists d.
Qed.

Lemma selected_content (state : ReviewState) (F : DocFile -> bool) (c : jsstring) :
  (forall f, F f = true -> otruthy (df_content f) = true) ->
  In c (map content_string (known_files state F)) ->
  c <> [] /\ exists d f, docInfo state = Some d /\ In f (di_files d)
                         /\ df_content f = Some c.
Proof.
  intros HF Hin. apply in_map_iff in Hin as (f & Hc & Hf).
  destruct (known_files_In _ _ _ Hf) as (d & Hd & Hin & Htrue).
  apply HF, otruthy_content in Htrue as (c' & Hcontent & Hne & Hstr).
  assert (Hcc : c' = c) by congruence. rewrite Hcc in Hcontent, Hne.
  split; [exact Hne|]. now exists d, f.
Qed.

(** Whatever is selected is the non-empty content of a known file: absent
    and empty contents are never handed to the generator, and without
    [docInfo] nothing is selected. *)
Theorem similarDocs_selects_known_contents
  (path : jsstring) (templatePaths : option (list jsstring)) (state : ReviewState) :
  (forall c,
      In c (similarDocs_for path templatePaths state) ->
      c <> [] /\ exists d f, docInfo state = Some d /\ In f (di_files d)
                             /\ df_content f = Some c)
  /\ (docInfo state = None -> similarDocs_for path templatePaths state = []).
Proof.
  split.
  - intros c. unfold similarDocs_for, findSimilarDocs.
    assert (Hcat : forall f,
      category_filter path (category_of path) f = true ->
      otruthy (df_content f) = true).
    { intros f H. unfold category_filter in H.
      apply andb_true_iff in H as [H _]. apply andb_true_iff in H as [H _].
      now apply andb_true_iff in H as [_ H]. }
    assert (Htpl : forall f,
      template_filter templatePaths f = true -> otruthy (df_content f) = true).
    { intros f H. unfold template_filter in H.
      now apply andb_true_iff in H as [_ H]. }
    destruct (paths_given templatePaths).
    + cbv zeta.
      destruct (known_files state (template_filter templatePaths)) eqn:E.
      * apply selected_content, Hcat.
      * rewrite <- E. apply selected_content, Htpl.
    + apply selected_content, Hcat.
  - intros Hnone. unfold similarDocs_for, findSimilarDocs, known_files.
    rewrite Hnone. now destruct (paths_given templatePaths).
Qed.

(** The category of a path is its second-to-last segment, whatever
    precedes it; a path of a single segment has none. *)
Theorem category_of_segments :
  (forall dir cat file,
      slash_free cat -> slash_free file ->
      category_of (dir ++ slash :: cat ++ slash :: file) = Some cat)
  /\ (forall cat file,
        slash_free cat -> slash_free file ->
        category_of (cat ++ slash :: file) = Some cat)
  /\ (forall file, slash_free file -> category_of file = None).
Proof.
  split; [|split].
  - intros dir cat file Hc Hf. unfold category_of.
    rewrite !split_slash_app, (split_slash_free Hc), (split_slash_free Hf).
    change ([cat] ++ [file]) with [cat; file].
    now rewrite slice_m2_m1_last_two.
  - intros cat file Hc Hf. unfold category_of.
    rewrite split_slash_app, (split_slash_free Hc), (split_slash_free Hf).
    reflexivity.
  - intros file Hf. unfold category_of. now rewrite (split_slash_free Hf).
Qed.

(** *** commitChange and getCommitInfo *)

Lemma change_type_of_status (status : jsstring) :
  (Commits.change_type_of status = added <-> status = lit "added")
  /\ (Commits.change_type_of status = deleted <-> status = lit "removed")
  /\ (Commits.change_type_of status = modified <->
      status <> lit "added" /\ status <> lit "removed").
Proof.
  unfold Commits.change_type_of.
  destruct (Js.eqb status (lit "added")) eqn:Ea.
  - apply eqb_eq in Ea. subst status.
    repeat split; try discriminate; try tauto; intros [H _]; congruence.
  - apply eqb_neq in Ea. destruct (Js.eqb status (lit "removed")) eqn:Er.
    + apply eqb_eq in Er. subst status.
      repeat split; try discriminate; try tauto; intros [_ H]; congruence.
    + apply eqb_neq in Er. repeat split; try discriminate; try tauto.
Qed.

Lemma combine_map_In (A B : Type) (g : A -> B) (l : list A) (x : A) (y : B) :
  In (x, y) (combine l (map g l)) -> y = g x.
Proof.
  induction l as [|a l IH]; [contradiction|].
  cbn. intros [E|H]; [now inversion E|now apply IH].
Qed.

Section CommitActions.

Variable W : Type.
Variable gateway :
  forall rq : Commits.Request, W -> W * (Error + Commits.Response rq).
Variable base64_encode : jsstring -> jsstring.

(** With the token set and a reconciled branch in the state,
    [commitChange] looks the file up on that branch and then writes it to
    that branch exactly once, whatever the lookup answered: the write
    carries the [sha] of the file when the lookup found one and no [sha]
    when the lookup was rejected or found none.  The action returns the
    state unchanged, or throws what the write was rejected with. *)
Theorem commitChange_writes_once
  (env : Env) (state : ReviewState) (branch : BranchInfo)
  (owner repo path content message : jsstring) (w : W) :
  otruthy (GITHUB_TOKEN env) = true ->
  existing_branch state = Some branch ->
  let lookup := Commits.repos_getContent owner repo path (bi_name branch) in
  let sha :=
    match snd (gateway lookup w) with
    | inr (Some s) => if truthy s then Some s else None
    | _ => None
    end in
  let write :=
    Commits.repos_createOrUpdateFileContents owner repo path message
      (base64_encode content) (bi_name branch) sha in
  let action :=
    Commits.commitChange base64_encode env state
      (Some {| Commits.cc_owner := Some owner; Commits.cc_repo := Some repo;
               Commits.cc_path := Some path; Commits.cc_content := Some content;
               Commits.cc_message := Some message |}) in
  Commits.trace gateway action w = [lookup; write]
  /\ Commits.outcome gateway action w =
       match snd (gateway write (fst (gateway lookup w))) with
       | inl e => inl e
       | inr _ => inr state
       end.
Proof.
  intros Htok Hbranch lookup sha write action.
  subst action write sha lookup.
  unfold Commits.trace, Commits.outcome, Commits.commitChange.
  rewrite Htok, Hbranch.
  cbn [negb Commits.cc_owner Commits.cc_repo Commits.cc_path Commits.cc_content
       Commits.cc_message].
  unfold Commits.current_sha, Commits.sha_field. cbn.
  destruct (gateway (Commits.repos_getContent owner repo path (bi_name branch)) w)
    as [w1 [e|[s|]]]; cbn.
  - destruct (gateway _ w1) as [w2 [e'|[]]]; split; reflexivity.
  - destruct (truthy s);
      destruct (gateway _ w1) as [w2 [e'|[]]]; split; reflexivity.
  - destruct (gateway _ w1) as [w2 [e'|[]]]; split; reflexivity.
Qed.

(** [commitChange] issues no request unless the token is set, the state
    holds an existing branch and its five parameters are strings. *)
Theorem commitChange_requests_only_when_ready
  (env : Env) (state : ReviewState) (parameters : option Commits.CommitChangeParams)
  (w : W) :
  Commits.trace gateway (Commits.commitChange base64_encode env state parameters) w
    <> [] ->
  otruthy (GITHUB_TOKEN env) = true
  /\ (exists b, branchInfo state = Some b /\ bi_exists b = true)
  /\ (exists p owner repo path content message,
        parameters = Some p
        /\ Commits.cc_owner p = Some owner /\ Commits.cc_repo p = Some repo
        /\ Commits.cc_path p = Some path /\ Commits.cc_content p = Some content
        /\ Commits.cc_message p = Some message).
Proof.
  unfold Commits.trace, Commits.commitChange, existing_branch. intros H.
  destruct (otruthy (GITHUB_TOKEN env)); [|now contradiction H].
  destruct (branchInfo state) as [b|]; [|now contradiction H].
  destruct (bi_exists b) eqn:Hb; [|now contradiction H].
  destruct parameters as [p|]; [|now contradiction H].
  destruct (Commits.cc_owner p) as [owner|] eqn:Ho; [|now contradiction H].
  destruct (Commits.cc_repo p) as [repo|] eqn:Hr; [|now contradiction H].
  destruct (Commits.cc_path p) as [path|] eqn:Hp; [|now contradiction H].
  destruct (Commits.cc_content p) as [content|] eqn:Hc; [|now contradiction H].
  destruct (Commits.cc_message p) as [message|] eqn:Hm; [|now contradiction H].
  split; [reflexivity|]. split; [now exists b|].
  now exists p, owner, repo, path, content, message.
Qed.

(** With both calls answered, [getCommitInfo] returns the given state with
    its [commitInfo] field set (and no other field changed) to a record
    that has one entry per changed file, in order and under its file name: a file is recorded as added
    exactly when its status is [added], as deleted exactly when its status
    is [removed] and as modified for every other status; a missing patch
    gives the empty diff and a [null] body the empty description. *)
Theorem getCommitInfo_records_change
  (env : Env) (state : ReviewState) (owner repo : option jsstring)
  (pull_number : option Z) (pr : Commits.PullDetails)
  (files : list Commits.PullFile) (w w1 w2 : W) :
  otruthy (GITHUB_TOKEN env) = true ->
  Commits.answers gateway (Commits.pulls_get owner repo pull_number) w pr w1 ->
  Commits.answers gateway (Commits.pulls_listFiles owner repo pull_number) w1 files w2 ->
  exists c st,
    Commits.outcome gateway
      (Commits.getCommitInfo env state
         (Some {| Commits.gci_owner := owner; Commits.gci_repo := repo;
                  Commits.gci_pull_number := pull_number |})) w
    = inr st
    /\ commitInfo st = Some c
    /\ docInfo st = docInfo state
    /\ branchInfo st = branchInfo state
    /\ generatedContent st = generatedContent state
    /\ config st = config state
    /\ List.length (ci_files c) = List.length files
    /\ map cf_path (ci_files c) = map Commits.pf_filename files
    /\ ci_title c = Commits.pd_title pr
    /\ ci_base_branch c = Commits.pd_base_ref pr
    /\ ci_head_branch c = Commits.pd_head_ref pr
    /\ (Commits.pd_body pr = None -> ci_description c = [])
    /\ (forall f cf,
          In (f, cf) (combine files (ci_files c)) ->
          (cf_type cf = added <-> Commits.pf_status f = lit "added")
          /\ (cf_type cf = deleted <-> Commits.pf_status f = lit "removed")
          /\ (cf_type cf = modified <->
              Commits.pf_status f <> lit "added"
              /\ Commits.pf_status f <> lit "removed")
          /\ (Commits.pf_patch f = None -> cf_diff cf = [])).
Proof.
  intros Htok Hget Hfiles. unfold Commits.answers in *.
  exists (Commits.commitInfo_of pr files),
    (with_commitInfo state (Commits.commitInfo_of pr files)).
  split; [|do 5 (split; [reflexivity|]);
           split; [|split; [|split; [|split; [|split; [|split]]]]]].
  - unfold Commits.outcome, Commits.getCommitInfo. rewrite Htok.
    cbn. rewrite Hget. cbn. rewrite Hfiles. reflexivity.
  - cbn. apply length_map.
  - cbn. rewrite map_map. reflexivity.
  - reflexivity.
  - reflexivity.
  - reflexivity.
  - intros Hbody. cbn. now rewrite Hbody.
  - intros f cf Hin. apply combine_map_In in Hin. subst cf. cbn.
    destruct (change_type_of_status (Commits.pf_status f)) as (Ha & Hd & Hm).
    split; [exact Ha|]. split; [exact Hd|]. split; [exact Hm|].
    now intros ->.
Qed.

(** [getCommitInfo] never writes and makes at most two requests; it does
    not validate its parameters, so without any it still asks the remote,
    with every field undefined; whenever it returns, both requests were
    made and the returned state has its [commitInfo] field set, the other
    fields being those of the given state; and a rejected [pulls.get] is
    thrown. *)
Theorem getCommitInfo_reads_and_fails_fast
  (env : Env) (state : ReviewState)
  (parameters : option Commits.GetCommitInfoParams) (w : W) :
  let t := Commits.trace gateway (Commits.getCommitInfo env state parameters) w in
  calls_of_writes t = 0%nat
  /\ (List.length t <= 2)%nat
  /\ (otruthy (GITHUB_TOKEN env) = true -> parameters = None ->
      hd_error t = Some (Commits.pulls_get None None None))
  /\ (forall st,
        Commits.outcome gateway (Commits.getCommitInfo env state parameters) w = inr st ->
        List.length t = 2%nat
        /\ (exists c, commitInfo st = Some c)
        /\ docInfo st = docInfo state
        /\ branchInfo st = branchInfo state
        /\ generatedContent st = generatedContent state
        /\ config st = config state)
  /\ (forall e w1,
        gateway
          (Commits.pulls_get
             match parameters with Some p => Commits.gci_owner p | None => None end
             match parameters with Some p => Commits.gci_repo p | None => None end
             match parameters with
             | Some p => Commits.gci_pull_number p
             | None => None
             end) w = (w1, inl e) ->
        otruthy (GITHUB_TOKEN env) = true ->
        Commits.outcome gateway (Commits.getCommitInfo env state parameters) w = inl e).
Proof.
  unfold Commits.trace, Commits.outcome, Commits.getCommitInfo, calls_of_writes.
  destruct (otruthy (GITHUB_TOKEN env)); cbn.
  - destruct (gateway _ w) as [w1 [e|pr]] eqn:E1; cbn.
    + split; [reflexivity|]. split; [lia|]. split; [intros _ ->; reflexivity|].
      split; [discriminate|]. intros e' w1' H _. now inversion H.
    + destruct (gateway _ w1) as [w2 [e|files]]; cbn;
        (split; [reflexivity|]; split; [lia|]; split;
         [intros _ ->; reflexivity|]); (split; [|discriminate]);
        intros st H; [discriminate|].
      inversion H. split; [reflexivity|]. split; [eexists; reflexivity|].
      repeat split.
  - split; [reflexivity|]. split; [lia|]. split; [discriminate|].
    split; discriminate.
Qed.

End CommitActions.

(** *** From the branch reconciler to the writers *)

Section Handover.

Variable W : Type.
Variable gateway : forall rq : Request, W -> W * (Error + Response rq).
Variable W' : Type.
Variable commits :
  forall rq : Commits.Request, W' -> W' * (Error + Commits.Response rq).
Variable base64_encode : jsstring -> jsstring.

(** The state a successful [getBranch] returns lets the writers through,
    on the branch it reconciled: [commitChange] on that state looks up and
    writes its file on exactly that branch, and [managePR] on that state
    gets as far as listing the pull requests. *)
Theorem getBranch_hands_branch_to_writers
  (env : Env) (state : ReviewState) (parameters : option GetBranchParams)
  (w : W) (st : ReviewState) :
  outcome gateway (getBranch env state parameters) w = inr st ->
  exists b,
    branchInfo st = Some b
    /\ (forall owner repo path content message w',
          exists sha,
            Commits.trace commits
              (Commits.commitChange base64_encode env st
                 (Some {| Commits.cc_owner := Some owner;
                          Commits.cc_repo := Some repo;
                          Commits.cc_path := Some path;
                          Commits.cc_content := Some content;
                          Commits.cc_message := Some message |})) w'
            = [Commits.repos_getContent owner repo path (bi_name b);
               Commits.repos_createOrUpdateFileContents owner repo path message
                 (base64_encode content) (bi_name b) sha])
    /\ (forall owner repo title body base_branch labels n w0,
          hd_error
            (trace gateway
               (managePR env st
                  (Some {| mp_owner := Some owner; mp_repo := Some repo;
                           mp_title := Some title; mp_body := Some body;
                           mp_base_branch := base_branch; mp_labels := labels;
                           mp_original_pr_number := n |})) w0)
          = Some (pulls_list owner repo)).
Proof.
  intros H. destruct (getBranch_success_inv _ _ _ _ _ H) as (Htok & b & -> & Hb).
  exists b. split; [reflexivity|]. split.
  - intros owner repo path content message w'.
    unfold Commits.trace, Commits.commitChange, existing_branch.
    rewrite Htok. cbn [negb branchInfo with_branchInfo]. rewrite Hb.
    cbn [Commits.cc_owner Commits.cc_repo Commits.cc_path Commits.cc_content
         Commits.cc_message].
    unfold Commits.current_sha. cbn.
    destruct (commits (Commits.repos_getContent owner repo path (bi_name b)) w')
      as [w1 [e|sha]]; cbn;
      destruct (commits _ w1) as [w2 [e'|[]]]; eexists; reflexivity.
  - intros owner repo title body base_branch labels n w0.
    unfold trace, managePR, existing_branch.
    rewrite Htok. cbn [negb branchInfo with_branchInfo]. rewrite Hb.
    cbn [mp_owner mp_repo mp_title mp_body mp_base_branch mp_labels
         mp_original_pr_number].
    cbn [bind await run].
    destruct (gateway (pulls_list owner repo) w0) as [w1 [e|pulls]];
      [reflexivity|].
    now destruct (run gateway _ w1) as [[t w2] out].
Qed.

End Handover.

(* ================================================================== *)
(** ** The further properties at work on the sample remotes            *)
(* ================================================================== *)

Lemma getBranch_success_sets_branch_witness :
  exists b,
    with_branchInfo sample_state
      {| bi_name := lit "docs/update-pr-42"; bi_sha := lit "a1b2c3";
         bi_exists := true |}
    = with_branchInfo sample_state b
    /\ bi_exists b = true
    /\ existing_branch
         (with_branchInfo sample_state
            {| bi_name := lit "docs/update-pr-42"; bi_sha := lit "a1b2c3";
               bi_exists := true |}) = Some b.
Proof.
  apply (@getBranch_success_sets_branch Heads (sample_gateway [] None)
           sample_env sample_state getBranch_42 sample_heads).
  reflexivity.
Defined.

Lemma getBranch_rejected_creation_is_fatal_witness :
  outcome (sample_gateway [] None)
    (getBranch sample_env sample_state getBranch_42) taken_heads
  = inl (lit "Reference already exists").
Proof.
  apply (@getBranch_rejected_creation_is_fatal Heads (sample_gateway [] None)
           sample_env sample_state (lit "acme") (lit "sdk") (Some 42%Z)
           (lit "main") (lit "a1b2c3") (lit "Reference already exists")
           taken_heads taken_heads taken_heads taken_heads taken_heads).
  - reflexivity.
  - exists []. split; reflexivity.
  - reflexivity.
  - reflexivity.
  - reflexivity.
Defined.

Lemma managePR_returns_state_unchanged_witness :
  sample_state_with_branch = sample_state_with_branch.
Proof.
  apply (@managePR_returns_state_unchanged Heads
           (sample_gateway [other_pull; docs_pull_42] None)
           sample_env sample_state_with_branch
           (managePR_42 (Some [lit "documentation"])) sample_heads).
  reflexivity.
Defined.

Lemma managePR_requests_only_when_ready_witness :
  otruthy (GITHUB_TOKEN sample_env) = true
  /\ (exists b, branchInfo sample_state_with_branch = Some b /\ bi_exists b = true)
  /\ (exists p owner repo title body,
        managePR_42 None = Some p
        /\ mp_owner p = Some owner /\ mp_repo p = Some repo
        /\ mp_title p = Some title /\ mp_body p = Some body).
Proof.
  apply (@managePR_requests_only_when_ready Heads (sample_gateway [] None)
           sample_env sample_state_with_branch (managePR_42 None) sample_heads).
  vm_compute. discriminate.
Defined.

Lemma managePR_create_path_witness :
  run (sample_gateway [other_pull] None)
    (managePR sample_env sample_state_with_branch
       (managePR_42 (Some [lit "documentation"]))) sample_heads
  = ([pulls_list (lit "acme") (lit "sdk");
      repos_get (lit "acme") (lit "sdk");
      pulls_create (lit "acme") (lit "sdk") (managePR_marker ++ lit " for PR #42")
        (lit "Documentation update for #42") (lit "docs-42") (lit "main");
      issues_addLabels (lit "acme") (lit "sdk") 43 [lit "documentation"];
      issues_createComment (lit "acme") (lit "sdk") 42
        (lit "I've created a documentation update PR: #" ++ number_toString 43)],
     sample_heads, inr sample_state_with_branch).
Proof.
  apply (@managePR_create_path Heads (sample_gateway [other_pull] None)
           sample_env sample_state_with_branch sample_branch
           (lit "acme") (lit "sdk") (managePR_marker ++ lit " for PR #42")
           (lit "Documentation update for #42") None (Some [lit "documentation"])
           42%Z [other_pull] (lit "main") 43%Z
           sample_heads sample_heads sample_heads sample_heads sample_heads
           sample_heads).
  - reflexivity.
  - reflexivity.
  - reflexivity.
  - reflexivity.
  - lia.
  - reflexivity.
  - reflexivity.
  - reflexivity.
  - reflexivity.
Defined.

Lemma managePR_labels_witness :
  calls is_setLabels
    (trace (sample_gateway [other_pull; docs_pull_42] None)
       (managePR sample_env sample_state_with_branch (managePR_42 None))
       sample_heads) = 0%nat
  /\ calls is_addLabels
       (trace (sample_gateway [other_pull; docs_pull_42] None)
          (managePR sample_env sample_state_with_branch (managePR_42 None))
          sample_heads) = 0%nat.
Proof.
  apply (proj1 (@managePR_labels Heads
                  (sample_gateway [other_pull; docs_pull_42] None)
                  sample_env sample_state_with_branch sample_branch
                  (lit "acme") (lit "sdk") (managePR_marker ++ lit " for PR #42")
                  (lit "Documentation update for #42") None None (Some 42%Z)
                  [other_pull; docs_pull_42] sample_heads sample_heads
                  eq_refl eq_refl eq_refl)).
  reflexivity.
Defined.

Lemma findDocumentation_listing_failure_is_fatal_witness :
  run offline_gateway
    (findDocumentation (fun s => s) sample_env sample_state
       (Some {| fd_owner := lit "acme"; fd_repo := lit "sdk"; fd_pull_number := 42;
                fd_paths := [lit "src/llm/openai.ts"] |})) tt
  = ([pulls_list (lit "acme") (lit "sdk")], tt, inl (lit "Service Unavailable")).
Proof.
  apply (proj1 (@findDocumentation_listing_failure_is_fatal unit offline_gateway
                  (fun s => s) sample_env sample_state (lit "acme") (lit "sdk")
                  42%Z [lit "src/llm/openai.ts"] tt eq_refl)).
  reflexivity.
Defined.

Lemma fileExt_of_last_dot_witness :
  fileExt_of (lit "docs/v1.2/openai" ++ dot :: lit "mdx") = dot :: lit "mdx"
  /\ fileExt_of (lit "LICENSE") = lit "LICENSE".
Proof.
  split.
  - apply (proj1 fileExt_of_last_dot). reflexivity.
  - apply (proj2 fileExt_of_last_dot). reflexivity.
Defined.

Lemma writeDocumentation_generator_only_if_valid_witness :
  otruthy (OPENAI_API_KEY sample_env) = true
  /\ exists p path,
       Some {| wd_path := Some (lit "docs/llm/openai.mdx");
               wd_type := Some (lit "doc"); wd_context := None |} = Some p
       /\ wd_path p = Some path
       /\ (wd_type p = Some (lit "navigation")
           \/ (wd_type p = Some (lit "doc")
               /\ array_includes (cfg_docExtensions (config sample_state))
                    (fileExt_of path) = true)).
Proof.
  apply (proj2 (proj2 (@writeDocumentation_generator_only_if_valid Heads
                         (sample_gateway [] (Some fenced_text))
                         sample_navigation_messages sample_documentation_messages
                         sample_env sample_state
                         (Some {| wd_path := Some (lit "docs/llm/openai.mdx");
                                  wd_type := Some (lit "doc");
                                  wd_context := None |})
                         sample_heads))).
  vm_compute. discriminate.
Defined.

Lemma writeDocumentation_doc_accepts_iff_witness :
  exists st g,
    outcome (sample_gateway [] (Some fenced_text))
      (writeDocumentation sample_navigation_messages sample_documentation_messages
         sample_env sample_state
         (Some {| wd_path := Some (lit "docs/llm/openai.mdx");
                  wd_type := Some (lit "doc"); wd_context := None |}))
      sample_heads = inr st
    /\ generatedContent st = Some g
    /\ gc_content g = fenced_text
    /\ gc_update_type g = Some (lit "update").
Proof.
  destruct (proj1 (@writeDocumentation_doc_accepts_iff Heads
                     (sample_gateway [] (Some fenced_text))
                     sample_navigation_messages sample_documentation_messages
                     sample_env sample_state (lit "docs/llm/openai.mdx") None
                     (Some fenced_text) sample_heads sample_heads
                     eq_refl eq_refl eq_refl))
    as (st & g & Hout & Hg & Hc & _ & _ & Hu & _).
  - split; [vm_compute; lia|]. repeat split; reflexivity.
  - exists st, g. repeat split; assumption.
Defined.

Lemma writeDocumentation_navigation_unchecked_witness :
  exists st g,
    outcome (sample_gateway [] (Some (lit "TODO")))
      (writeDocumentation sample_navigation_messages sample_documentation_messages
         sample_env sample_state
         (Some {| wd_path := Some (lit "mint"); wd_type := Some (lit "navigation");
                  wd_context := None |}))
      sample_heads = inr st
    /\ generatedContent st = Some g
    /\ gc_content g = lit "TODO"
    /\ gc_type g = navigation
    /\ gc_update_type g = None.
Proof.
  destruct (@writeDocumentation_navigation_unchecked Heads
              (sample_gateway [] (Some (lit "TODO")))
              sample_navigation_messages sample_documentation_messages
              sample_env sample_state (lit "mint") None (Some (lit "TODO"))
              sample_heads sample_heads)
    as (st & g & Hout & Hg & Hc & _ & Ht & Hu & _).
  - reflexivity.
  - reflexivity.
  - exists st, g. repeat split; assumption.
Defined.

Lemma docPath_unrelated_path_unchanged_witness :
  docPath (lit "a.md") = lit "a.md".
Proof.
  apply docPath_unrelated_path_unchanged.
  - reflexivity.
  - intros pre e H.
    destruct e; do 5 (destruct pre as [|? pre]; try discriminate H).
Defined.

Lemma docPath_partial_rewrites_witness :
  docPath (lit "lib/a" ++ ext_string ext_ts) = lit "lib/a" ++ lit ".mdx".
Proof.
  apply (proj1 docPath_partial_rewrites). reflexivity.
Defined.

Lemma similarDocs_selects_known_contents_witness :
  lit "# Azure" <> []
  /\ exists d f, docInfo nested_state = Some d /\ In f (di_files d)
                 /\ df_content f = Some (lit "# Azure").
Proof.
  apply (proj1 (similarDocs_selects_known_contents
                  (lit "docs/llm/openai.mdx") None nested_state)).
  left. reflexivity.
Defined.

Lemma category_of_segments_witness :
  category_of (lit "docs" ++ slash :: lit "llm" ++ slash :: lit "openai.mdx")
  = Some (lit "llm").
Proof.
  apply (proj1 category_of_segments); reflexivity.
Defined.

Lemma commitChange_writes_once_witness :
  Commits.trace Commits.sample_gateway
    (Commits.commitChange (fun s => s) sample_env sample_state_with_branch
       commit_openai) 0%nat
  = [Commits.repos_getContent (lit "acme") (lit "sdk") (lit "docs/llm/openai.mdx")
       (lit "docs-42");
     Commits.repos_createOrUpdateFileContents (lit "acme") (lit "sdk")
       (lit "docs/llm/openai.mdx") (lit "docs: update openai") (lit "# OpenAI")
       (lit "docs-42") (Some (lit "f00d"))].
Proof.
  apply (proj1 (@commitChange_writes_once nat Commits.sample_gateway (fun s => s)
                  sample_env sample_state_with_branch sample_branch
                  (lit "acme") (lit "sdk") (lit "docs/llm/openai.mdx")
                  (lit "# OpenAI") (lit "docs: update openai") 0%nat
                  eq_refl eq_refl)).
Defined.

Lemma commitChange_requests_only_when_ready_witness :
  otruthy (GITHUB_TOKEN sample_env) = true.
Proof.
  apply (proj1 (@commitChange_requests_only_when_ready nat Commits.sample_gateway
                  (fun s => s) sample_env sample_state_with_branch commit_openai
                  0%nat ltac:(vm_compute; discriminate))).
Defined.

Lemma getCommitInfo_records_change_witness :
  exists c st,
    Commits.outcome Commits.sample_gateway
      (Commits.getCommitInfo sample_env sample_state
         (Some {| Commits.gci_owner := Some (lit "acme");
                  Commits.gci_repo := Some (lit "sdk");
                  Commits.gci_pull_number := Some 42%Z |})) 0%nat
    = inr st
    /\ commitInfo st = Some c
    /\ map cf_path (ci_files c) = map Commits.pf_filename Commits.sample_files
    /\ List.length (ci_files c) = 3%nat.
Proof.
  destruct (@getCommitInfo_records_change nat Commits.sample_gateway
              sample_env sample_state (Some (lit "acme")) (Some (lit "sdk"))
              (Some 42%Z) Commits.sample_details Commits.sample_files
              0%nat 0%nat 0%nat eq_refl eq_refl eq_refl)
    as (c & st & Hout & Hc & _ & _ & _ & _ & Hlen & Hpaths & _).
  exists c, st. repeat split; assumption.
Defined.

Lemma getCommitInfo_reads_and_fails_fast_witness :
  hd_error
    (Commits.trace Commits.sample_gateway
       (Commits.getCommitInfo sample_env sample_state None) 0%nat)
  = Some (Commits.pulls_get None None None)
  /\ exists c,
       commitInfo (with_commitInfo sample_state
                     (Commits.commitInfo_of Commits.sample_details
                        Commits.sample_files)) = Some c.
Proof.
  split.
  - apply (proj1 (proj2 (proj2 (@getCommitInfo_reads_and_fails_fast nat
                                  Commits.sample_gateway sample_env sample_state
                                  None 0%nat)))).
    + reflexivity.
    + reflexivity.
  - apply (proj1 (proj2 (proj1 (proj2 (proj2 (proj2
             (@getCommitInfo_reads_and_fails_fast nat Commits.sample_gateway
                sample_env sample_state None 0%nat))))
             (with_commitInfo sample_state
                (Commits.commitInfo_of Commits.sample_details
                   Commits.sample_files)) eq_refl))).
Defined.

Lemma getBranch_hands_branch_to_writers_witness :
  exists b,
    branchInfo
      (with_branchInfo sample_state
         {| bi_name := lit "docs/update-pr-42"; bi_sha := lit "a1b2c3";
            bi_exists := true |}) = Some b.
Proof.
  destruct (@getBranch_hands_branch_to_writers Heads (sample_gateway [] None)
              nat Commits.sample_gateway (fun s => s)
              sample_env sample_state getBranch_42 sample_heads
              (with_branchInfo sample_state
                 {| bi_name := lit "docs/update-pr-42"; bi_sha := lit "a1b2c3";
                    bi_exists := true |}) eq_refl)
    as (b & Hb & _).
  exists b. exact Hb.
Defined.
